(** * ALPHAdominico subscription backend (src/main.py): model and properties

    A shallow embedding of the request handlers of [src/main.py]: the three
    SQLite tables, the signature helpers, [upsert_subscriber], [log_payment]
    and the five endpoints, followed by the properties of the reconciliation
    engine.

    Conventions.
    - A Python [str] is a [string]; the character of code [c] stands for the
      code point U+00[c], so the characters of code 128 and above are the
      non-ASCII ones a header (decoded as latin-1) or a JSON string can carry.
    - Python [bytes] are [list byte].
    - A handler is a function of the world (database, clock position, calls
      made to the payment provider) that returns a result or a raised
      exception together with the new world.
    - Logging ([log.info] and the like) is not part of the state and is left
      out, except where formatting the message can raise. *)

From Stdlib Require Import ZArith List Bool Lia.
From Stdlib.Strings Require Import String Ascii Byte.
From Stdlib Require Import DecimalString.
Import ListNotations.
Open Scope string_scope.
Open Scope list_scope.
Open Scope Z_scope.

Set Warnings "-register-all".

(* ================================================================== *)
(** * Strings and bytes *)

Definition bytes := list byte.

Definition byte_val (b : byte) : Z := Z.of_N (Byte.to_N b).

Definition byte_of_Z (z : Z) : byte :=
  match Byte.of_N (Z.to_N (z mod 256)) with
  | Some b => b
  | None => x00
  end.

Definition char_code (c : ascii) : Z := Z.of_N (N_of_ascii c).

(** [str.isascii()]: what [hmac.compare_digest] demands of [str] arguments. *)
Definition is_ascii_char (c : ascii) : bool := char_code c <? 128.

Fixpoint isascii (s : string) : bool :=
  match s with
  | EmptyString => true
  | String c s' => is_ascii_char c && isascii s'
  end.

(** [str.encode()] (UTF-8) on code points below 256. A [str] of Python can
    also hold a lone surrogate, on which [encode] raises; the strings of this
    model cannot, so that failure is outside every statement below. *)
Definition utf8_char (c : ascii) : bytes :=
  let n := char_code c in
  if n <? 128 then [byte_of_Z n]
  else [byte_of_Z (Z.lor 192 (Z.shiftr n 6)); byte_of_Z (Z.lor 128 (Z.land n 63))].

Fixpoint encode (s : string) : bytes :=
  match s with
  | EmptyString => []
  | String c s' => utf8_char c ++ encode s'
  end.

(** [str.lower()] on code points below 256: A-Z, and the Latin-1 capitals
    U+00C0..U+00DE except the multiplication sign U+00D7. *)
Definition lower_char (c : ascii) : ascii :=
  let n := char_code c in
  if ((65 <=? n) && (n <=? 90)) || ((192 <=? n) && (n <=? 222) && negb (n =? 215))
  then ascii_of_N (Z.to_N (n + 32))
  else c.

Fixpoint lower (s : string) : string :=
  match s with
  | EmptyString => EmptyString
  | String c s' => String (lower_char c) (lower s')
  end.

(** [str(n)] for an integer. *)
Definition str_of_Z (z : Z) : string := NilZero.string_of_int (Z.to_int z).

(* ================================================================== *)
(** * hashlib.sha256 and hmac (FIPS 180-4, RFC 2104) *)

Module SHA256.

Definition mask32 : Z := 0xffffffff.
Definition add32 (a b : Z) : Z := Z.land (a + b) mask32.
Definition rotr (n x : Z) : Z :=
  Z.land (Z.lor (Z.shiftr x n) (Z.shiftl x (32 - n))) mask32.
Definition shr (n x : Z) : Z := Z.shiftr x n.
Definition not32 (x : Z) : Z := Z.lxor x mask32.

Definition Ch (x y z : Z) : Z := Z.lxor (Z.land x y) (Z.land (not32 x) z).
Definition Maj (x y z : Z) : Z :=
  Z.lxor (Z.lxor (Z.land x y) (Z.land x z)) (Z.land y z).
Definition Sigma0 (x : Z) : Z := Z.lxor (Z.lxor (rotr 2 x) (rotr 13 x)) (rotr 22 x).
Definition Sigma1 (x : Z) : Z := Z.lxor (Z.lxor (rotr 6 x) (rotr 11 x)) (rotr 25 x).
Definition sigma0 (x : Z) : Z := Z.lxor (Z.lxor (rotr 7 x) (rotr 18 x)) (shr 3 x).
Definition sigma1 (x : Z) : Z := Z.lxor (Z.lxor (rotr 17 x) (rotr 19 x)) (shr 10 x).

(** The constants are defined as FIPS 180-4 defines them: the first 32 bits
    of the fractional parts of the cube roots (for [K]) and of the square
    roots (for [H0]) of the first primes. *)
Definition is_prime (n : Z) : bool :=
  forallb (fun d => (n <? d * d) || negb (n mod d =? 0))
          (map Z.of_nat (seq 2 (Z.to_nat n - 2))).

Definition primes (count : nat) : list Z :=
  firstn count (filter is_prime (map Z.of_nat (seq 2 400))).

(** The integer cube root of [x], one bit at a time from bit [bits - 1]. *)
Fixpoint cube_root (bits : nat) (x acc : Z) : Z :=
  match bits with
  | O => acc
  | S b =>
      let c := acc + 2 ^ Z.of_nat b in
      if c * c * c <=? x then cube_root b x c else cube_root b x acc
  end.

Definition K : list Z :=
  Eval vm_compute in
    map (fun p => cube_root 40 (p * 2 ^ 96) 0 mod 2 ^ 32) (primes 64).

Definition H0 : list Z :=
  Eval vm_compute in
    map (fun p => Z.sqrt (p * 2 ^ 64) mod 2 ^ 32) (primes 8).

(** Big-endian encoding of [z] on [n] bytes. *)
Fixpoint be_bytes (n : nat) (z : Z) : list Z :=
  match n with
  | O => []
  | S n' => Z.land (Z.shiftr z (8 * Z.of_nat n')) 255 :: be_bytes n' z
  end.

(** The message, a 1 bit, zeros up to 56 mod 64, and the bit length on 8 bytes. *)
Definition pad (msg : list Z) : list Z :=
  let len := Z.of_nat (List.length msg) in
  let zeros := Z.to_nat ((55 - len) mod 64) in
  msg ++ [128] ++ repeat 0 zeros ++ be_bytes 8 (8 * len).

Fixpoint words (fuel : nat) (bs : list Z) : list Z :=
  match fuel, bs with
  | S f, a :: b :: c :: d :: rest =>
      (Z.shiftl a 24 + Z.shiftl b 16 + Z.shiftl c 8 + d) :: words f rest
  | _, _ => []
  end.

(** The message schedule, most recent word first: [W_t] from the sixteen
    words before it. *)
Fixpoint schedule (n : nat) (w : list Z) : list Z :=
  match n with
  | O => w
  | S n' =>
      let wt := add32 (add32 (sigma1 (nth 1 w 0)) (nth 6 w 0))
                      (add32 (sigma0 (nth 14 w 0)) (nth 15 w 0)) in
      schedule n' (wt :: w)
  end.

Record regs := Regs { ra : Z; rb : Z; rc : Z; rd : Z; re : Z; rf : Z; rg : Z; rh : Z }.

Definition round (s : regs) (kw : Z * Z) : regs :=
  let t1 := add32 (add32 (add32 (rh s) (Sigma1 (re s))) (Ch (re s) (rf s) (rg s)))
                  (add32 (fst kw) (snd kw)) in
  let t2 := add32 (Sigma0 (ra s)) (Maj (ra s) (rb s) (rc s)) in
  Regs (add32 t1 t2) (ra s) (rb s) (rc s) (add32 (rd s) t1) (re s) (rf s) (rg s).

Definition regs_of (h : list Z) : regs :=
  Regs (nth 0 h 0) (nth 1 h 0) (nth 2 h 0) (nth 3 h 0)
       (nth 4 h 0) (nth 5 h 0) (nth 6 h 0) (nth 7 h 0).

Definition compress (h : list Z) (block : list Z) : list Z :=
  let w := rev (schedule 48 (rev block)) in
  let s := fold_left round (combine K w) (regs_of h) in
  map (fun p => add32 (fst p) (snd p))
      (combine h [ra s; rb s; rc s; rd s; re s; rf s; rg s; rh s]).

Fixpoint blocks (fuel : nat) (ws : list Z) (h : list Z) : list Z :=
  match fuel, ws with
  | S f, _ :: _ => blocks f (skipn 16 ws) (compress h (firstn 16 ws))
  | _, _ => h
  end.

Definition digest_Z (msg : list Z) : list Z :=
  let p := pad msg in
  let ws := words (List.length p) p in
  flat_map (be_bytes 4) (blocks (List.length ws) ws H0).

End SHA256.

Module HMAC.

Definition block_size : nat := 64.

Definition xor_pad (c : Z) (key : list Z) : list Z :=
  map (fun k => Z.lxor k c) (key ++ repeat 0 (block_size - List.length key)).

(** [hmac.new(key, msg, hashlib.sha256).digest()]. *)
Definition digest_Z (key msg : list Z) : list Z :=
  let key' := if (Nat.ltb block_size (List.length key)) then SHA256.digest_Z key else key in
  SHA256.digest_Z (xor_pad 0x5c key' ++ SHA256.digest_Z (xor_pad 0x36 key' ++ msg)).

Definition hex_digit (n : Z) : ascii :=
  if n <? 10 then ascii_of_N (Z.to_N (48 + n)) else ascii_of_N (Z.to_N (87 + n)).

Fixpoint hex (bs : list Z) : string :=
  match bs with
  | [] => EmptyString
  | b :: bs' =>
      String (hex_digit (Z.land (Z.shiftr b 4) 15))
        (String (hex_digit (Z.land b 15)) (hex bs'))
  end.

(** [hmac.new(key, msg, hashlib.sha256).hexdigest()]. *)
Definition hexdigest (key msg : bytes) : string :=
  hex (digest_Z (map byte_val key) (map byte_val msg)).

End HMAC.

(* ================================================================== *)
(** * Python values and exceptions *)

(** What [json.loads] returns, and the values the handlers pass around:
    [None], [bool], [int], [str], [list], [dict]. A [dict] is the list of its
    items, each key once. JSON numbers with a fraction or an exponent are not
    modelled. *)
Inductive json : Type :=
| JNull
| JBool (b : bool)
| JInt (n : Z)
| JStr (s : string)
| JArr (items : list json)
| JObj (items : list (string * json)).

Inductive exn : Type :=
| HTTPException (status_code : Z) (detail : string)
| AttributeError      (* [.get] on a value that is not a dict *)
| TypeError
| KeyError
| OverflowError       (* an int outside SQLite's 64-bit range *)
| BindError           (* sqlite3: a parameter of an unsupported type *)
| IntegrityError      (* sqlite3: NOT NULL constraint failed *)
| BadRequestError (msg : string)   (* razorpay.errors.BadRequestError *)
| GatewayError (msg : string).     (* any other exception of the razorpay client *)

Inductive result (A : Type) : Type :=
| Ok (a : A)
| Raise (e : exn).
Arguments Ok {A} a.
Arguments Raise {A} e.

Definition rbind {A B} (r : result A) (k : A -> result B) : result B :=
  match r with
  | Ok a => k a
  | Raise e => Raise e
  end.

Declare Scope result_scope.
Delimit Scope result_scope with result.
Notation "'let?' x ':=' r 'in' k" := (rbind r (fun x => k))
  (at level 10, x name, r at level 100, k at level 200) : result_scope.

(** The status code FastAPI answers with: an [HTTPException] gives its own
    code, any other uncaught exception gives 500. *)
Definition http_status {A} (r : result A) : Z :=
  match r with
  | Ok _ => 200
  | Raise (HTTPException c _) => c
  | Raise _ => 500
  end.

Fixpoint assoc {A} (k : string) (kvs : list (string * A)) : option A :=
  match kvs with
  | [] => None
  | (k', v) :: rest => if String.eqb k k' then Some v else assoc k rest
  end.

(** [o.get(k, default)]. *)
Definition py_get (o : json) (k : string) (default : json) : result json :=
  match o with
  | JObj kvs => Ok (match assoc k kvs with Some v => v | None => default end)
  | _ => Raise AttributeError
  end.

(** [o[k]] for a string key. *)
Definition py_getitem (o : json) (k : string) : result json :=
  match o with
  | JObj kvs => match assoc k kvs with Some v => Ok v | None => Raise KeyError end
  | _ => Raise TypeError
  end.

(** Truth value of [if v:]. *)
Definition truthy (v : json) : bool :=
  match v with
  | JNull => false
  | JBool b => b
  | JInt n => negb (n =? 0)
  | JStr s => negb (String.eqb s "")
  | JArr l => match l with [] => false | _ => true end
  | JObj l => match l with [] => false | _ => true end
  end.

Definition is_None (v : json) : bool :=
  match v with JNull => true | _ => false end.

(** [v == s] for a string literal [s]. *)
Definition eq_str (v : json) (s : string) : bool :=
  match v with JStr t => String.eqb t s | _ => false end.

(** [hmac.compare_digest(a, b)] on two [str]: a [TypeError] when either has
    a non-ASCII character, equality otherwise. *)
Definition compare_digest (a b : string) : result bool :=
  if isascii a && isascii b then Ok (String.eqb a b) else Raise TypeError.

(* ================================================================== *)
(** * SQLite values *)

(** A stored or bound value. [SNumeric literal] is the number SQLite read
    from the text [literal] through floating point: a REAL, or the INTEGER
    when that double is integral. Floating point is outside this model, so
    such a number is kept as the literal it was read from; it arises only in
    a column of INTEGER affinity that was given a text, and [bind] yields
    none. *)
Inductive sqlval : Type :=
| SNull
| SInt (n : Z)
| SText (s : string)
| SNumeric (literal : string).

Definition int64 (n : Z) : bool := (- 2 ^ 63 <=? n) && (n <? 2 ^ 63).

(** Binding a Python value as a statement parameter. *)
Definition bind (v : json) : result sqlval :=
  match v with
  | JNull => Ok SNull
  | JBool b => Ok (SInt (if b then 1 else 0))
  | JInt n => if int64 n then Ok (SInt n) else Raise OverflowError
  | JStr s => Ok (SText s)
  | JArr _ | JObj _ => Raise BindError
  end.

(** A column of TEXT affinity stores a number as its text. (The last case
    is never reached: only results of [bind] come here.) *)
Definition text_affinity (v : sqlval) : option string :=
  match v with
  | SNull => None
  | SInt n => Some (str_of_Z n)
  | SText s => Some s
  | SNumeric s => Some s
  end.

Definition bind_text (v : json) : result (option string) :=
  match bind v with
  | Ok s => Ok (text_affinity s)
  | Raise e => Raise e
  end.

Definition sql_truthy (v : sqlval) : bool :=
  match v with
  | SNull => false
  | SInt n => negb (n =? 0)
  | SText s => negb (String.eqb s "")
  | SNumeric _ => true
  end.

(** ** Columns of INTEGER affinity

    A text given to such a column is stored as a number when it is a
    well-formed literal (sqlite3AtoF): blanks, a sign, digits with an
    optional point, an optional exponent with at least one digit, blanks; at
    least one digit before the exponent. A literal of digits alone that fits
    in 64 bits becomes that integer. *)

Definition is_space (c : Z) : bool := (c =? 32) || ((9 <=? c) && (c <=? 13)).
Definition is_digit (c : Z) : bool := (48 <=? c) && (c <=? 57).

Fixpoint skip_spaces (l : list Z) : list Z :=
  match l with
  | c :: r => if is_space c then skip_spaces r else l
  | [] => []
  end.

(** An optional sign at the head: whether it is a minus, and the rest. *)
Definition skip_sign (l : list Z) : bool * list Z :=
  match l with
  | c :: r => if c =? 45 then (true, r) else if c =? 43 then (false, r) else (false, l)
  | [] => (false, [])
  end.

(** The digits at the head of [l]: their value after [acc], how many there
    are after [n], and what follows them. *)
Fixpoint digits (acc : Z) (n : nat) (l : list Z) : Z * nat * list Z :=
  match l with
  | c :: r => if is_digit c then digits (10 * acc + (c - 48)) (S n) r else (acc, n, l)
  | [] => (acc, n, [])
  end.

(** A point and the digits after it: whether there is a point, how many
    digits, the rest. *)
Definition fraction (l : list Z) : bool * nat * list Z :=
  match l with
  | c :: r =>
      if c =? 46 then let '(_, n, r') := digits 0 0 r in (true, n, r')
      else (false, O, l)
  | [] => (false, O, [])
  end.

(** An exponent: whether there is one, whether it has a digit, the rest. *)
Definition exponent (l : list Z) : bool * bool * list Z :=
  match l with
  | c :: r =>
      if (c =? 101) || (c =? 69) then
        let '(_, r1) := skip_sign r in
        let '(_, n, r2) := digits 0 0 r1 in
        (true, negb (Nat.eqb n 0), r2)
      else (false, true, l)
  | [] => (false, true, [])
  end.

Inductive literal : Type :=
| NotNumeric
| IntegerLiteral (n : Z)
| RealLiteral.

Definition numeric_literal (s : string) : literal :=
  let '(negative, l1) := skip_sign (skip_spaces (map char_code (list_ascii_of_string s))) in
  let '(v, n1, l2) := digits 0 0 l1 in
  let '(point, n2, l3) := fraction l2 in
  let '(e, e_valid, l4) := exponent l3 in
  match skip_spaces l4 with
  | [] =>
      if negb (Nat.eqb (n1 + n2) 0) && e_valid then
        if point || e then RealLiteral
        else IntegerLiteral (if negative then - v else v)
      else NotNumeric
  | _ :: _ => NotNumeric
  end.

(** What a column of INTEGER affinity stores for a bound value. *)
Definition integer_affinity (v : sqlval) : sqlval :=
  match v with
  | SText s =>
      match numeric_literal s with
      | IntegerLiteral n => if int64 n then SInt n else SNumeric s
      | RealLiteral => SNumeric s
      | NotNumeric => SText s
      end
  | _ => v
  end.

(* ================================================================== *)
(** * The database (INIT_SQL)

    The AUTOINCREMENT [id] columns are never read back by a handler and are
    left out; a table is the list of its rows in insertion order. The
    INTEGER affinity of [amount_paise] (text that spells a number is stored
    as that number) is not modelled: a bound text is kept as text. *)

Record Subscriber := {
  s_email : string;                         (* TEXT NOT NULL UNIQUE *)
  s_name : option string;
  s_phone : option string;
  s_plan_key : string;                      (* TEXT NOT NULL *)
  s_status : string;                        (* TEXT NOT NULL *)
  s_razorpay_customer_id : option string;
  s_razorpay_sub_id : option string;
  s_created_at : string;
  s_trial_start_at : option string;
  s_activated_at : option string;
  s_cancelled_at : option string;
  s_cancel_at_period_end : sqlval;          (* INTEGER NOT NULL *)
  s_updated_at : string
}.

Record Payment := {
  p_email : string;                         (* TEXT NOT NULL *)
  p_phone : option string;
  p_plan_key : option string;
  p_razorpay_payment_id : string;           (* TEXT NOT NULL UNIQUE *)
  p_razorpay_sub_id : option string;
  p_razorpay_order_id : option string;
  p_amount_paise : sqlval;
  p_currency : option string;               (* DEFAULT 'INR' *)
  p_event_type : option string;
  p_status : option string;
  p_webhook_payload : option string;
  p_logged_at : string
}.

Record WebhookRecord := {
  w_event : option string;
  w_entity_id : option string;
  w_payload : option string;
  w_signature_ok : Z;
  w_received_at : string
}.

Record DB := {
  subscribers : list Subscriber;
  payment_log : list Payment;
  webhook_log : list WebhookRecord
}.

Definition empty_db : DB :=
  {| subscribers := []; payment_log := []; webhook_log := [] |}.

(** [SELECT ... FROM subscribers WHERE email = ?] then [fetchone()]. *)
Definition find_subscriber (email : string) (d : DB) : option Subscriber :=
  find (fun r => String.eqb (s_email r) email) (subscribers d).

Definition payments_with_id (payment_id : string) (d : DB) : list Payment :=
  filter (fun p => String.eqb (p_razorpay_payment_id p) payment_id) (payment_log d).

(* ================================================================== *)
(** * The world outside the process *)

(** A call made to the Razorpay client ([rz_client.subscription]). *)
Inductive gateway_call : Type :=
| SubscriptionCreate (plan_id : string) (total_count quantity customer_notify : Z)
    (notes_email notes_name notes_plan_key : string)
| SubscriptionCancel (sub_id : string) (cancel_at_cycle_end : Z).

Inductive gateway_result : Type :=
| Returned (r : json)
| BadRequest (msg : string)    (* raised razorpay.errors.BadRequestError, [str(e) = msg] *)
| Failed (msg : string).       (* raised anything else, [str(e) = msg] *)

(** The configuration read from the environment at start-up, the library
    functions whose code is not in the repository, the wall clock and the
    payment provider. [clock n] is what the [n]-th call of [utcnow()] returns. *)
Record Env := {
  RAZORPAY_KEY_ID : string;
  RAZORPAY_KEY_SECRET : string;
  RAZORPAY_WEBHOOK_SECRET : string;
  RAZORPAY_STANDARD_PLAN_ID : string;
  RAZORPAY_PRO_PLAN_ID : string;
  json_loads : bytes -> option json;     (* [None]: [json.loads] raised *)
  json_dumps : json -> string;
  clock : nat -> string;
  rz_client : gateway_call -> gateway_result
}.

Record World := {
  db : DB;
  reads : nat;                            (* calls of [utcnow()] so far *)
  gateway_calls : list gateway_call       (* calls of the Razorpay client so far *)
}.

Definition set_db (d : DB) (w : World) : World :=
  {| db := d; reads := reads w; gateway_calls := gateway_calls w |}.

(** State and exceptions. *)
Definition M (A : Type) : Type := World -> result A * World.

Definition ret {A} (a : A) : M A := fun w => (Ok a, w).
Definition raise {A} (e : exn) : M A := fun w => (Raise e, w).
Definition bind_M {A B} (m : M A) (k : A -> M B) : M B :=
  fun w => match m w with
           | (Ok a, w') => k a w'
           | (Raise e, w') => (Raise e, w')
           end.
Definition lift {A} (r : result A) : M A := fun w => (r, w).

Declare Scope M_scope.
Delimit Scope M_scope with M.
Notation "x <- m ;; k" := (bind_M m (fun x => k))
  (at level 100, m at next level, right associativity) : M_scope.
Notation "m ;; k" := (bind_M m (fun _ => k))
  (at level 100, right associativity) : M_scope.
Open Scope M_scope.

(** [with db_conn() as conn: body]: commit when the body returns, roll back
    and re-raise when it raises. *)
Definition db_conn {A} (body : M A) : M A :=
  fun w => match body w with
           | (Ok a, w') => (Ok a, w')
           | (Raise e, w') => (Raise e, set_db (db w) w')
           end.

Definition get_db : M DB := fun w => (Ok (db w), w).
Definition put_db (d : DB) : M unit := fun w => (Ok tt, set_db d w).

(* ================================================================== *)
(** * Helpers (src/main.py, lines 190-298 and 627-635) *)

Section Backend.

Variable E : Env.

(** [RAZORPAY_PLAN_IDS]: the server-side map from plan key to plan id. *)
Definition RAZORPAY_PLAN_IDS : list (string * string) :=
  [("standard", RAZORPAY_STANDARD_PLAN_ID E); ("pro", RAZORPAY_PRO_PLAN_ID E)].

Definition utcnow : M string :=
  fun w => (Ok (clock E (reads w)),
            {| db := db w; reads := S (reads w); gateway_calls := gateway_calls w |}).

Definition verify_razorpay_signature
  (payment_id subscription_id signature : string) : result bool :=
  let message := (payment_id ++ "|" ++ subscription_id)%string in
  let expected := HMAC.hexdigest (encode (RAZORPAY_KEY_SECRET E)) (encode message) in
  compare_digest expected signature.

Definition verify_webhook_signature (body : bytes) (signature : string) : result bool :=
  let expected := HMAC.hexdigest (encode (RAZORPAY_WEBHOOK_SECRET E)) body in
  compare_digest expected signature.

(** The keyword arguments of [upsert_subscriber] after [email]; a call site
    spells out the defaults it relies on ([None], ["standard"], ["trial"], 0). *)
Record upsert_kwargs := {
  name : json;
  phone : json;
  plan_key : json;
  status : json;
  razorpay_customer_id : json;
  razorpay_sub_id : json;
  trial_start_at : json;
  activated_at : json;
  cancelled_at : json;
  cancel_at_period_end : json
}.

(** The same arguments once bound as statement parameters. *)
Record bound_kwargs := {
  b_name : option string;
  b_phone : option string;
  b_plan_key : option string;
  b_status : option string;
  b_razorpay_customer_id : option string;
  b_razorpay_sub_id : option string;
  b_trial_start_at : option string;
  b_activated_at : option string;
  b_cancelled_at : option string;
  b_cancel_at_period_end : sqlval
}.

Definition bind_kwargs (k : upsert_kwargs) : result bound_kwargs :=
  (let? n := bind_text (name k) in
   let? ph := bind_text (phone k) in
   let? pk := bind_text (plan_key k) in
   let? st := bind_text (status k) in
   let? cu := bind_text (razorpay_customer_id k) in
   let? su := bind_text (razorpay_sub_id k) in
   let? tr := bind_text (trial_start_at k) in
   let? ac := bind_text (activated_at k) in
   let? ca := bind_text (cancelled_at k) in
   let? cp := bind (cancel_at_period_end k) in
   Ok {| b_name := n; b_phone := ph; b_plan_key := pk; b_status := st;
         b_razorpay_customer_id := cu; b_razorpay_sub_id := su;
         b_trial_start_at := tr; b_activated_at := ac; b_cancelled_at := ca;
         b_cancel_at_period_end := cp |})%result.

(** [if fields:]: some keyword is not [None]. *)
Definition any_field (k : upsert_kwargs) : bool :=
  negb (forallb is_None
          [name k; phone k; plan_key k; status k; razorpay_customer_id k;
           razorpay_sub_id k; trial_start_at k; activated_at k; cancelled_at k;
           cancel_at_period_end k]).

Definition or_keep {A} (new : option A) (old : A) : A :=
  match new with Some a => a | None => old end.

Definition or_keep_opt {A} (new old : option A) : option A :=
  match new with Some a => Some a | None => old end.

(** [UPDATE subscribers SET col = ?, ..., updated_at = ? WHERE email = ?] on
    one matching row: a column is in the SET list when its keyword is not
    [None], that is when its bound value is not NULL. *)
Definition update_row (b : bound_kwargs) (now : string) (r : Subscriber) : Subscriber :=
  {| s_email := s_email r;
     s_name := or_keep_opt (b_name b) (s_name r);
     s_phone := or_keep_opt (b_phone b) (s_phone r);
     s_plan_key := or_keep (b_plan_key b) (s_plan_key r);
     s_status := or_keep (b_status b) (s_status r);
     s_razorpay_customer_id := or_keep_opt (b_razorpay_customer_id b) (s_razorpay_customer_id r);
     s_razorpay_sub_id := or_keep_opt (b_razorpay_sub_id b) (s_razorpay_sub_id r);
     s_created_at := s_created_at r;
     s_trial_start_at := or_keep_opt (b_trial_start_at b) (s_trial_start_at r);
     s_activated_at := or_keep_opt (b_activated_at b) (s_activated_at r);
     s_cancelled_at := or_keep_opt (b_cancelled_at b) (s_cancelled_at r);
     s_cancel_at_period_end :=
       match b_cancel_at_period_end b with
       | SNull => s_cancel_at_period_end r
       | v => v
       end;
     s_updated_at := now |}.

(** The row of [INSERT INTO subscribers ... VALUES (?,...)], or [None] when a
    NOT NULL column would receive NULL. *)
Definition insert_row (e : option string) (b : bound_kwargs) (now : string)
  : option Subscriber :=
  match e, b_plan_key b, b_status b, b_cancel_at_period_end b with
  | _, _, _, SNull => None
  | Some e', Some pk, Some st, cp =>
      Some {| s_email := e'; s_name := b_name b; s_phone := b_phone b;
              s_plan_key := pk; s_status := st;
              s_razorpay_customer_id := b_razorpay_customer_id b;
              s_razorpay_sub_id := b_razorpay_sub_id b;
              s_created_at := now;
              s_trial_start_at := b_trial_start_at b;
              s_activated_at := b_activated_at b;
              s_cancelled_at := b_cancelled_at b;
              s_cancel_at_period_end := cp;
              s_updated_at := now |}
  | _, _, _, _ => None
  end.

(** [WHERE email = ?] with the parameter at TEXT affinity; NULL matches nothing. *)
Definition email_is (e : option string) (r : Subscriber) : bool :=
  match e with
  | Some t => String.eqb (s_email r) t
  | None => false
  end.

Definition set_subscribers (l : list Subscriber) (d : DB) : DB :=
  {| subscribers := l; payment_log := payment_log d; webhook_log := webhook_log d |}.

Definition set_payment_log (l : list Payment) (d : DB) : DB :=
  {| subscribers := subscribers d; payment_log := l; webhook_log := webhook_log d |}.

Definition set_webhook_log (l : list WebhookRecord) (d : DB) : DB :=
  {| subscribers := subscribers d; payment_log := payment_log d; webhook_log := l |}.

Definition upsert_subscriber (email : json) (k : upsert_kwargs) : M unit :=
  now <- utcnow ;;
  e <- lift (bind_text email) ;;
  d <- get_db ;;
  if existsb (email_is e) (subscribers d) then
    if any_field k then
      b <- lift (bind_kwargs k) ;;
      put_db (set_subscribers
                (map (fun r => if email_is e r then update_row b now r else r)
                     (subscribers d)) d)
    else ret tt
  else
    b <- lift (bind_kwargs k) ;;
    match insert_row e b now with
    | Some r => put_db (set_subscribers (subscribers d ++ [r]) d)
    | None => raise IntegrityError
    end.

(** [log_payment(conn, email=, phone=, plan_key=, payment_id=, sub_id=,
    order_id=, amount_paise=, event_type=, status=, webhook_payload=)]:
    the amount goes to a column of INTEGER affinity, the rest to TEXT columns.
    INSERT OR IGNORE skips the row when the payment id is already there (or a
    NOT NULL column would receive NULL). The timestamp is read while the
    parameter tuple is built, before anything is bound. *)
Definition log_payment
  (email phone plan_key payment_id sub_id order_id amount_paise
   event_type status webhook_payload : json) : M unit :=
  now <- utcnow ;;
  e <- lift (bind_text email) ;;
  ph <- lift (bind_text phone) ;;
  pk <- lift (bind_text plan_key) ;;
  pid <- lift (bind_text payment_id) ;;
  sid <- lift (bind_text sub_id) ;;
  oid <- lift (bind_text order_id) ;;
  amt <- lift (bind amount_paise) ;;
  et <- lift (bind_text event_type) ;;
  st <- lift (bind_text status) ;;
  wp <- lift (bind_text webhook_payload) ;;
  d <- get_db ;;
  match e, pid with
  | Some e', Some pid' =>
      if existsb (fun p => String.eqb (p_razorpay_payment_id p) pid') (payment_log d)
      then ret tt
      else put_db (set_payment_log
                     (payment_log d ++
                        [{| p_email := e'; p_phone := ph; p_plan_key := pk;
                            p_razorpay_payment_id := pid';
                            p_razorpay_sub_id := sid; p_razorpay_order_id := oid;
                            p_amount_paise := integer_affinity amt;
                            p_currency := Some "INR";
                            p_event_type := et; p_status := st;
                            p_webhook_payload := wp; p_logged_at := now |}]) d)
  | _, _ => ret tt
  end.

(** One turn of the loop of [_extract_entity_id]: the id under
    [payload.<key>.entity], when it is truthy. *)
Definition entity_id_at (payload : json) (key : string) : result (option json) :=
  (let? p := py_get payload "payload" (JObj []) in
   let? k := py_get p key (JObj []) in
   let? entity := py_get k "entity" (JObj []) in
   let? i := py_get entity "id" JNull in
   if truthy i
   then (let? v := py_getitem entity "id" in Ok (Some v))
   else Ok None)%result.

Fixpoint first_entity_id (payload : json) (keys : list string) : result json :=
  match keys with
  | [] => Ok (JStr "")
  | key :: rest =>
      match entity_id_at payload key with
      | Ok (Some v) => Ok v
      | Ok None => first_entity_id payload rest
      | Raise e => Raise e
      end
  end.

(** The [try] swallows every exception and the function then returns [""]. *)
Definition _extract_entity_id (payload : json) : json :=
  match first_entity_id payload ["subscription"; "payment"; "order"] with
  | Ok v => v
  | Raise _ => JStr ""
  end.

(* ================================================================== *)
(** * Endpoints (src/main.py, lines 305-623) *)

Record CreateSubscriptionRequest := {
  cs_email : string;
  cs_name : string;
  cs_phone : string;
  cs_plan_key : string;
  cs_plan_id : string
}.

Record PaymentSuccessRequest := {
  ps_razorpay_payment_id : string;
  ps_razorpay_subscription_id : string;
  ps_razorpay_signature : string;
  ps_email : string;
  ps_name : string;
  ps_phone : string;
  ps_plan_key : string
}.

Record CancelRequest := { cr_email : string }.

(** A call of the Razorpay client: recorded, then answered by the provider. *)
Definition rz_call (c : gateway_call) : M json :=
  fun w =>
    let w' := {| db := db w; reads := reads w;
                 gateway_calls := gateway_calls w ++ [c] |} in
    match rz_client E c with
    | Returned r => (Ok r, w')
    | BadRequest msg => (Raise (BadRequestError msg), w')
    | Failed msg => (Raise (GatewayError msg), w')
    end.

(** [try: body except ...: raise handler(e)]. *)
Definition try_except {A} (body : M A) (handler : exn -> exn) : M A :=
  fun w => match body w with
           | (Ok a, w') => (Ok a, w')
           | (Raise e, w') => (Raise (handler e), w')
           end.

(** POST /api/create-subscription *)
Definition create_subscription (req : CreateSubscriptionRequest) : M json :=
  let plan_key := lower (cs_plan_key req) in
  match assoc plan_key RAZORPAY_PLAN_IDS with
  | None => raise (HTTPException 400 "Invalid plan")
  | Some server_plan_id =>
      if String.eqb server_plan_id ""
      then raise (HTTPException 503 "Plan not configured")
      else
        try_except
          (subscription <- rz_call (SubscriptionCreate server_plan_id 120 1 1
                                      (cs_email req) (cs_name req) plan_key) ;;
           sub_id <- lift (py_getitem subscription "id") ;;
           db_conn
             (t <- utcnow ;;
              upsert_subscriber (JStr (cs_email req))
                {| name := JStr (cs_name req);
                   phone := JStr (cs_phone req);
                   plan_key := JStr plan_key;
                   status := JStr "trial";
                   razorpay_customer_id := JNull;
                   razorpay_sub_id := sub_id;
                   trial_start_at := JStr t;
                   activated_at := JNull;
                   cancelled_at := JNull;
                   cancel_at_period_end := JInt 0 |}) ;;
           ret (JObj [("subscription_id", sub_id);
                      ("key_id", JStr (RAZORPAY_KEY_ID E))]))
          (fun e => match e with
                    | BadRequestError msg => HTTPException 400 msg
                    | _ => HTTPException 500 "Internal error"
                    end)
  end.

(** POST /api/payment-success *)
Definition payment_success (req : PaymentSuccessRequest) : M json :=
  ok <- lift (verify_razorpay_signature (ps_razorpay_payment_id req)
                (ps_razorpay_subscription_id req) (ps_razorpay_signature req)) ;;
  if negb ok then raise (HTTPException 400 "Invalid payment signature")
  else
    db_conn
      (t <- utcnow ;;
       upsert_subscriber (JStr (ps_email req))
         {| name := JStr (ps_name req);
            phone := JStr (ps_phone req);
            plan_key := JStr (ps_plan_key req);
            status := JStr "active";
            razorpay_customer_id := JNull;
            razorpay_sub_id := JStr (ps_razorpay_subscription_id req);
            trial_start_at := JNull;
            activated_at := JStr t;
            cancelled_at := JNull;
            cancel_at_period_end := JInt 0 |} ;;
       log_payment (JStr (ps_email req)) (JStr (ps_phone req))
         (JStr (ps_plan_key req)) (JStr (ps_razorpay_payment_id req))
         (JStr (ps_razorpay_subscription_id req)) JNull JNull
         (JStr "manual_success") (JStr "captured") JNull) ;;
    ret (JObj [("status", JStr "ok")]).

(** The audit row: [INSERT INTO webhook_log (event, entity_id, payload,
    signature_ok, received_at)], in a transaction of its own. *)
Definition insert_webhook_log
  (event entity_id : json) (payload_str : string) (sig_ok : bool) : M unit :=
  db_conn
    (now <- utcnow ;;
     ev <- lift (bind_text event) ;;
     id <- lift (bind_text entity_id) ;;
     d <- get_db ;;
     put_db (set_webhook_log
               (webhook_log d ++
                  [{| w_event := ev; w_entity_id := id;
                      w_payload := Some payload_str;
                      w_signature_ok := if sig_ok then 1 else 0;
                      w_received_at := now |}]) d)).

(** The fields a subscription event is read for:
    [payload.subscription.entity] and, in it, [id], [notes.email] and
    [notes.plan_key]. *)
Definition subscription_fields (entity : json) : result (json * json * json) :=
  (let? s := py_get entity "subscription" (JObj []) in
   let? sub_data := py_get s "entity" (JObj []) in
   let? sub_id := py_get sub_data "id" (JStr "") in
   let? notes := py_get sub_data "notes" (JObj []) in
   let? email := py_get notes "email" (JStr "") in
   let? plan_key := py_get notes "plan_key" (JStr "standard") in
   Ok (sub_id, email, plan_key))%result.

(** [payload.payment.entity] and, in it, [id], [amount] and [contact]. *)
Definition payment_fields (entity : json) : result (json * json * json) :=
  (let? p := py_get entity "payment" (JObj []) in
   let? payment_data := py_get p "entity" (JObj []) in
   let? payment_id := py_get payment_data "id" (JStr "") in
   let? amount := py_get payment_data "amount" (JInt 0) in
   let? contact := py_get payment_data "contact" (JStr "") in
   Ok (payment_id, amount, contact))%result.

(** [amount/100] in the message logged after a charge. *)
Definition amount_in_rupees (amount : json) : result unit :=
  match amount with
  | JInt _ | JBool _ => Ok tt
  | _ => Raise TypeError
  end.

Definition on_subscription_activated (entity : json) : M unit :=
  f <- lift (subscription_fields entity) ;;
  let '(sub_id, email, plan_key') := f in
  if truthy email then
    db_conn
      (t <- utcnow ;;
       upsert_subscriber email
         {| name := JNull; phone := JNull;
            plan_key := plan_key';
            status := JStr "active";
            razorpay_customer_id := JNull;
            razorpay_sub_id := sub_id;
            trial_start_at := JNull;
            activated_at := JStr t;
            cancelled_at := JNull;
            cancel_at_period_end := JInt 0 |})
  else ret tt.

Definition on_subscription_charged (entity : json) (payload_str : string) : M unit :=
  p <- lift (payment_fields entity) ;;
  s <- lift (subscription_fields entity) ;;
  let '(payment_id, amount, contact) := p in
  let '(sub_id, email, plan_key') := s in
  if truthy email && truthy payment_id then
    db_conn
      (upsert_subscriber email
         {| name := JNull; phone := JNull;
            plan_key := plan_key';
            status := JStr "active";
            razorpay_customer_id := JNull;
            razorpay_sub_id := sub_id;
            trial_start_at := JNull;
            activated_at := JNull;
            cancelled_at := JNull;
            cancel_at_period_end := JInt 0 |} ;;
       log_payment email contact plan_key' payment_id sub_id JNull amount
         (JStr "subscription.charged") (JStr "captured") (JStr payload_str)) ;;
    lift (amount_in_rupees amount)
  else ret tt.

Definition on_subscription_cancelled (entity : json) : M unit :=
  s <- lift (py_get entity "subscription" (JObj [])) ;;
  sub_data <- lift (py_get s "entity" (JObj [])) ;;
  sub_id <- lift (py_get sub_data "id" (JStr "")) ;;
  notes <- lift (py_get sub_data "notes" (JObj [])) ;;
  email <- lift (py_get notes "email" (JStr "")) ;;
  if truthy email then
    db_conn
      (t <- utcnow ;;
       upsert_subscriber email
         {| name := JNull; phone := JNull;
            plan_key := JStr "standard";
            status := JStr "cancelled";
            razorpay_customer_id := JNull;
            razorpay_sub_id := sub_id;
            trial_start_at := JNull;
            activated_at := JNull;
            cancelled_at := JStr t;
            cancel_at_period_end := JInt 0 |})
  else ret tt.

Definition on_subscription_completed (entity : json) : M unit :=
  s <- lift (py_get entity "subscription" (JObj [])) ;;
  sub_data <- lift (py_get s "entity" (JObj [])) ;;
  sub_id <- lift (py_get sub_data "id" (JStr "")) ;;
  notes <- lift (py_get sub_data "notes" (JObj [])) ;;
  email <- lift (py_get notes "email" (JStr "")) ;;
  if truthy email then
    db_conn
      (upsert_subscriber email
         {| name := JNull; phone := JNull;
            plan_key := JStr "standard";
            status := JStr "expired";
            razorpay_customer_id := JNull;
            razorpay_sub_id := sub_id;
            trial_start_at := JNull;
            activated_at := JNull;
            cancelled_at := JNull;
            cancel_at_period_end := JInt 0 |})
  else ret tt.

Definition on_payment_failed (entity : json) (payload_str : string) : M unit :=
  p <- lift (py_get entity "payment" (JObj [])) ;;
  payment_data <- lift (py_get p "entity" (JObj [])) ;;
  sub_id <- lift (py_get payment_data "subscription_id" (JStr "")) ;;
  email <- lift (py_get payment_data "email" (JStr "")) ;;
  payment_id <- lift (py_get payment_data "id" (JStr "")) ;;
  if truthy email then
    db_conn
      (upsert_subscriber email
         {| name := JNull; phone := JNull;
            plan_key := JStr "standard";
            status := JStr "payment_failed";
            razorpay_customer_id := JNull;
            razorpay_sub_id := JNull;
            trial_start_at := JNull;
            activated_at := JNull;
            cancelled_at := JNull;
            cancel_at_period_end := JInt 0 |} ;;
       pid <- (if truthy payment_id then ret payment_id
               else (t <- utcnow ;; ret (JStr ("fail_" ++ t)%string))) ;;
       log_payment email JNull (JStr "unknown") pid sub_id JNull JNull
         (JStr "payment.failed") (JStr "failed") (JStr payload_str))
  else ret tt.

(** [request.headers.get(name, default)]. *)
Definition header_or (h : option string) (default : string) : string :=
  match h with Some s => s | None => default end.

(** Lines 461-543: what the handler does once the audit row is committed. *)
Definition webhook_dispatch
  (sig_ok : bool) (event entity : json) (payload_str : string) : M json :=
  if negb sig_ok then ret (JObj [("status", JStr "signature_invalid")])
  else
    (if eq_str event "subscription.activated" then on_subscription_activated entity
     else if eq_str event "subscription.charged" then on_subscription_charged entity payload_str
     else if eq_str event "subscription.cancelled" then on_subscription_cancelled entity
     else if eq_str event "subscription.completed" then on_subscription_completed entity
     else if eq_str event "payment.failed" then on_payment_failed entity payload_str
     else ret tt) ;;
    ret (JObj [("status", JStr "processed")]).

(** POST /api/webhook/razorpay, with the raw body and the
    X-Razorpay-Signature header (absent: [""]). *)
Definition razorpay_webhook (body : bytes) (signature_header : option string) : M json :=
  let signature := header_or signature_header "" in
  sig_ok <- lift (verify_webhook_signature body signature) ;;
  match json_loads E body with
  | None => raise (HTTPException 400 "Invalid payload")
  | Some payload =>
      event <- lift (py_get payload "event" (JStr "")) ;;
      entity <- lift (py_get payload "payload" (JObj [])) ;;
      let payload_str := json_dumps E payload in
      insert_webhook_log event (_extract_entity_id payload) payload_str sig_ok ;;
      webhook_dispatch sig_ok event entity payload_str
  end.

Definition in_strs (s : string) (l : list string) : bool :=
  existsb (String.eqb s) l.

(** POST /api/cancel-subscription. [if sub_id:] holds for a stored id that
    is neither NULL nor empty. The [try] holds the provider call alone, so
    the exception it catches is one of the provider's two. *)
Definition cancel_subscription (req : CancelRequest) : M json :=
  row <- db_conn (d <- get_db ;; ret (find_subscriber (cr_email req) d)) ;;
  match row with
  | None => raise (HTTPException 404 "Subscriber not found")
  | Some r =>
      let sub_id := s_razorpay_sub_id r in
      if in_strs (s_status r) ["cancelled"; "expired"]
      then ret (JObj [("status", JStr "already_cancelled")])
      else
        (match sub_id with
         | Some sid =>
             if negb (String.eqb sid "") then
               try_except
                 (rz_call (SubscriptionCancel sid 1) ;; ret tt)
                 (fun e => match e with
                           | BadRequestError msg | GatewayError msg =>
                               HTTPException 500 ("Razorpay error: " ++ msg)%string
                           | _ => e
                           end)
             else ret tt
         | None => ret tt
         end) ;;
        db_conn
          (upsert_subscriber (JStr (cr_email req))
             {| name := JNull; phone := JNull;
                plan_key := JStr "standard";
                status := JStr "active";
                razorpay_customer_id := JNull;
                razorpay_sub_id := JNull;
                trial_start_at := JNull;
                activated_at := JNull;
                cancelled_at := JNull;
                cancel_at_period_end := JInt 1 |}) ;;
        ret (JObj [("status", JStr "cancel_scheduled");
                   ("message", JStr "Your subscription will not renew. Access continues until end of billing period.")])
  end.

Definition json_of_text (v : option string) : json :=
  match v with Some s => JStr s | None => JNull end.

(** GET /api/subscription-status?email= *)
Definition subscription_status (email : string) : M json :=
  if String.eqb email "" then raise (HTTPException 400 "email required")
  else
    row <- db_conn (d <- get_db ;; ret (find_subscriber email d)) ;;
    match row with
    | None => ret (JObj [("status", JStr "not_found"); ("active", JBool false)])
    | Some r =>
        let active := in_strs (s_status r) ["trial"; "active"] in
        ret (JObj [("email", JStr (s_email r));
                   ("name", json_of_text (s_name r));
                   ("plan_key", JStr (s_plan_key r));
                   ("status", JStr (s_status r));
                   ("active", JBool active);
                   ("razorpay_sub_id", json_of_text (s_razorpay_sub_id r));
                   ("trial_start_at", json_of_text (s_trial_start_at r));
                   ("activated_at", json_of_text (s_activated_at r));
                   ("cancelled_at", json_of_text (s_cancelled_at r));
                   ("cancel_at_period_end", JBool (sql_truthy (s_cancel_at_period_end r)));
                   ("updated_at", JStr (s_updated_at r))])
    end.

End Backend.

(* ================================================================== *)
(** * The tables after a statement, and repeated deliveries *)

(** [subscribers] after [upsert_subscriber] for a text email [e]: every row
    of that email is updated, or a new row is appended when there is none. *)
Definition upsert_rows (e : string) (b : bound_kwargs) (now : string)
  (rows : list Subscriber) : list Subscriber :=
  if existsb (email_is (Some e)) rows
  then map (fun r => if email_is (Some e) r then update_row b now r else r) rows
  else match insert_row (Some e) b now with
       | Some r => rows ++ [r]
       | None => rows
       end.

(** [payment_log] after INSERT OR IGNORE of the row [p]. *)
Definition insert_or_ignore (p : Payment) (l : list Payment) : list Payment :=
  if existsb (fun q => String.eqb (p_razorpay_payment_id q) (p_razorpay_payment_id p)) l
  then l
  else l ++ [p].

(** What a webhook binds for the ledger: plan key, status, subscription id
    and the two timestamps it may carry; the other keywords keep their
    defaults. *)
Definition webhook_bound (pk st : string) (sid : option string)
  (activated cancelled : option string) : bound_kwargs :=
  {| b_name := None; b_phone := None;
     b_plan_key := Some pk; b_status := Some st;
     b_razorpay_customer_id := None; b_razorpay_sub_id := sid;
     b_trial_start_at := None; b_activated_at := activated;
     b_cancelled_at := cancelled; b_cancel_at_period_end := SInt 0 |}.

(** The [payment_log] row of a [subscription.charged] event. *)
Definition charged_row (e c pk p sid : string) (a : Z) (payload_str now : string) : Payment :=
  {| p_email := e; p_phone := Some c; p_plan_key := Some pk;
     p_razorpay_payment_id := p;
     p_razorpay_sub_id := Some sid; p_razorpay_order_id := None;
     p_amount_paise := SInt a; p_currency := Some "INR";
     p_event_type := Some "subscription.charged"; p_status := Some "captured";
     p_webhook_payload := Some payload_str; p_logged_at := now |}.

(** What [payment_success] binds for the ledger. *)
Definition confirm_bound (req : PaymentSuccessRequest) (activated : string) : bound_kwargs :=
  {| b_name := Some (ps_name req); b_phone := Some (ps_phone req);
     b_plan_key := Some (ps_plan_key req); b_status := Some "active";
     b_razorpay_customer_id := None;
     b_razorpay_sub_id := Some (ps_razorpay_subscription_id req);
     b_trial_start_at := None; b_activated_at := Some activated;
     b_cancelled_at := None; b_cancel_at_period_end := SInt 0 |}.

(** The [payment_log] row of [payment_success]. *)
Definition confirm_row (req : PaymentSuccessRequest) (now : string) : Payment :=
  {| p_email := ps_email req; p_phone := Some (ps_phone req);
     p_plan_key := Some (ps_plan_key req);
     p_razorpay_payment_id := ps_razorpay_payment_id req;
     p_razorpay_sub_id := Some (ps_razorpay_subscription_id req);
     p_razorpay_order_id := None;
     p_amount_paise := SNull; p_currency := Some "INR";
     p_event_type := Some "manual_success"; p_status := Some "captured";
     p_webhook_payload := None; p_logged_at := now |}.

(** What [cancel_subscription] binds for the ledger. *)
Definition cancel_bound : bound_kwargs :=
  {| b_name := None; b_phone := None;
     b_plan_key := Some "standard"; b_status := Some "active";
     b_razorpay_customer_id := None; b_razorpay_sub_id := None;
     b_trial_start_at := None; b_activated_at := None;
     b_cancelled_at := None; b_cancel_at_period_end := SInt 1 |}.

(** The world once the audit row [row] is committed: one more row in
    [webhook_log], one more reading of the clock, nothing else. *)
Definition world_after_audit (row : WebhookRecord) (w : World) : World :=
  {| db := {| subscribers := subscribers (db w);
              payment_log := payment_log (db w);
              webhook_log := webhook_log (db w) ++ [row] |};
     reads := S (reads w);
     gateway_calls := gateway_calls w |}.

Definition subscriber_status (email : string) (w : World) : option string :=
  option_map s_status (find_subscriber email (db w)).

(** A computation that leaves the audit table as it found it. *)
Definition keeps_webhook_log {A} (m : M A) : Prop :=
  forall w, webhook_log (db (snd (m w))) = webhook_log (db w).

(** The world after [n] deliveries of one webhook request. *)
Fixpoint deliveries (E : Env) (body : bytes) (signature_header : option string)
  (n : nat) (w : World) : World :=
  match n with
  | O => w
  | S n' =>
      deliveries E body signature_header n'
        (snd (razorpay_webhook E body signature_header w))
  end.

(* ================================================================== *)
(** * A concrete deployment, used to run the handlers on examples *)

Module Demo.

Definition dq : string := String (ascii_of_nat 34) EmptyString.
Definition qt (s : string) : string := (dq ++ s ++ dq)%string.

(** [json.dumps] on values whose strings need no escaping. *)
Fixpoint dumps (j : json) : string :=
  match j with
  | JNull => "null"
  | JBool b => if b then "true" else "false"
  | JInt n => str_of_Z n
  | JStr s => qt s
  | JArr l => ("[" ++ String.concat ", " (map dumps l) ++ "]")%string
  | JObj kvs =>
      ("{" ++ String.concat ", "
                (map (fun kv => (qt (fst kv) ++ ": " ++ dumps (snd kv))%string) kvs)
           ++ "}")%string
  end.

Definition subscription_entity : json :=
  JObj [("entity",
         JObj [("id", JStr "sub_1");
               ("notes", JObj [("email", JStr "a@x.com");
                               ("plan_key", JStr "standard")])])].

(** The event of Scenario B. *)
Definition activated_entity : json :=
  JObj [("subscription", subscription_entity)].

Definition activated_payload : json :=
  JObj [("event", JStr "subscription.activated"); ("payload", activated_entity)].

(** The event of Scenario C. *)
Definition charged_entity : json :=
  JObj [("payment",
         JObj [("entity",
                JObj [("id", JStr "pay_1");
                      ("amount", JInt 19900);
                      ("contact", JStr "+1")])]);
        ("subscription", subscription_entity)].

Definition charged_payload : json :=
  JObj [("event", JStr "subscription.charged"); ("payload", charged_entity)].

Definition subscription_text : string :=
  ("{" ++ qt "entity" ++ ":{" ++ qt "id" ++ ":" ++ qt "sub_1" ++ ","
       ++ qt "notes" ++ ":{" ++ qt "email" ++ ":" ++ qt "a@x.com" ++ ","
       ++ qt "plan_key" ++ ":" ++ qt "standard" ++ "}}}")%string.

(** The bodies as they travel: compact JSON, 137 and 201 bytes. *)
Definition activated_text : string :=
  ("{" ++ qt "event" ++ ":" ++ qt "subscription.activated" ++ ","
       ++ qt "payload" ++ ":{" ++ qt "subscription" ++ ":" ++ subscription_text
       ++ "}}")%string.

Definition charged_text : string :=
  ("{" ++ qt "event" ++ ":" ++ qt "subscription.charged" ++ ","
       ++ qt "payload" ++ ":{" ++ qt "payment" ++ ":{" ++ qt "entity" ++ ":{"
       ++ qt "id" ++ ":" ++ qt "pay_1" ++ "," ++ qt "amount" ++ ":19900,"
       ++ qt "contact" ++ ":" ++ qt "+1" ++ "}},"
       ++ qt "subscription" ++ ":" ++ subscription_text ++ "}}")%string.

Definition activated_body : bytes := list_byte_of_string activated_text.
Definition charged_body : bytes := list_byte_of_string charged_text.
Definition garbage_body : bytes := list_byte_of_string "not json".

(** [json.loads] on the three bodies above. *)
Definition loads (b : bytes) : option json :=
  let s := string_of_list_byte b in
  if String.eqb s activated_text then Some activated_payload
  else if String.eqb s charged_text then Some charged_payload
  else None.

(** Their signatures under the webhook secret, as [hmac] computes them. *)
Definition activated_signature : string :=
  "956b69eb28a1026b1e60de31a95c775d4d404b455eb0cb943ca5c1dc3b343eb8".
Definition charged_signature : string :=
  "87263bddce0cab437fe871c45f3be50640237ac67eac61143af9e90b665641e6".

Definition ticks (n : nat) : string := ("tick-" ++ str_of_Z (Z.of_nat n))%string.

(** A provider that accepts every call. *)
Definition provider_up (c : gateway_call) : gateway_result :=
  match c with
  | SubscriptionCreate _ _ _ _ _ _ _ => Returned (JObj [("id", JStr "sub_1")])
  | SubscriptionCancel sid _ => Returned (JObj [("id", JStr sid)])
  end.

(** A provider that cannot be reached. *)
Definition provider_down (c : gateway_call) : gateway_result :=
  Failed "connection timed out".

Definition env_with (rz : gateway_call -> gateway_result) : Env :=
  {| RAZORPAY_KEY_ID := "rzp_test_key";
     RAZORPAY_KEY_SECRET := "key_secret";
     RAZORPAY_WEBHOOK_SECRET := "whsec_demo";
     RAZORPAY_STANDARD_PLAN_ID := "plan_standard";
     RAZORPAY_PRO_PLAN_ID := "plan_pro";
     json_loads := loads;
     json_dumps := dumps;
     clock := ticks;
     rz_client := rz |}.

Definition env : Env := env_with provider_up.
Definition env_down : Env := env_with provider_down.

(** The standard plan is allow-listed but its plan id was left unset. *)
Definition env_unconfigured : Env :=
  {| RAZORPAY_KEY_ID := "rzp_test_key";
     RAZORPAY_KEY_SECRET := "key_secret";
     RAZORPAY_WEBHOOK_SECRET := "whsec_demo";
     RAZORPAY_STANDARD_PLAN_ID := "";
     RAZORPAY_PRO_PLAN_ID := "plan_pro";
     json_loads := loads;
     json_dumps := dumps;
     clock := ticks;
     rz_client := provider_up |}.

Definition world0 : World :=
  {| db := empty_db; reads := 0; gateway_calls := [] |}.

(** A signature with a character outside ASCII: U+00E9. *)
Definition e_acute : string := String (ascii_of_nat 233) EmptyString.

Definition create_req (plan : string) : CreateSubscriptionRequest :=
  {| cs_email := "a@x.com"; cs_name := "A"; cs_phone := "+1";
     cs_plan_key := plan; cs_plan_id := "plan_from_client" |}.

Definition confirm_req (plan signature : string) : PaymentSuccessRequest :=
  {| ps_razorpay_payment_id := "pay_1";
     ps_razorpay_subscription_id := "sub_1";
     ps_razorpay_signature := signature;
     ps_email := "a@x.com"; ps_name := "A"; ps_phone := "+1";
     ps_plan_key := plan |}.

(** The signature of ["pay_1|sub_1"] under the key secret. *)
Definition confirm_signature : string :=
  "39ce0e3b3acbf89c943fc90af8ded57c46257a97c88c4385197f3ec1a959022c".

(** The world after Scenario A: a@x.com pre-registered as trial. *)
Definition world_trial : World :=
  snd (create_subscription env (create_req "standard") world0).

(** The world after a first delivery of the activation event. *)
Definition world_active : World :=
  snd (razorpay_webhook env activated_body (Some activated_signature) world_trial).

End Demo.

(* ================================================================== *)
(** * The application as a whole (the routes of src/main.py) *)

(** GET /api/health *)
Definition health : M json :=
  ret (JObj [("status", JStr "ok"); ("service", JStr "alphadominico-backend")]).

(** A request to one of the six routes. *)
Inductive request : Type :=
| CreateSubscription (req : CreateSubscriptionRequest)
| PaymentSuccess (req : PaymentSuccessRequest)
| RazorpayWebhook (body : bytes) (signature_header : option string)
| CancelSubscription (req : CancelRequest)
| SubscriptionStatus (email : string)
| Health.

Definition handle (E : Env) (r : request) : M json :=
  match r with
  | CreateSubscription req => create_subscription E req
  | PaymentSuccess req => payment_success E req
  | RazorpayWebhook body signature_header => razorpay_webhook E body signature_header
  | CancelSubscription req => cancel_subscription E req
  | SubscriptionStatus email => subscription_status email
  | Health => health
  end.

(** The world after a sequence of requests, served one after the other. *)
Definition serve (E : Env) (rs : list request) (w : World) : World :=
  fold_left (fun w r => snd (handle E r w)) rs w.

(** The effect of one committed statement on the tables: the UPDATE or the
    INSERT of [upsert_subscriber], the INSERT OR IGNORE of [log_payment] when
    it inserts, the INSERT into [webhook_log]. *)
Inductive db_change : DB -> DB -> Prop :=
| change_update (e : option string) (b : bound_kwargs) (now : string) (d : DB) :
    db_change d
      (set_subscribers
         (map (fun r => if email_is e r then update_row b now r else r)
              (subscribers d)) d)
| change_insert (e : option string) (b : bound_kwargs) (now : string)
    (r : Subscriber) (d : DB) :
    existsb (email_is e) (subscribers d) = false ->
    insert_row e b now = Some r ->
    db_change d (set_subscribers (subscribers d ++ [r]) d)
| change_payment (p : Payment) (d : DB) :
    existsb (fun q => String.eqb (p_razorpay_payment_id q) (p_razorpay_payment_id p))
            (payment_log d) = false ->
    db_change d (set_payment_log (payment_log d ++ [p]) d)
| change_webhook (row : WebhookRecord) (d : DB) :
    db_change d (set_webhook_log (webhook_log d ++ [row]) d).

Inductive db_changes : DB -> DB -> Prop :=
| changes_none (d : DB) : db_changes d d
| changes_step (d1 d2 d3 : DB) :
    db_change d1 d2 -> db_changes d2 d3 -> db_changes d1 d3.

(** A computation whose effect on the tables is a sequence of such
    statements (none at all when it rolls back). *)
Definition changes_db {A} (m : M A) : Prop :=
  forall w, db_changes (db w) (db (snd (m w))).

(** A computation that makes no call to the payment provider. *)
Definition keeps_gateway_calls {A} (m : M A) : Prop :=
  forall w, gateway_calls (snd (m w)) = gateway_calls w.

(** The two UNIQUE constraints of INIT_SQL. *)
Definition db_ok (d : DB) : Prop :=
  NoDup (map s_email (subscribers d))
  /\ NoDup (map p_razorpay_payment_id (payment_log d)).

(** What identifies a subscriber row for good. *)
Definition row_identity (r : Subscriber) : string * string :=
  (s_email r, s_created_at r).

(** [l'] is [l] with rows added at the end. *)
Definition extends {A} (l l' : list A) : Prop := exists t, l' = l ++ t.

(* ================================================================== *)
(** * Rows and calls of the remaining branches *)

(** The [payment_log] row of a charge whose amount is stored as [amt]. *)
Definition charge_row (e c pk p sid : string) (amt : sqlval) (payload_str now : string)
  : Payment :=
  {| p_email := e; p_phone := Some c; p_plan_key := Some pk;
     p_razorpay_payment_id := p;
     p_razorpay_sub_id := Some sid; p_razorpay_order_id := None;
     p_amount_paise := amt; p_currency := Some "INR";
     p_event_type := Some "subscription.charged"; p_status := Some "captured";
     p_webhook_payload := Some payload_str; p_logged_at := now |}.

(** The audit row of a charge: it names the subscription, or the payment
    when the subscription id is empty. *)
Definition charged_audit (E : Env) (payload : json) (p sid : string) (w : World)
  : WebhookRecord :=
  {| w_event := Some "subscription.charged";
     w_entity_id := Some (if String.eqb sid "" then p else sid);
     w_payload := Some (json_dumps E payload);
     w_signature_ok := 1;
     w_received_at := clock E (reads w) |}.

(** The [payment_log] row of a [payment.failed] event. *)
Definition failed_row (e p sid payload_str now : string) : Payment :=
  {| p_email := e; p_phone := None; p_plan_key := Some "unknown";
     p_razorpay_payment_id := p;
     p_razorpay_sub_id := Some sid; p_razorpay_order_id := None;
     p_amount_paise := SNull; p_currency := Some "INR";
     p_event_type := Some "payment.failed"; p_status := Some "failed";
     p_webhook_payload := Some payload_str; p_logged_at := now |}.

(** What a [payment.failed] event binds for the ledger. *)
Definition failed_bound : bound_kwargs :=
  {| b_name := None; b_phone := None;
     b_plan_key := Some "standard"; b_status := Some "payment_failed";
     b_razorpay_customer_id := None; b_razorpay_sub_id := None;
     b_trial_start_at := None; b_activated_at := None;
     b_cancelled_at := None; b_cancel_at_period_end := SInt 0 |}.

(** The call [create_subscription] makes for the plan id [server_plan_id]. *)
Definition create_call (req : CreateSubscriptionRequest) (server_plan_id : string)
  : gateway_call :=
  SubscriptionCreate server_plan_id 120 1 1 (cs_email req) (cs_name req)
    (lower (cs_plan_key req)).

(** What [create_subscription] binds for the ledger. *)
Definition create_bound (req : CreateSubscriptionRequest) (sub_id : option string)
  (trial_start : string) : bound_kwargs :=
  {| b_name := Some (cs_name req); b_phone := Some (cs_phone req);
     b_plan_key := Some (lower (cs_plan_key req)); b_status := Some "trial";
     b_razorpay_customer_id := None; b_razorpay_sub_id := sub_id;
     b_trial_start_at := Some trial_start; b_activated_at := None;
     b_cancelled_at := None; b_cancel_at_period_end := SInt 0 |}.

(* ================================================================== *)
(** * More deliveries for the concrete deployment *)

Module Scenario.

Definition subscription_of (notes : list (string * json)) : json :=
  JObj [("entity", JObj [("id", JStr "sub_1"); ("notes", JObj notes)])].

Definition pro_notes : list (string * json) :=
  [("email", JStr "a@x.com"); ("plan_key", JStr "pro")].

Definition event_of (name : string) (entity : json) : json :=
  JObj [("event", JStr name); ("payload", entity)].

Definition payment_of (fields : list (string * json)) : json :=
  JObj [("entity", JObj fields)].

(** A cancellation, a completion, and an event the handler has no branch for. *)
Definition subscription_only : json :=
  JObj [("subscription", subscription_of pro_notes)].
Definition cancelled_payload : json := event_of "subscription.cancelled" subscription_only.
Definition completed_payload : json := event_of "subscription.completed" subscription_only.
Definition paused_payload : json := event_of "subscription.paused" subscription_only.

(** A cancellation whose notes carry no email. *)
Definition anonymous_entity : json :=
  JObj [("subscription", subscription_of [])].
Definition anonymous_payload : json := event_of "subscription.cancelled" anonymous_entity.

(** Charges: without a payment id, with the amount as text, with the amount
    as a list. *)
Definition charge_entity (fields : list (string * json)) : json :=
  JObj [("payment", payment_of fields); ("subscription", subscription_of pro_notes)].
Definition no_payment_entity : json :=
  charge_entity [("amount", JInt 49900); ("contact", JStr "+1")].
Definition text_amount_entity : json :=
  charge_entity [("id", JStr "pay_2"); ("amount", JStr "49900"); ("contact", JStr "+1")].
Definition list_amount_entity : json :=
  charge_entity [("id", JStr "pay_3"); ("amount", JArr [JInt 49900]);
                 ("contact", JStr "+1")].
Definition no_payment_payload : json := event_of "subscription.charged" no_payment_entity.
Definition text_amount_payload : json := event_of "subscription.charged" text_amount_entity.
Definition list_amount_payload : json := event_of "subscription.charged" list_amount_entity.

(** A failed payment that carries no payment id. *)
Definition failed_data : json :=
  JObj [("email", JStr "b@x.com"); ("subscription_id", JStr "sub_2")].
Definition failed_entity : json :=
  JObj [("payment", JObj [("entity", failed_data)])].
Definition failed_payload : json := event_of "payment.failed" failed_entity.

Definition payloads : list json :=
  [cancelled_payload; completed_payload; paused_payload; anonymous_payload;
   no_payment_payload; text_amount_payload; list_amount_payload; failed_payload].

(** A delivery travels as [json.dumps] writes it. *)
Definition body_of (payload : json) : bytes := list_byte_of_string (Demo.dumps payload).

(** [json.loads] on these deliveries. *)
Definition loads (b : bytes) : option json :=
  find (fun payload => String.eqb (Demo.dumps payload) (string_of_list_byte b)) payloads.

Definition env : Env :=
  {| RAZORPAY_KEY_ID := "rzp_test_key";
     RAZORPAY_KEY_SECRET := "key_secret";
     RAZORPAY_WEBHOOK_SECRET := "whsec_demo";
     RAZORPAY_STANDARD_PLAN_ID := "plan_standard";
     RAZORPAY_PRO_PLAN_ID := "plan_pro";
     json_loads := loads;
     json_dumps := Demo.dumps;
     clock := Demo.ticks;
     rz_client := Demo.provider_up |}.

(** The header the provider sends with a delivery. *)
Definition signed (payload : json) : option string :=
  Some (HMAC.hexdigest (encode (RAZORPAY_WEBHOOK_SECRET env)) (body_of payload)).

Definition deliver (payload : json) : M json :=
  razorpay_webhook env (body_of payload) (signed payload).

(** a@x.com on the pro plan, in trial. *)
Definition world_pro : World :=
  snd (create_subscription env (Demo.create_req "PRO") Demo.world0).

Definition pro_row : Subscriber :=
  {| s_email := "a@x.com"; s_name := Some "A"; s_phone := Some "+1";
     s_plan_key := "pro"; s_status := "trial";
     s_razorpay_customer_id := None; s_razorpay_sub_id := Some "sub_1";
     s_created_at := "tick-1"; s_trial_start_at := Some "tick-0";
     s_activated_at := None; s_cancelled_at := None;
     s_cancel_at_period_end := SInt 0; s_updated_at := "tick-1" |}.

(** b@x.com known only from a failed payment: no upstream subscription id. *)
Definition world_failed : World := snd (deliver failed_payload Demo.world0).

Definition failed_subscriber : Subscriber :=
  {| s_email := "b@x.com"; s_name := None; s_phone := None;
     s_plan_key := "standard"; s_status := "payment_failed";
     s_razorpay_customer_id := None; s_razorpay_sub_id := None;
     s_created_at := "tick-1"; s_trial_start_at := None;
     s_activated_at := None; s_cancelled_at := None;
     s_cancel_at_period_end := SInt 0; s_updated_at := "tick-1" |}.

(** a@x.com after the provider cancelled the subscription. *)
Definition world_cancelled : World := snd (deliver cancelled_payload world_pro).

(** The ledger after Scenario C, one delivery. *)
Definition world_charged : World :=
  snd (razorpay_webhook Demo.env Demo.charged_body (Some Demo.charged_signature)
         Demo.world_trial).

End Scenario.

(* ================================================================== *)
(** * Checks of the library model against known values *)

(** INTEGER affinity on texts, as SQLite 3.40 stores them: integer
    literals become integers, other numeric literals numbers, the rest stays
    text. *)
Example integer_affinity_examples :
  integer_affinity (SText "49900") = SInt 49900
  /\ integer_affinity (SText " -7 ") = SInt (-7)
  /\ integer_affinity (SText "3.0e+5") = SNumeric "3.0e+5"
  /\ integer_affinity (SText "9223372036854775808") = SNumeric "9223372036854775808"
  /\ integer_affinity (SText "1e") = SText "1e"
  /\ integer_affinity (SText "0x10") = SText "0x10"
  /\ integer_affinity (SText "") = SText ""
  /\ integer_affinity (SInt 19900) = SInt 19900
  /\ integer_affinity SNull = SNull.
Proof. vm_compute. repeat split; reflexivity. Qed.

(** FIPS 180-4, the one-block message "abc". *)
Example sha256_abc :
  HMAC.hex (SHA256.digest_Z (map byte_val (list_byte_of_string "abc")))
  = "ba7816bf8f01cfea414140de5dae2223b00361a396177a9cb410ff61f20015ad".
Proof. vm_compute. reflexivity. Qed.

(** RFC 4231, test case 2. *)
Example hmac_rfc4231_case2 :
  HMAC.hexdigest (list_byte_of_string "Jefe")
                 (list_byte_of_string "what do ya want for nothing?")
  = "5bdcc146bf60754e6a042426089575c75a003f089d2739839dec58b964ec3843".
Proof. vm_compute. reflexivity. Qed.

(** The signatures of the demo bodies are the ones [hmac] computes. *)
Example demo_signatures :
  verify_webhook_signature Demo.env Demo.activated_body Demo.activated_signature = Ok true
  /\ verify_webhook_signature Demo.env Demo.charged_body Demo.charged_signature = Ok true
  /\ verify_razorpay_signature Demo.env "pay_1" "sub_1" Demo.confirm_signature = Ok true
  /\ List.length Demo.activated_body = 137%nat
  /\ List.length Demo.charged_body = 201%nat.
Proof. vm_compute. repeat split; reflexivity. Qed.

Example demo_dumps_activated :
  Demo.dumps Demo.activated_payload
  = ("{" ++ Demo.qt "event" ++ ": " ++ Demo.qt "subscription.activated" ++ ", "
         ++ Demo.qt "payload" ++ ": {" ++ Demo.qt "subscription" ++ ": {"
         ++ Demo.qt "entity" ++ ": {" ++ Demo.qt "id" ++ ": " ++ Demo.qt "sub_1"
         ++ ", " ++ Demo.qt "notes" ++ ": {" ++ Demo.qt "email" ++ ": "
         ++ Demo.qt "a@x.com" ++ ", " ++ Demo.qt "plan_key" ++ ": "
         ++ Demo.qt "standard" ++ "}}}}}")%string.
Proof. vm_compute. reflexivity. Qed.

(* ================================================================== *)
(** * Properties: the signature verifier *)

Ltac run :=
  cbv [bind_M lift ret raise db_conn get_db put_db utcnow rbind try_except rz_call].

Lemma char_code_of_Z (k : Z) :
  0 <= k < 256 -> char_code (ascii_of_N (Z.to_N k)) = k.
Proof.
  intros Hk. unfold char_code. rewrite N_ascii_embedding by lia. lia.
Qed.

Lemma hex_digit_ascii (n : Z) :
  0 <= n < 16 -> is_ascii_char (HMAC.hex_digit n) = true.
Proof.
  intros Hn. unfold HMAC.hex_digit, is_ascii_char.
  destruct (n <? 10); rewrite char_code_of_Z by lia; apply Z.ltb_lt; lia.
Qed.

Lemma land15_range (b : Z) : 0 <= Z.land b 15 < 16.
Proof.
  change 15 with (Z.ones 4). rewrite Z.land_ones by lia.
  apply Z.mod_pos_bound. reflexivity.
Qed.

(** A hexdigest is ASCII whatever was hashed. *)
Lemma isascii_hex (bs : list Z) : isascii (HMAC.hex bs) = true.
Proof.
  induction bs as [| b bs IH]; [reflexivity |].
  cbn [HMAC.hex isascii].
  rewrite !hex_digit_ascii by apply land15_range.
  exact IH.
Qed.

Lemma compare_digest_hex (bs : list Z) (s : string) :
  isascii s = true ->
  compare_digest (HMAC.hex bs) s = Ok (String.eqb (HMAC.hex bs) s).
Proof.
  intros Hs. unfold compare_digest. rewrite isascii_hex, Hs. reflexivity.
Qed.

Lemma compare_digest_non_ascii (a s : string) :
  isascii s = false -> compare_digest a s = Raise TypeError.
Proof.
  intros Hs. unfold compare_digest. rewrite Hs, andb_false_r. reflexivity.
Qed.

(** A signature with a non-ASCII character makes both verifiers raise. *)
Lemma verify_signature_non_ascii (E : Env) (payment_id subscription_id : string)
  (body : bytes) (signature : string) :
  isascii signature = false ->
  verify_razorpay_signature E payment_id subscription_id signature = Raise TypeError
  /\ verify_webhook_signature E body signature = Raise TypeError.
Proof.
  intros Hs. unfold verify_razorpay_signature, verify_webhook_signature.
  rewrite !compare_digest_non_ascii by exact Hs. split; reflexivity.
Qed.

(** On a signature string that is ASCII, both verifiers return a boolean:
    true when the signature equals the expected hexdigest, false on any
    mismatch. They are functions of their arguments and the configured
    secret alone, so they have no side effect. *)
Lemma verify_signature_ascii (E : Env) (payment_id subscription_id : string)
  (body : bytes) (signature : string) :
  isascii signature = true ->
  verify_razorpay_signature E payment_id subscription_id signature
  = Ok (String.eqb
          (HMAC.hexdigest (encode (RAZORPAY_KEY_SECRET E))
             (encode (payment_id ++ "|" ++ subscription_id)%string))
          signature)
  /\ verify_webhook_signature E body signature
     = Ok (String.eqb (HMAC.hexdigest (encode (RAZORPAY_WEBHOOK_SECRET E)) body)
             signature).
Proof.
  intros Hs.
  unfold verify_razorpay_signature, verify_webhook_signature, HMAC.hexdigest.
  rewrite !compare_digest_hex by exact Hs. split; reflexivity.
Qed.

(** A wrong but well-formed signature: both verifiers return [False]. *)
Lemma verify_signature_ascii_witness :
  isascii "tampered" = true
  /\ verify_razorpay_signature Demo.env "pay_1" "sub_1" "tampered" = Ok false
  /\ verify_webhook_signature Demo.env Demo.charged_body "tampered" = Ok false.
Proof.
  split; [reflexivity |].
  destruct (@verify_signature_ascii Demo.env "pay_1" "sub_1" Demo.charged_body
              "tampered" eq_refl) as [H1 H2].
  rewrite H1, H2. vm_compute. split; reflexivity.
Defined.

(** C7: the verifiers are to return False on a malformed signature and
    never raise. At the signature U+00E9, a [str] like any other, both
    raise [TypeError]: [hmac.compare_digest] refuses non-ASCII [str], and
    neither verifier nor caller catches it. *)
Theorem verify_signature_raises :
  isascii Demo.e_acute = false
  /\ verify_razorpay_signature Demo.env "pay_1" "sub_1" Demo.e_acute = Raise TypeError
  /\ verify_webhook_signature Demo.env Demo.charged_body Demo.e_acute = Raise TypeError.
Proof. vm_compute. repeat split; reflexivity. Qed.

(* ================================================================== *)
(** * Properties: the two statements that write the ledger *)

Section Runs.

Variable E : Env.

Lemma upsert_subscriber_run (e : string) (k : upsert_kwargs) (b : bound_kwargs) (w : World) :
  bind_kwargs k = Ok b ->
  any_field k = true ->
  insert_row (Some e) b (clock E (reads w)) <> None ->
  upsert_subscriber E (JStr e) k w
  = (Ok tt,
     {| db := {| subscribers := upsert_rows e b (clock E (reads w)) (subscribers (db w));
                 payment_log := payment_log (db w);
                 webhook_log := webhook_log (db w) |};
        reads := S (reads w);
        gateway_calls := gateway_calls w |}).
Proof.
  intros Hb Hany Hins. destruct w as [[subs pays hooks] n calls].
  unfold upsert_subscriber, upsert_rows. run.
  cbn [bind_text bind text_affinity db reads gateway_calls subscribers
       payment_log webhook_log set_db set_subscribers] in *.
  rewrite Hb, Hany.
  destruct (existsb (email_is (Some e)) subs); [reflexivity |].
  destruct (insert_row (Some e) b (clock E n)); [reflexivity | contradiction].
Qed.

Lemma find_map_update (e : string) (f : Subscriber -> Subscriber) (rows : list Subscriber) :
  (forall r, s_email (f r) = s_email r) ->
  find (fun r => String.eqb (s_email r) e)
       (map (fun r => if email_is (Some e) r then f r else r) rows)
  = option_map f (find (fun r => String.eqb (s_email r) e) rows).
Proof.
  intros Hf. induction rows as [| r rows IH]; [reflexivity |].
  cbn [map find email_is].
  destruct (String.eqb (s_email r) e) eqn:Hr.
  - cbn [find]. rewrite Hf, Hr. reflexivity.
  - cbn [find]. rewrite Hr. exact IH.
Qed.

Lemma existsb_find_email (e : string) (rows : list Subscriber) :
  existsb (email_is (Some e)) rows = true ->
  exists r, find (fun r => String.eqb (s_email r) e) rows = Some r.
Proof.
  induction rows as [| r rows IH]; cbn [existsb find email_is]; [discriminate |].
  destruct (String.eqb (s_email r) e); [eauto | exact IH].
Qed.

Lemma not_existsb_find_email (e : string) (rows : list Subscriber) :
  existsb (email_is (Some e)) rows = false ->
  find (fun r => String.eqb (s_email r) e) rows = None.
Proof.
  induction rows as [| r rows IH]; cbn [existsb find email_is]; [reflexivity |].
  destruct (String.eqb (s_email r) e); [discriminate | exact IH].
Qed.

Lemma insert_row_email (e : string) (b : bound_kwargs) (now : string) (r : Subscriber) :
  insert_row (Some e) b now = Some r -> s_email r = e.
Proof.
  unfold insert_row.
  destruct (b_plan_key b), (b_status b), (b_cancel_at_period_end b);
    intros H; inversion H; reflexivity.
Qed.

Lemma find_app_new (e : string) (rows : list Subscriber) (r : Subscriber) :
  existsb (email_is (Some e)) rows = false ->
  s_email r = e ->
  find (fun r => String.eqb (s_email r) e) (rows ++ [r]) = Some r.
Proof.
  intros Hex Hr. induction rows as [| r0 rows IH].
  - cbn [app find]. rewrite Hr, String.eqb_refl. reflexivity.
  - cbn [existsb email_is] in Hex. apply orb_false_iff in Hex as [Hr0 Hex].
    cbn [app find]. rewrite Hr0. exact (IH Hex).
Qed.

(** The row of [e] after an upsert: the updated row, or the inserted one. *)
Lemma find_upsert_rows (e : string) (b : bound_kwargs) (now : string)
  (rows : list Subscriber) (rnew : Subscriber) :
  insert_row (Some e) b now = Some rnew ->
  find (fun r => String.eqb (s_email r) e) (upsert_rows e b now rows)
  = Some match find (fun r => String.eqb (s_email r) e) rows with
         | Some r => update_row b now r
         | None => rnew
         end.
Proof.
  intros Hins. unfold upsert_rows.
  destruct (existsb (email_is (Some e)) rows) eqn:Hex.
  - rewrite find_map_update by reflexivity.
    destruct (existsb_find_email _ _ Hex) as [r ->]. reflexivity.
  - rewrite Hins, (not_existsb_find_email _ _ Hex).
    apply find_app_new; [exact Hex | exact (@insert_row_email _ _ _ _ Hins)].
Qed.

Lemma log_payment_run
  (email phone plan_key payment_id sub_id order_id amount event_type status payload : json)
  (e p : string) (ph pk sid oid et st wp : option string) (amt : sqlval) (w : World) :
  bind_text email = Ok (Some e) ->
  bind_text phone = Ok ph ->
  bind_text plan_key = Ok pk ->
  bind_text payment_id = Ok (Some p) ->
  bind_text sub_id = Ok sid ->
  bind_text order_id = Ok oid ->
  bind amount = Ok amt ->
  bind_text event_type = Ok et ->
  bind_text status = Ok st ->
  bind_text payload = Ok wp ->
  log_payment E email phone plan_key payment_id sub_id order_id amount
    event_type status payload w
  = (Ok tt,
     {| db := {| subscribers := subscribers (db w);
                 payment_log :=
                   insert_or_ignore
                     {| p_email := e; p_phone := ph; p_plan_key := pk;
                        p_razorpay_payment_id := p;
                        p_razorpay_sub_id := sid; p_razorpay_order_id := oid;
                        p_amount_paise := integer_affinity amt;
                        p_currency := Some "INR";
                        p_event_type := et; p_status := st;
                        p_webhook_payload := wp;
                        p_logged_at := clock E (reads w) |}
                     (payment_log (db w));
                 webhook_log := webhook_log (db w) |};
        reads := S (reads w);
        gateway_calls := gateway_calls w |}).
Proof.
  intros He Hph Hpk Hp Hsid Hoid Hamt Het Hst Hwp.
  destruct w as [[subs pays hooks] n calls].
  unfold log_payment, insert_or_ignore. run.
  rewrite He, Hph, Hpk, Hp, Hsid, Hoid, Hamt, Het, Hst, Hwp.
  cbn [db reads gateway_calls subscribers payment_log webhook_log set_db
       set_payment_log p_razorpay_payment_id].
  destruct (existsb _ pays); reflexivity.
Qed.

(** ** What never touches the audit table *)

Lemma keeps_ret {A} (a : A) : keeps_webhook_log (ret a).
Proof. intros w. reflexivity. Qed.

Lemma keeps_raise {A} (e : exn) : keeps_webhook_log (@raise A e).
Proof. intros w. reflexivity. Qed.

Lemma keeps_lift {A} (r : result A) : keeps_webhook_log (lift r).
Proof. intros w. reflexivity. Qed.

Lemma keeps_utcnow : keeps_webhook_log (utcnow E).
Proof. intros w. reflexivity. Qed.

Lemma keeps_bind {A B} (m : M A) (k : A -> M B) :
  keeps_webhook_log m -> (forall a, keeps_webhook_log (k a)) ->
  keeps_webhook_log (bind_M m k).
Proof.
  intros Hm Hk w. unfold bind_M. specialize (Hm w).
  destruct (m w) as [[a | e] w']; cbn [snd] in *.
  - rewrite (Hk a w'). exact Hm.
  - exact Hm.
Qed.

Lemma keeps_db_conn {A} (m : M A) :
  keeps_webhook_log m -> keeps_webhook_log (db_conn m).
Proof.
  intros Hm w. unfold db_conn. specialize (Hm w).
  destruct (m w) as [[a | e] w']; cbn [snd] in *; [exact Hm | reflexivity].
Qed.

Lemma keeps_upsert_subscriber (email : json) (k : upsert_kwargs) :
  keeps_webhook_log (upsert_subscriber E email k).
Proof.
  intros w. unfold upsert_subscriber. run.
  destruct (bind_text email) as [e |]; [| reflexivity].
  cbn [db reads gateway_calls].
  destruct (existsb (email_is e) (subscribers (db w))).
  - destruct (any_field k); [| reflexivity].
    destruct (bind_kwargs k); reflexivity.
  - destruct (bind_kwargs k) as [b |]; [| reflexivity].
    destruct (insert_row e b _); reflexivity.
Qed.

Lemma keeps_log_payment
  (email phone plan_key payment_id sub_id order_id amount event_type status payload : json) :
  keeps_webhook_log
    (log_payment E email phone plan_key payment_id sub_id order_id amount
       event_type status payload).
Proof.
  intros w. unfold log_payment. run.
  repeat match goal with
         | |- context [match bind_text ?x with _ => _ end] =>
             destruct (bind_text x); [| reflexivity]
         | |- context [match bind ?x with _ => _ end] =>
             destruct (bind x); [| reflexivity]
         end.
  cbn [db reads gateway_calls].
  repeat match goal with
         | |- context [match ?o with Some _ => _ | None => _ end] =>
             destruct o; [| reflexivity]
         end.
  destruct (existsb _ _); reflexivity.
Qed.

Ltac keeps :=
  repeat first
    [ apply keeps_ret | apply keeps_raise | apply keeps_lift | apply keeps_utcnow
    | apply keeps_upsert_subscriber | apply keeps_log_payment
    | apply keeps_db_conn
    | apply keeps_bind; [| intros ?]
    | match goal with
      | |- keeps_webhook_log (if ?b then _ else _) => destruct b
      | |- keeps_webhook_log (match ?p with (_, _) => _ end) => destruct p
      end ].

(** Once the audit row is written, nothing the handler does changes the
    audit table. *)
Lemma keeps_webhook_dispatch (sig_ok : bool) (event entity : json) (payload_str : string) :
  keeps_webhook_log (webhook_dispatch E sig_ok event entity payload_str).
Proof.
  unfold webhook_dispatch, on_subscription_activated, on_subscription_charged,
    on_subscription_cancelled, on_subscription_completed, on_payment_failed.
  keeps.
Qed.

End Runs.

(* ================================================================== *)
(** * Properties: the webhook handler *)

Section Webhook.
Variable E : Env.

Lemma insert_webhook_log_run (event entity_id : json) (payload_str : string)
  (sig_ok : bool) (ev id : option string) (w : World) :
  bind_text event = Ok ev ->
  bind_text entity_id = Ok id ->
  insert_webhook_log E event entity_id payload_str sig_ok w
  = (Ok tt,
     world_after_audit
       {| w_event := ev; w_entity_id := id; w_payload := Some payload_str;
          w_signature_ok := if sig_ok then 1 else 0;
          w_received_at := clock E (reads w) |} w).
Proof.
  intros Hev Hid. destruct w as [[subs pays hooks] n calls].
  unfold insert_webhook_log, world_after_audit. run. rewrite Hev, Hid. reflexivity.
Qed.

Lemma py_get_payload (payload event : json) :
  py_get payload "event" (JStr "") = Ok event ->
  exists entity, py_get payload "payload" (JObj []) = Ok entity.
Proof.
  destruct payload; cbn [py_get]; try discriminate. intros _. eauto.
Qed.

(** The handler up to the commit of the audit row: the rest runs from the
    world that holds that one row more. *)
Lemma razorpay_webhook_run (body : bytes) (header : option string)
  (w : World) (sig_ok : bool) (payload event entity : json) (ev id : option string) :
  verify_webhook_signature E body (header_or header "") = Ok sig_ok ->
  json_loads E body = Some payload ->
  py_get payload "event" (JStr "") = Ok event ->
  py_get payload "payload" (JObj []) = Ok entity ->
  bind_text event = Ok ev ->
  bind_text (_extract_entity_id payload) = Ok id ->
  razorpay_webhook E body header w
  = webhook_dispatch E sig_ok event entity (json_dumps E payload)
      (world_after_audit
         {| w_event := ev; w_entity_id := id;
            w_payload := Some (json_dumps E payload);
            w_signature_ok := if sig_ok then 1 else 0;
            w_received_at := clock E (reads w) |} w).
Proof.
  intros Hsig Hloads Hevent Hentity Hev Hid.
  unfold razorpay_webhook. unfold bind_M at 1, lift at 1. rewrite Hsig, Hloads.
  unfold bind_M at 1, lift at 1. rewrite Hevent.
  unfold bind_M at 1, lift at 1. rewrite Hentity.
  unfold bind_M at 1.
  rewrite insert_webhook_log_run with (ev := ev) (id := id) by assumption.
  reflexivity.
Qed.

(** C1 (as amended): whenever the signature check returns (true or false)
    and the body parses to a JSON object whose event name and extracted
    entity id are values SQLite can bind, the handler first commits exactly
    one new [webhook_log] row and only then does the rest of its work, from
    the world that differs from the initial one by that row alone; the audit
    table of the final world is the initial one with that single row
    appended. *)
Theorem razorpay_webhook_audit_first (body : bytes) (header : option string)
  (w : World) (sig_ok : bool) (payload event : json) (ev id : option string) :
  verify_webhook_signature E body (header_or header "") = Ok sig_ok ->
  json_loads E body = Some payload ->
  py_get payload "event" (JStr "") = Ok event ->
  bind_text event = Ok ev ->
  bind_text (_extract_entity_id payload) = Ok id ->
  let row := {| w_event := ev; w_entity_id := id;
                w_payload := Some (json_dumps E payload);
                w_signature_ok := if sig_ok then 1 else 0;
                w_received_at := clock E (reads w) |} in
  exists entity,
    py_get payload "payload" (JObj []) = Ok entity
    /\ razorpay_webhook E body header w
       = webhook_dispatch E sig_ok event entity (json_dumps E payload)
           (world_after_audit row w)
    /\ webhook_log (db (snd (razorpay_webhook E body header w)))
       = webhook_log (db w) ++ [row].
Proof.
  intros Hsig Hloads Hevent Hev Hid row.
  destruct (py_get_payload _ _ Hevent) as [entity Hentity].
  exists entity. split; [exact Hentity |].
  pose proof (razorpay_webhook_run body header w sig_ok payload event entity ev id
                Hsig Hloads Hevent Hentity Hev Hid) as Hrun.
  split; [exact Hrun |].
  rewrite Hrun, keeps_webhook_dispatch. reflexivity.
Qed.

(** A body [json.loads] rejects is answered 400 before anything is recorded. *)
Lemma razorpay_webhook_invalid_json (body : bytes) (header : option string)
  (w : World) (sig_ok : bool) :
  verify_webhook_signature E body (header_or header "") = Ok sig_ok ->
  json_loads E body = None ->
  razorpay_webhook E body header w = (Raise (HTTPException 400 "Invalid payload"), w).
Proof.
  intros Hsig Hloads. unfold razorpay_webhook, bind_M, lift. rewrite Hsig, Hloads.
  reflexivity.
Qed.

Lemma truthy_str (s : string) : s <> "" -> truthy (JStr s) = true.
Proof. intros H. cbn [truthy]. apply String.eqb_neq in H. rewrite H. reflexivity. Qed.

Lemma on_subscription_activated_run (entity : json) (sid e pk : string) (w : World) :
  subscription_fields entity = Ok (JStr sid, JStr e, JStr pk) ->
  e <> "" ->
  on_subscription_activated E entity w
  = (Ok tt,
     {| db := {| subscribers :=
                   upsert_rows e
                     (webhook_bound pk "active" (Some sid) (Some (clock E (reads w))) None)
                     (clock E (S (reads w))) (subscribers (db w));
                 payment_log := payment_log (db w);
                 webhook_log := webhook_log (db w) |};
        reads := S (S (reads w));
        gateway_calls := gateway_calls w |}).
Proof.
  intros Hf He. unfold on_subscription_activated.
  unfold bind_M at 1, lift at 1. rewrite Hf, (truthy_str _ He).
  unfold db_conn, bind_M, utcnow.
  rewrite upsert_subscriber_run
    with (b := webhook_bound pk "active" (Some sid) (Some (clock E (reads w))) None);
    [reflexivity | reflexivity | reflexivity | discriminate].
Qed.

(** C3 (as amended): a validly-signed subscription.activated event for the
    email [e] leaves that subscriber with status active and sets
    [activated_at] to the time read during this delivery, whether or not the
    field was set before: a redelivery for a subscriber who is already active
    keeps the status and overwrites [activated_at]. *)
Theorem activated_overwrites_activated_at (body : bytes) (header : option string)
  (w : World) (payload entity : json) (sid e pk : string) (id : option string) :
  verify_webhook_signature E body (header_or header "") = Ok true ->
  json_loads E body = Some payload ->
  py_get payload "event" (JStr "") = Ok (JStr "subscription.activated") ->
  py_get payload "payload" (JObj []) = Ok entity ->
  bind_text (_extract_entity_id payload) = Ok id ->
  subscription_fields entity = Ok (JStr sid, JStr e, JStr pk) ->
  e <> "" ->
  fst (razorpay_webhook E body header w) = Ok (JObj [("status", JStr "processed")])
  /\ exists r,
       find_subscriber e (db (snd (razorpay_webhook E body header w))) = Some r
       /\ s_status r = "active"
       /\ s_activated_at r = Some (clock E (S (reads w))).
Proof.
  intros Hsig Hloads Hevent Hentity Hid Hf He.
  rewrite (razorpay_webhook_run body header w true payload _ entity _ id
             Hsig Hloads Hevent Hentity eq_refl Hid).
  unfold webhook_dispatch. cbn [negb eq_str String.eqb Ascii.eqb Bool.eqb].
  unfold bind_M.
  rewrite on_subscription_activated_run with (sid := sid) (e := e) (pk := pk)
    by assumption.
  cbn [fst snd ret]. split; [reflexivity |].
  unfold find_subscriber. cbn [db subscribers world_after_audit reads].
  erewrite find_upsert_rows by reflexivity.
  eexists. split; [reflexivity |].
  destruct (find _ _); split; reflexivity.
Qed.

(** ** The entity id of the audit row *)

Lemma py_get_id_found (o : json) (s : string) :
  py_get o "id" (JStr "") = Ok (JStr s) -> s <> "" ->
  py_get o "id" JNull = Ok (JStr s) /\ py_getitem o "id" = Ok (JStr s).
Proof.
  destruct o; cbn [py_get py_getitem]; try discriminate.
  destruct (assoc "id" items) as [v |]; intros H Hs.
  - injection H as ->. split; reflexivity.
  - injection H as <-. contradiction.
Qed.

Lemma py_get_id_empty (o : json) :
  py_get o "id" (JStr "") = Ok (JStr "") ->
  exists v, py_get o "id" JNull = Ok v /\ truthy v = false.
Proof.
  destruct o; cbn [py_get]; try discriminate.
  destruct (assoc "id" items) as [v |]; intros H.
  - injection H as ->. eexists. split; reflexivity.
  - eexists. split; reflexivity.
Qed.

Lemma entity_id_at_str (payload entity x data : json) (key s : string) :
  py_get payload "payload" (JObj []) = Ok entity ->
  py_get entity key (JObj []) = Ok x ->
  py_get x "entity" (JObj []) = Ok data ->
  py_get data "id" (JStr "") = Ok (JStr s) ->
  entity_id_at payload key = Ok (if String.eqb s "" then None else Some (JStr s)).
Proof.
  intros Hp Hk Hx Hid. unfold entity_id_at, rbind. rewrite Hp, Hk, Hx.
  destruct (String.eqb s "") eqn:Hs.
  - apply String.eqb_eq in Hs. subst s.
    destruct (py_get_id_empty _ Hid) as (v & -> & ->). reflexivity.
  - apply String.eqb_neq in Hs.
    destruct (py_get_id_found _ _ Hid Hs) as [-> ->]. rewrite (truthy_str _ Hs). reflexivity.
Qed.

Lemma subscription_fields_id (entity sub_id email plan_key' : json) :
  subscription_fields entity = Ok (sub_id, email, plan_key') ->
  exists x data,
    py_get entity "subscription" (JObj []) = Ok x
    /\ py_get x "entity" (JObj []) = Ok data
    /\ py_get data "id" (JStr "") = Ok sub_id.
Proof.
  unfold subscription_fields, rbind. intros H.
  destruct (py_get entity "subscription" (JObj [])) as [x |]; [| discriminate].
  destruct (py_get x "entity" (JObj [])) as [data |] eqn:Hx; [| discriminate].
  destruct (py_get data "id" (JStr "")) as [i |] eqn:Hi; [| discriminate].
  destruct (py_get data "notes" (JObj [])) as [notes |]; [| discriminate].
  destruct (py_get notes "email" (JStr "")) as [em |]; [| discriminate].
  destruct (py_get notes "plan_key" (JStr "standard")) as [pk |]; [| discriminate].
  injection H as -> _ _. exists x, data. repeat split; assumption.
Qed.

Lemma payment_fields_id (entity payment_id amount contact : json) :
  payment_fields entity = Ok (payment_id, amount, contact) ->
  exists x data,
    py_get entity "payment" (JObj []) = Ok x
    /\ py_get x "entity" (JObj []) = Ok data
    /\ py_get data "id" (JStr "") = Ok payment_id.
Proof.
  unfold payment_fields, rbind. intros H.
  destruct (py_get entity "payment" (JObj [])) as [x |]; [| discriminate].
  destruct (py_get x "entity" (JObj [])) as [data |] eqn:Hx; [| discriminate].
  destruct (py_get data "id" (JStr "")) as [i |] eqn:Hi; [| discriminate].
  destruct (py_get data "amount" (JInt 0)) as [am |]; [| discriminate].
  destruct (py_get data "contact" (JStr "")) as [co |]; [| discriminate].
  injection H as -> _ _. exists x, data. repeat split; assumption.
Qed.

(** For a charge, the audit row names the subscription, or the payment when
    the subscription id is empty. *)
Lemma extract_entity_id_charged (payload entity : json) (p sid : string)
  (amount contact email plan_key' : json) :
  py_get payload "payload" (JObj []) = Ok entity ->
  payment_fields entity = Ok (JStr p, amount, contact) ->
  subscription_fields entity = Ok (JStr sid, email, plan_key') ->
  p <> "" ->
  _extract_entity_id payload = JStr (if String.eqb sid "" then p else sid).
Proof.
  intros Hentity Hp Hs Hne.
  destruct (subscription_fields_id _ _ _ _ Hs) as (xs & ds & Hs1 & Hs2 & Hs3).
  destruct (payment_fields_id _ _ _ _ Hp) as (xp & dp & Hp1 & Hp2 & Hp3).
  unfold _extract_entity_id. cbn [first_entity_id].
  rewrite (entity_id_at_str _ _ _ _ _ _ Hentity Hs1 Hs2 Hs3).
  destruct (String.eqb sid ""); [| reflexivity].
  rewrite (entity_id_at_str _ _ _ _ _ _ Hentity Hp1 Hp2 Hp3).
  apply String.eqb_neq in Hne. rewrite Hne. reflexivity.
Qed.


(** ** INSERT OR IGNORE keeps one row per payment id *)

Lemma existsb_filter_length {A} (f : A -> bool) (l : list A) :
  existsb f l = true -> (1 <= List.length (filter f l))%nat.
Proof.
  induction l as [| x l IH]; cbn [existsb filter]; [discriminate |].
  destruct (f x); cbn [orb List.length]; [lia | exact IH].
Qed.

Lemma not_existsb_filter {A} (f : A -> bool) (l : list A) :
  existsb f l = false -> filter f l = [].
Proof.
  induction l as [| x l IH]; cbn [existsb filter]; [reflexivity |].
  destruct (f x); cbn [orb]; [discriminate | exact IH].
Qed.

Lemma insert_or_ignore_one (row : Payment) (l : list Payment) :
  let same := fun q => String.eqb (p_razorpay_payment_id q) (p_razorpay_payment_id row) in
  (List.length (filter same l) <= 1)%nat ->
  List.length (filter same (insert_or_ignore row l)) = 1%nat.
Proof.
  intros same Hle. unfold insert_or_ignore. fold same.
  destruct (existsb same l) eqn:Hex.
  - pose proof (existsb_filter_length _ _ Hex). lia.
  - rewrite filter_app, (not_existsb_filter _ _ Hex). cbn [filter app].
    unfold same at 1. rewrite String.eqb_refl. reflexivity.
Qed.

(** ** One delivery of a charge *)

Lemma on_subscription_charged_run (entity : json) (payload_str : string)
  (p c sid e pk : string) (a : Z) (w : World) :
  payment_fields entity = Ok (JStr p, JInt a, JStr c) ->
  subscription_fields entity = Ok (JStr sid, JStr e, JStr pk) ->
  e <> "" -> p <> "" -> int64 a = true ->
  on_subscription_charged E entity payload_str w
  = (Ok tt,
     {| db := {| subscribers :=
                   upsert_rows e (webhook_bound pk "active" (Some sid) None None)
                     (clock E (reads w)) (subscribers (db w));
                 payment_log :=
                   insert_or_ignore
                     (charged_row e c pk p sid a payload_str (clock E (S (reads w))))
                     (payment_log (db w));
                 webhook_log := webhook_log (db w) |};
        reads := S (S (reads w));
        gateway_calls := gateway_calls w |}).
Proof.
  intros Hp Hs He Hpne Ha. unfold on_subscription_charged.
  unfold bind_M at 1, lift at 1. rewrite Hp.
  unfold bind_M at 1, lift at 1. rewrite Hs.
  rewrite (truthy_str _ He), (truthy_str _ Hpne). cbn [andb].
  unfold bind_M at 1, db_conn, bind_M.
  rewrite upsert_subscriber_run
    with (b := webhook_bound pk "active" (Some sid) None None);
    [| reflexivity | reflexivity | discriminate].
  rewrite log_payment_run
    with (e := e) (p := p) (ph := Some c) (pk := Some pk) (sid := Some sid)
         (oid := None) (amt := SInt a) (et := Some "subscription.charged")
         (st := Some "captured") (wp := Some payload_str);
    try reflexivity.
  cbn [bind]. rewrite Ha. reflexivity.
Qed.

End Webhook.

Section OneCharge.

Variable E : Env.
Variables (body : bytes) (header : option string) (payload entity : json).
Variables (p c sid e pk : string) (a : Z).

Hypothesis Hsig : verify_webhook_signature E body (header_or header "") = Ok true.
Hypothesis Hloads : json_loads E body = Some payload.
Hypothesis Hevent : py_get payload "event" (JStr "") = Ok (JStr "subscription.charged").
Hypothesis Hentity : py_get payload "payload" (JObj []) = Ok entity.
Hypothesis Hpayment : payment_fields entity = Ok (JStr p, JInt a, JStr c).
Hypothesis Hsubscription : subscription_fields entity = Ok (JStr sid, JStr e, JStr pk).
Hypothesis He : e <> "".
Hypothesis Hp : p <> "".
Hypothesis Ha : int64 a = true.

Lemma charged_delivery (w : World) :
  let w' := snd (razorpay_webhook E body header w) in
  fst (razorpay_webhook E body header w) = Ok (JObj [("status", JStr "processed")])
  /\ payment_log (db w')
     = insert_or_ignore
         (charged_row e c pk p sid a (json_dumps E payload) (clock E (S (S (reads w)))))
         (payment_log (db w))
  /\ subscriber_status e w' = Some "active".
Proof.
  assert (bind_text (_extract_entity_id payload)
          = Ok (Some (if String.eqb sid "" then p else sid))) as Hid.
  { rewrite (extract_entity_id_charged _ _ _ _ _ _ _ _ Hentity Hpayment Hsubscription Hp).
    reflexivity. }
  cbv zeta.
  rewrite (razorpay_webhook_run E body header w true payload _ entity _ _
             Hsig Hloads Hevent Hentity eq_refl Hid).
  unfold webhook_dispatch.
  cbn [negb eq_str String.eqb Ascii.eqb Bool.eqb].
  unfold bind_M.
  rewrite on_subscription_charged_run
    with (p := p) (c := c) (sid := sid) (e := e) (pk := pk) (a := a)
    by assumption.
  cbn [lift amount_in_rupees ret fst snd db payment_log world_after_audit reads].
  split; [reflexivity |]. split; [reflexivity |].
  unfold subscriber_status, find_subscriber. cbn [db subscribers].
  erewrite find_upsert_rows by reflexivity.
  destruct (find _ _); reflexivity.
Qed.

Lemma charged_delivery_settles (w : World) :
  (List.length (payments_with_id p (db w)) <= 1)%nat ->
  let w' := snd (razorpay_webhook E body header w) in
  List.length (payments_with_id p (db w')) = 1%nat
  /\ subscriber_status e w' = Some "active".
Proof.
  intros Hle. destruct (charged_delivery w) as (_ & Hlog & Hstatus).
  cbv zeta in *. split; [| exact Hstatus].
  unfold payments_with_id in *. rewrite Hlog.
  apply (insert_or_ignore_one
           (charged_row e c pk p sid a (json_dumps E payload) (clock E (S (S (reads w)))))).
  exact Hle.
Qed.

Lemma charged_deliveries_settle (n : nat) :
  forall w,
    (List.length (payments_with_id p (db w)) <= 1)%nat ->
    List.length (payments_with_id p (db (deliveries E body header (S n) w))) = 1%nat
    /\ subscriber_status e (deliveries E body header (S n) w) = Some "active".
Proof.
  induction n as [| n IH]; intros w Hle.
  - exact (charged_delivery_settles w Hle).
  - change (deliveries E body header (S (S n)) w)
      with (deliveries E body header (S n) (snd (razorpay_webhook E body header w))).
    apply IH. destruct (charged_delivery_settles w Hle) as [-> _]. lia.
Qed.

(** C2: a validly-signed subscription.charged payload carrying payment id
    [p], email [e] and amount [a], delivered [n >= 1] times to a ledger that
    obeys the UNIQUE constraint for [p], leaves exactly one [payment_log] row
    of that payment id, and the subscriber's status after the [n]-th delivery
    is the one after the first (active). *)
Theorem charged_idempotent (n : nat) (w : World) :
  (List.length (payments_with_id p (db w)) <= 1)%nat ->
  (1 <= n)%nat ->
  List.length (payments_with_id p (db (deliveries E body header n w))) = 1%nat
  /\ subscriber_status e (deliveries E body header n w)
     = subscriber_status e (deliveries E body header 1 w)
  /\ subscriber_status e (deliveries E body header n w) = Some "active".
Proof.
  intros Hle Hn. destruct n as [| n]; [lia |].
  destruct (charged_deliveries_settle n w Hle) as [Hcount Hstatus].
  destruct (charged_deliveries_settle 0 w Hle) as [_ Hfirst].
  split; [exact Hcount |]. split; [| exact Hstatus].
  rewrite Hstatus, Hfirst. reflexivity.
Qed.

End OneCharge.

(* ================================================================== *)
(** * Properties: confirmation, cancellation, plan validation, status *)

Section Endpoints.
Variable E : Env.

Lemma payment_success_run (req : PaymentSuccessRequest) (w : World) :
  verify_razorpay_signature E (ps_razorpay_payment_id req)
    (ps_razorpay_subscription_id req) (ps_razorpay_signature req) = Ok true ->
  payment_success E req w
  = (Ok (JObj [("status", JStr "ok")]),
     {| db := {| subscribers :=
                   upsert_rows (ps_email req) (confirm_bound req (clock E (reads w)))
                     (clock E (S (reads w))) (subscribers (db w));
                 payment_log :=
                   insert_or_ignore (confirm_row req (clock E (S (S (reads w)))))
                     (payment_log (db w));
                 webhook_log := webhook_log (db w) |};
        reads := S (S (S (reads w)));
        gateway_calls := gateway_calls w |}).
Proof.
  intros Hsig. unfold payment_success.
  unfold bind_M at 1, lift at 1. rewrite Hsig. cbn [negb].
  unfold bind_M at 1, db_conn, bind_M, utcnow.
  rewrite upsert_subscriber_run with (b := confirm_bound req (clock E (reads w)));
    [| reflexivity | reflexivity | discriminate].
  rewrite log_payment_run
    with (e := ps_email req) (p := ps_razorpay_payment_id req)
         (ph := Some (ps_phone req)) (pk := Some (ps_plan_key req))
         (sid := Some (ps_razorpay_subscription_id req)) (oid := None)
         (amt := SNull) (et := Some "manual_success") (st := Some "captured")
         (wp := None);
    reflexivity.
Qed.

(** C10: a validly-signed confirmation stores the caller's [plan_key] as it
    came, whatever the string: it is the plan key of the subscriber row
    after the call and of the row offered to [payment_log] (inserted unless
    the payment id is already logged). No allow-list is consulted. *)
Theorem payment_success_plan_key_verbatim (req : PaymentSuccessRequest) (w : World) :
  verify_razorpay_signature E (ps_razorpay_payment_id req)
    (ps_razorpay_subscription_id req) (ps_razorpay_signature req) = Ok true ->
  let w' := snd (payment_success E req w) in
  fst (payment_success E req w) = Ok (JObj [("status", JStr "ok")])
  /\ (exists r, find_subscriber (ps_email req) (db w') = Some r
                /\ s_plan_key r = ps_plan_key req)
  /\ payment_log (db w')
     = insert_or_ignore (confirm_row req (clock E (S (S (reads w))))) (payment_log (db w))
  /\ p_plan_key (confirm_row req (clock E (S (S (reads w))))) = Some (ps_plan_key req).
Proof.
  intros Hsig. cbv zeta. rewrite (payment_success_run req w Hsig). cbn [fst snd db].
  split; [reflexivity |]. split; [| split; reflexivity].
  unfold find_subscriber. cbn [subscribers].
  erewrite find_upsert_rows by reflexivity.
  eexists. split; [reflexivity |]. destruct (find _ _); reflexivity.
Qed.

(** When the signature check returns false, [payment_success] raises
    HTTP 400 "Invalid payment signature" and the world is the one it started
    from: no subscriber row inserted or updated, no payment row appended. *)
Lemma payment_success_invalid_signature (req : PaymentSuccessRequest) (w : World) :
  verify_razorpay_signature E (ps_razorpay_payment_id req)
    (ps_razorpay_subscription_id req) (ps_razorpay_signature req) = Ok false ->
  payment_success E req w = (Raise (HTTPException 400 "Invalid payment signature"), w).
Proof.
  intros Hsig. unfold payment_success, bind_M, lift. rewrite Hsig. reflexivity.
Qed.

(** Whenever the check does not return [True], whether it returns [False]
    or raises, the world is left as it was. *)
Lemma payment_success_unverified (req : PaymentSuccessRequest) (w : World) :
  verify_razorpay_signature E (ps_razorpay_payment_id req)
    (ps_razorpay_subscription_id req) (ps_razorpay_signature req) <> Ok true ->
  snd (payment_success E req w) = w.
Proof.
  intros Hsig. unfold payment_success, bind_M, lift.
  destruct (verify_razorpay_signature E _ _ _) as [[|] | e];
    [contradiction | reflexivity | reflexivity].
Qed.

(** ** Cancellation *)

Lemma cancel_lookup (req : CancelRequest) (w : World) :
  db_conn (bind_M get_db (fun d => ret (find_subscriber (cr_email req) d))) w
  = (Ok (find_subscriber (cr_email req) (db w)), w).
Proof. reflexivity. Qed.

Lemma cancel_subscription_run (req : CancelRequest) (w : World)
  (r : Subscriber) (sid : string) (answer : json) :
  find_subscriber (cr_email req) (db w) = Some r ->
  in_strs (s_status r) ["cancelled"; "expired"] = false ->
  s_razorpay_sub_id r = Some sid ->
  sid <> "" ->
  rz_client E (SubscriptionCancel sid 1) = Returned answer ->
  cancel_subscription E req w
  = (Ok (JObj [("status", JStr "cancel_scheduled");
               ("message", JStr "Your subscription will not renew. Access continues until end of billing period.")]),
     {| db := {| subscribers :=
                   upsert_rows (cr_email req) cancel_bound (clock E (reads w))
                     (subscribers (db w));
                 payment_log := payment_log (db w);
                 webhook_log := webhook_log (db w) |};
        reads := S (reads w);
        gateway_calls := gateway_calls w ++ [SubscriptionCancel sid 1] |}).
Proof.
  intros Hfind Hstatus Hsub Hsid Hgw.
  unfold cancel_subscription. unfold bind_M at 1. rewrite cancel_lookup, Hfind, Hstatus, Hsub.
  apply String.eqb_neq in Hsid. rewrite Hsid. cbn [negb].
  unfold bind_M at 1, try_except, bind_M at 1, rz_call. rewrite Hgw.
  cbn [ret]. unfold bind_M, db_conn.
  rewrite upsert_subscriber_run with (b := cancel_bound);
    [reflexivity | reflexivity | reflexivity | discriminate].
Qed.

(** C4 (as amended): for a subscriber whose status is neither cancelled nor
    expired and who has a non-empty upstream subscription id, when the
    provider accepts the call, [cancel_subscription] calls cancel-at-cycle-end
    once, sets [cancel_at_period_end] to 1 and writes the status active (so
    the status is unchanged exactly when it was active already). *)
Theorem cancel_subscription_scheduled (req : CancelRequest) (w : World)
  (r : Subscriber) (sid : string) (answer : json) :
  find_subscriber (cr_email req) (db w) = Some r ->
  in_strs (s_status r) ["cancelled"; "expired"] = false ->
  s_razorpay_sub_id r = Some sid ->
  sid <> "" ->
  rz_client E (SubscriptionCancel sid 1) = Returned answer ->
  let w' := snd (cancel_subscription E req w) in
  http_status (fst (cancel_subscription E req w)) = 200
  /\ gateway_calls w' = gateway_calls w ++ [SubscriptionCancel sid 1]
  /\ exists r', find_subscriber (cr_email req) (db w') = Some r'
                /\ s_cancel_at_period_end r' = SInt 1
                /\ s_status r' = "active"
                /\ (s_status r = "active" -> s_status r' = s_status r).
Proof.
  intros Hfind Hstatus Hsub Hsid Hgw. cbv zeta.
  rewrite (cancel_subscription_run req w r sid answer Hfind Hstatus Hsub Hsid Hgw).
  cbn [fst snd http_status db gateway_calls].
  split; [reflexivity |]. split; [reflexivity |].
  unfold find_subscriber in *. cbn [subscribers].
  erewrite find_upsert_rows by reflexivity. rewrite Hfind.
  eexists. repeat split; try reflexivity.
  intros Hactive. symmetry. exact Hactive.
Qed.

Lemma cancel_subscription_failure_run (req : CancelRequest) (w : World)
  (r : Subscriber) (sid msg : string) :
  find_subscriber (cr_email req) (db w) = Some r ->
  in_strs (s_status r) ["cancelled"; "expired"] = false ->
  s_razorpay_sub_id r = Some sid ->
  sid <> "" ->
  rz_client E (SubscriptionCancel sid 1) = BadRequest msg
  \/ rz_client E (SubscriptionCancel sid 1) = Failed msg ->
  cancel_subscription E req w
  = (Raise (HTTPException 500 ("Razorpay error: " ++ msg)%string),
     {| db := db w; reads := reads w;
        gateway_calls := gateway_calls w ++ [SubscriptionCancel sid 1] |}).
Proof.
  intros Hfind Hstatus Hsub Hsid Hgw.
  unfold cancel_subscription. unfold bind_M at 1. rewrite cancel_lookup, Hfind, Hstatus, Hsub.
  apply String.eqb_neq in Hsid. rewrite Hsid. cbn [negb].
  unfold bind_M at 1, try_except, bind_M at 1, rz_call.
  destruct Hgw as [-> | ->]; reflexivity.
Qed.

(** C6: when the provider's cancel call raises, [cancel_subscription]
    answers HTTP 500 and the database is exactly as before the call. *)
Theorem cancel_subscription_gateway_failure (req : CancelRequest) (w : World)
  (r : Subscriber) (sid msg : string) :
  find_subscriber (cr_email req) (db w) = Some r ->
  in_strs (s_status r) ["cancelled"; "expired"] = false ->
  s_razorpay_sub_id r = Some sid ->
  sid <> "" ->
  rz_client E (SubscriptionCancel sid 1) = BadRequest msg
  \/ rz_client E (SubscriptionCancel sid 1) = Failed msg ->
  fst (cancel_subscription E req w)
  = Raise (HTTPException 500 ("Razorpay error: " ++ msg)%string)
  /\ http_status (fst (cancel_subscription E req w)) = 500
  /\ db (snd (cancel_subscription E req w)) = db w.
Proof.
  intros Hfind Hstatus Hsub Hsid Hgw.
  rewrite (cancel_subscription_failure_run req w r sid msg Hfind Hstatus Hsub Hsid Hgw).
  repeat split; reflexivity.
Qed.

(** ** Plan validation *)

Lemma upsert_subscriber_gateway_calls (email : json) (k : upsert_kwargs) (w : World) :
  gateway_calls (snd (upsert_subscriber E email k w)) = gateway_calls w.
Proof.
  unfold upsert_subscriber. run.
  destruct (bind_text email) as [e |]; [| reflexivity].
  cbn [db reads gateway_calls].
  destruct (existsb (email_is e) (subscribers (db w))).
  - destruct (any_field k); [| reflexivity].
    destruct (bind_kwargs k); reflexivity.
  - destruct (bind_kwargs k) as [b |]; [| reflexivity].
    destruct (insert_row e b _); reflexivity.
Qed.

(** Past the two checks the provider is called once, with the plan id of the
    server-side map. *)
Lemma create_subscription_calls_gateway (req : CreateSubscriptionRequest) (w : World)
  (server_plan_id : string) :
  assoc (lower (cs_plan_key req)) (RAZORPAY_PLAN_IDS E) = Some server_plan_id ->
  String.eqb server_plan_id "" = false ->
  gateway_calls (snd (create_subscription E req w))
  = gateway_calls w
      ++ [SubscriptionCreate server_plan_id 120 1 1
            (cs_email req) (cs_name req) (lower (cs_plan_key req))].
Proof.
  intros Hplan Hid. unfold create_subscription. rewrite Hplan, Hid.
  unfold try_except, bind_M at 1, rz_call.
  destruct (rz_client E _) as [answer | msg | msg]; try reflexivity.
  unfold bind_M at 1, lift.
  destruct (py_getitem answer "id") as [sub_id |]; [| reflexivity].
  unfold bind_M at 1, db_conn, bind_M at 1, utcnow.
  match goal with
  | |- context [upsert_subscriber E ?em ?k ?w0] =>
      pose proof (upsert_subscriber_gateway_calls em k w0) as Hcalls;
      destruct (upsert_subscriber E em k w0) as [[[] | e] w1]
  end; exact Hcalls.
Qed.

(** C8 (as amended): [create_subscription] looks the lower-cased [plan_key]
    up in the server-side map. Not in {standard, pro}: HTTP 400 "Invalid
    plan". Allow-listed with an empty plan id: HTTP 503 "Plan not
    configured". In both cases the world is unchanged (no provider call, no
    row written). Otherwise the provider is called with the server-side plan
    id; the client's [plan_id] plays no part. *)
Theorem create_subscription_plan_check (req : CreateSubscriptionRequest) (w : World) :
  let plan := lower (cs_plan_key req) in
  match assoc plan (RAZORPAY_PLAN_IDS E) with
  | None =>
      in_strs plan ["standard"; "pro"] = false
      /\ create_subscription E req w = (Raise (HTTPException 400 "Invalid plan"), w)
  | Some server_plan_id =>
      in_strs plan ["standard"; "pro"] = true
      /\ if String.eqb server_plan_id ""
         then create_subscription E req w
              = (Raise (HTTPException 503 "Plan not configured"), w)
         else gateway_calls (snd (create_subscription E req w))
              = gateway_calls w
                  ++ [SubscriptionCreate server_plan_id 120 1 1
                        (cs_email req) (cs_name req) plan]
  end.
Proof.
  cbv zeta.
  destruct (assoc (lower (cs_plan_key req)) (RAZORPAY_PLAN_IDS E)) as [id |] eqn:Hplan.
  - split.
    + unfold RAZORPAY_PLAN_IDS, in_strs in *. cbn [assoc existsb] in *.
      destruct (String.eqb (lower (cs_plan_key req)) "standard"); [reflexivity |].
      destruct (String.eqb (lower (cs_plan_key req)) "pro"); [reflexivity | discriminate].
    + destruct (String.eqb id "") eqn:Hid.
      * unfold create_subscription. rewrite Hplan, Hid. reflexivity.
      * exact (create_subscription_calls_gateway req w id Hplan Hid).
  - split.
    + unfold RAZORPAY_PLAN_IDS, in_strs in *. cbn [assoc existsb] in *.
      destruct (String.eqb (lower (cs_plan_key req)) "standard"); [discriminate |].
      destruct (String.eqb (lower (cs_plan_key req)) "pro"); [discriminate | reflexivity].
    + unfold create_subscription. rewrite Hplan. reflexivity.
Qed.

(** ** Status query *)

(** C9 (as amended): for a non-empty email, [subscription_status] changes
    nothing; it returns {status: not_found, active: false} when no row has
    that email, and otherwise the stored snapshot with a boolean [active]
    that is true if and only if the stored status is trial or active. *)
Theorem subscription_status_snapshot (email : string) (w : World) :
  email <> "" ->
  snd (subscription_status email w) = w /\
  match find_subscriber email (db w) with
  | None =>
      fst (subscription_status email w)
      = Ok (JObj [("status", JStr "not_found"); ("active", JBool false)])
  | Some r =>
      exists active : bool,
        (active = true <-> s_status r = "trial" \/ s_status r = "active") /\
        fst (subscription_status email w)
        = Ok (JObj [("email", JStr (s_email r));
                    ("name", json_of_text (s_name r));
                    ("plan_key", JStr (s_plan_key r));
                    ("status", JStr (s_status r));
                    ("active", JBool active);
                    ("razorpay_sub_id", json_of_text (s_razorpay_sub_id r));
                    ("trial_start_at", json_of_text (s_trial_start_at r));
                    ("activated_at", json_of_text (s_activated_at r));
                    ("cancelled_at", json_of_text (s_cancelled_at r));
                    ("cancel_at_period_end", JBool (sql_truthy (s_cancel_at_period_end r)));
                    ("updated_at", JStr (s_updated_at r))])
  end.
Proof.
  intros Hne. apply String.eqb_neq in Hne.
  unfold subscription_status. rewrite Hne.
  unfold bind_M, db_conn, get_db, ret. cbn [fst snd].
  destruct (find_subscriber email (db w)) as [r |]; cbn [fst snd].
  - split; [reflexivity |].
    exists (in_strs (s_status r) ["trial"; "active"]). split; [| reflexivity].
    unfold in_strs. cbn [existsb]. rewrite orb_false_r, orb_true_iff, !String.eqb_eq.
    tauto.
  - split; reflexivity.
Qed.

End Endpoints.

(* ================================================================== *)
(** * The properties on the concrete deployment *)

Ltac demo := first [ discriminate | vm_compute; reflexivity | vm_compute; lia ].

(** ** The audit row (C1) *)

(** A charge whose signature does not verify is still recorded: one audit
    row with [signature_ok = 0], then the dispatch. *)
Lemma razorpay_webhook_audit_first_witness :
  verify_webhook_signature Demo.env Demo.charged_body "tampered" = Ok false
  /\ exists entity,
       py_get Demo.charged_payload "payload" (JObj []) = Ok entity
       /\ razorpay_webhook Demo.env Demo.charged_body (Some "tampered") Demo.world_trial
          = webhook_dispatch Demo.env false (JStr "subscription.charged") entity
              (json_dumps Demo.env Demo.charged_payload)
              (world_after_audit
                 {| w_event := Some "subscription.charged";
                    w_entity_id := Some "sub_1";
                    w_payload := Some (json_dumps Demo.env Demo.charged_payload);
                    w_signature_ok := 0;
                    w_received_at := clock Demo.env (reads Demo.world_trial) |}
                 Demo.world_trial)
       /\ webhook_log (db (snd (razorpay_webhook Demo.env Demo.charged_body
                                  (Some "tampered") Demo.world_trial)))
          = webhook_log (db Demo.world_trial)
              ++ [{| w_event := Some "subscription.charged";
                     w_entity_id := Some "sub_1";
                     w_payload := Some (json_dumps Demo.env Demo.charged_payload);
                     w_signature_ok := 0;
                     w_received_at := clock Demo.env (reads Demo.world_trial) |}].
Proof.
  split; [demo |].
  apply (razorpay_webhook_audit_first Demo.env Demo.charged_body (Some "tampered")
           Demo.world_trial false Demo.charged_payload (JStr "subscription.charged")
           (Some "subscription.charged") (Some "sub_1")); demo.
Defined.

(** C1 fails as stated: a body that is not JSON is answered 400 and leaves
    the audit table (and the whole world) as it was. *)
Lemma razorpay_webhook_no_audit_row :
  json_loads Demo.env Demo.garbage_body = None
  /\ razorpay_webhook Demo.env Demo.garbage_body (Some "tampered") Demo.world_trial
     = (Raise (HTTPException 400 "Invalid payload"), Demo.world_trial)
  /\ webhook_log (db (snd (razorpay_webhook Demo.env Demo.garbage_body
                             (Some "tampered") Demo.world_trial)))
     = webhook_log (db Demo.world_trial).
Proof. vm_compute. repeat split; reflexivity. Qed.

(** A signature header with a non-ASCII character stops the webhook handler
    before the audit row is written. *)
Example razorpay_webhook_non_ascii_signature :
  razorpay_webhook Demo.env Demo.charged_body (Some Demo.e_acute) Demo.world_trial
  = (Raise TypeError, Demo.world_trial).
Proof. vm_compute. reflexivity. Qed.

(** ** Repeated charges (C2) *)

(** Scenario C, delivered three times after Scenario A. *)
Lemma charged_idempotent_witness :
  List.length
    (payments_with_id "pay_1"
       (db (deliveries Demo.env Demo.charged_body (Some Demo.charged_signature) 3
              Demo.world_trial))) = 1%nat
  /\ subscriber_status "a@x.com"
       (deliveries Demo.env Demo.charged_body (Some Demo.charged_signature) 3
          Demo.world_trial)
     = subscriber_status "a@x.com"
         (deliveries Demo.env Demo.charged_body (Some Demo.charged_signature) 1
            Demo.world_trial)
  /\ subscriber_status "a@x.com"
       (deliveries Demo.env Demo.charged_body (Some Demo.charged_signature) 3
          Demo.world_trial)
     = Some "active".
Proof.
  apply (charged_idempotent Demo.env Demo.charged_body (Some Demo.charged_signature)
           Demo.charged_payload Demo.charged_entity
           "pay_1" "+1" "sub_1" "a@x.com" "standard" 19900); demo.
Defined.

(** Scenario C: the charge of 19900 paise delivered twice leaves one payment
    row of that amount and two audit rows. *)
Example scenario_charged_twice :
  map p_amount_paise
    (payment_log
       (db (deliveries Demo.env Demo.charged_body (Some Demo.charged_signature) 2
              Demo.world_trial)))
  = [SInt 19900]
  /\ List.length
       (webhook_log
          (db (deliveries Demo.env Demo.charged_body (Some Demo.charged_signature) 2
                 Demo.world_trial)))
     = 2%nat.
Proof. vm_compute. split; reflexivity. Qed.

(** ** Activation (C3) *)

(** Scenario B, first delivery: active, [activated_at] read at this delivery. *)
Lemma activated_overwrites_activated_at_witness :
  fst (razorpay_webhook Demo.env Demo.activated_body (Some Demo.activated_signature)
         Demo.world_trial)
  = Ok (JObj [("status", JStr "processed")])
  /\ exists r,
       find_subscriber "a@x.com"
         (db (snd (razorpay_webhook Demo.env Demo.activated_body
                     (Some Demo.activated_signature) Demo.world_trial)))
       = Some r
       /\ s_status r = "active"
       /\ s_activated_at r = Some (clock Demo.env (S (reads Demo.world_trial))).
Proof.
  apply (activated_overwrites_activated_at Demo.env Demo.activated_body
           (Some Demo.activated_signature) Demo.world_trial Demo.activated_payload
           Demo.activated_entity "sub_1" "a@x.com" "standard" (Some "sub_1")); demo.
Defined.

(** C3 fails as stated: the subscriber is active with [activated_at] read at
    the first delivery; the same event redelivered leaves the status active
    and replaces [activated_at] by the time of the redelivery. *)
Lemma activated_at_is_reset :
  subscriber_status "a@x.com" Demo.world_active = Some "active"
  /\ option_map s_activated_at (find_subscriber "a@x.com" (db Demo.world_active))
     = Some (Some "tick-3")
  /\ subscriber_status "a@x.com"
       (snd (razorpay_webhook Demo.env Demo.activated_body
               (Some Demo.activated_signature) Demo.world_active))
     = Some "active"
  /\ option_map s_activated_at
       (find_subscriber "a@x.com"
          (db (snd (razorpay_webhook Demo.env Demo.activated_body
                      (Some Demo.activated_signature) Demo.world_active))))
     = Some (Some "tick-6").
Proof. vm_compute. repeat split; reflexivity. Qed.

(** ** Cancellation (C4, C6) *)

(** Scenario D, first half: an active subscriber cancels. *)
Lemma cancel_subscription_scheduled_witness :
  subscriber_status "a@x.com" Demo.world_active = Some "active"
  /\ http_status (fst (cancel_subscription Demo.env {| cr_email := "a@x.com" |}
                         Demo.world_active)) = 200
  /\ gateway_calls (snd (cancel_subscription Demo.env {| cr_email := "a@x.com" |}
                           Demo.world_active))
     = gateway_calls Demo.world_active ++ [SubscriptionCancel "sub_1" 1]
  /\ exists r',
       find_subscriber "a@x.com"
         (db (snd (cancel_subscription Demo.env {| cr_email := "a@x.com" |}
                     Demo.world_active)))
       = Some r'
       /\ s_cancel_at_period_end r' = SInt 1
       /\ s_status r' = "active"
       /\ ("active" = "active" -> s_status r' = "active").
Proof.
  split; [demo |].
  apply (cancel_subscription_scheduled Demo.env {| cr_email := "a@x.com" |}
           Demo.world_active
           {| s_email := "a@x.com"; s_name := Some "A"; s_phone := Some "+1";
              s_plan_key := "standard"; s_status := "active";
              s_razorpay_customer_id := None; s_razorpay_sub_id := Some "sub_1";
              s_created_at := "tick-1"; s_trial_start_at := Some "tick-0";
              s_activated_at := Some "tick-3"; s_cancelled_at := None;
              s_cancel_at_period_end := SInt 0; s_updated_at := "tick-4" |}
           "sub_1" (JObj [("id", JStr "sub_1")])); demo.
Defined.

(** C4 fails as stated: a trial subscriber (status not cancelled, not
    expired) who cancels ends with status active, not trial. *)
Lemma cancel_subscription_changes_status :
  subscriber_status "a@x.com" Demo.world_trial = Some "trial"
  /\ in_strs "trial" ["cancelled"; "expired"] = false
  /\ subscriber_status "a@x.com"
       (snd (cancel_subscription Demo.env {| cr_email := "a@x.com" |} Demo.world_trial))
     = Some "active".
Proof. vm_compute. repeat split; reflexivity. Qed.

(** The provider cannot be reached: HTTP 500 and the ledger as it was. *)
Lemma cancel_subscription_gateway_failure_witness :
  fst (cancel_subscription Demo.env_down {| cr_email := "a@x.com" |} Demo.world_trial)
  = Raise (HTTPException 500 "Razorpay error: connection timed out")
  /\ http_status
       (fst (cancel_subscription Demo.env_down {| cr_email := "a@x.com" |}
               Demo.world_trial)) = 500
  /\ db (snd (cancel_subscription Demo.env_down {| cr_email := "a@x.com" |}
                Demo.world_trial))
     = db Demo.world_trial.
Proof.
  apply (cancel_subscription_gateway_failure Demo.env_down {| cr_email := "a@x.com" |}
           Demo.world_trial
           {| s_email := "a@x.com"; s_name := Some "A"; s_phone := Some "+1";
              s_plan_key := "standard"; s_status := "trial";
              s_razorpay_customer_id := None; s_razorpay_sub_id := Some "sub_1";
              s_created_at := "tick-1"; s_trial_start_at := Some "tick-0";
              s_activated_at := None; s_cancelled_at := None;
              s_cancel_at_period_end := SInt 0; s_updated_at := "tick-1" |}
           "sub_1" "connection timed out"); try demo.
  right. reflexivity.
Defined.

(** ** Confirmation (C5, C10) *)

(** Scenario E: a tampered signature. *)
Lemma payment_success_invalid_signature_witness :
  verify_razorpay_signature Demo.env "pay_1" "sub_1" "tampered" = Ok false
  /\ payment_success Demo.env (Demo.confirm_req "standard" "tampered") Demo.world_trial
     = (Raise (HTTPException 400 "Invalid payment signature"), Demo.world_trial).
Proof.
  split; [demo |].
  apply (payment_success_invalid_signature Demo.env
           (Demo.confirm_req "standard" "tampered") Demo.world_trial); demo.
Defined.

(** C5: a confirmation whose signature fails verification is to be answered
    400 with nothing written. At the signature U+00E9 nothing is written,
    but the check raises [TypeError] instead of returning False, and the
    answer is a 500. *)
Theorem payment_success_non_ascii_signature :
  payment_success Demo.env (Demo.confirm_req "standard" Demo.e_acute) Demo.world_trial
  = (Raise TypeError, Demo.world_trial)
  /\ http_status
       (fst (payment_success Demo.env (Demo.confirm_req "standard" Demo.e_acute)
               Demo.world_trial))
     = 500.
Proof. vm_compute. split; reflexivity. Qed.

(** A plan key outside the allow-list is stored as it came. *)
Lemma payment_success_plan_key_verbatim_witness :
  in_strs "free_forever" ["standard"; "pro"] = false
  /\ fst (payment_success Demo.env (Demo.confirm_req "free_forever" Demo.confirm_signature)
            Demo.world_trial)
     = Ok (JObj [("status", JStr "ok")])
  /\ (exists r,
        find_subscriber "a@x.com"
          (db (snd (payment_success Demo.env
                      (Demo.confirm_req "free_forever" Demo.confirm_signature)
                      Demo.world_trial)))
        = Some r
        /\ s_plan_key r = "free_forever")
  /\ payment_log
       (db (snd (payment_success Demo.env
                   (Demo.confirm_req "free_forever" Demo.confirm_signature)
                   Demo.world_trial)))
     = insert_or_ignore
         (confirm_row (Demo.confirm_req "free_forever" Demo.confirm_signature)
            (clock Demo.env (S (S (reads Demo.world_trial)))))
         (payment_log (db Demo.world_trial))
  /\ p_plan_key
       (confirm_row (Demo.confirm_req "free_forever" Demo.confirm_signature)
          (clock Demo.env (S (S (reads Demo.world_trial)))))
     = Some "free_forever".
Proof.
  split; [demo |].
  apply (payment_success_plan_key_verbatim Demo.env
           (Demo.confirm_req "free_forever" Demo.confirm_signature) Demo.world_trial);
    demo.
Defined.

(** ** Plan validation (C8) *)

(** C8 fails as stated: the plan key "PRO" is not in {standard, pro}, yet
    the request is accepted, the provider is called and a row is written. *)
Lemma create_subscription_accepts_upper_case :
  in_strs "PRO" ["standard"; "pro"] = false
  /\ fst (create_subscription Demo.env (Demo.create_req "PRO") Demo.world0)
     = Ok (JObj [("subscription_id", JStr "sub_1"); ("key_id", JStr "rzp_test_key")])
  /\ gateway_calls (snd (create_subscription Demo.env (Demo.create_req "PRO") Demo.world0))
     = [SubscriptionCreate "plan_pro" 120 1 1 "a@x.com" "A" "pro"]
  /\ option_map s_plan_key
       (find_subscriber "a@x.com"
          (db (snd (create_subscription Demo.env (Demo.create_req "PRO") Demo.world0))))
     = Some "pro".
Proof. vm_compute. repeat split; reflexivity. Qed.

Example create_subscription_invalid_plan :
  create_subscription Demo.env (Demo.create_req "gold") Demo.world0
  = (Raise (HTTPException 400 "Invalid plan"), Demo.world0).
Proof. vm_compute. reflexivity. Qed.

Example create_subscription_plan_not_configured :
  create_subscription Demo.env_unconfigured (Demo.create_req "standard") Demo.world0
  = (Raise (HTTPException 503 "Plan not configured"), Demo.world0).
Proof. vm_compute. reflexivity. Qed.

(** ** Status query (C9) *)

(** The snapshot of the trial subscriber of Scenario A. *)
Lemma subscription_status_snapshot_witness :
  snd (subscription_status "a@x.com" Demo.world_trial) = Demo.world_trial
  /\ fst (subscription_status "a@x.com" Demo.world_trial)
     = Ok (JObj [("email", JStr "a@x.com");
                 ("name", JStr "A");
                 ("plan_key", JStr "standard");
                 ("status", JStr "trial");
                 ("active", JBool true);
                 ("razorpay_sub_id", JStr "sub_1");
                 ("trial_start_at", JStr "tick-0");
                 ("activated_at", JNull);
                 ("cancelled_at", JNull);
                 ("cancel_at_period_end", JBool false);
                 ("updated_at", JStr "tick-1")]).
Proof.
  assert (Hne : "a@x.com" <> "") by discriminate.
  pose proof (subscription_status_snapshot "a@x.com" Demo.world_trial Hne) as [Hw Hr].
  split; [exact Hw |].
  vm_compute. reflexivity.
Defined.

(** C9 fails as stated: no row has the empty email, and the query for it is
    answered 400 "email required", not not_found. *)
Lemma subscription_status_empty_email :
  find_subscriber "" (db Demo.world_trial) = None
  /\ subscription_status "" Demo.world_trial
     = (Raise (HTTPException 400 "email required"), Demo.world_trial).
Proof. vm_compute. split; reflexivity. Qed.

(* ================================================================== *)
(** * Further properties: the ledger under any sequence of requests *)

(** ** Every route changes the tables by committed statements only *)

Lemma db_changes_trans (a b c : DB) :
  db_changes a b -> db_changes b c -> db_changes a c.
Proof.
  intros Hab Hbc. induction Hab as [d | d1 d2 d3 H12 H23 IH]; [exact Hbc |].
  exact (changes_step d1 d2 c H12 (IH Hbc)).
Qed.

Lemma db_changes_one (a b : DB) : db_change a b -> db_changes a b.
Proof. intros H. exact (changes_step a b b H (changes_none b)). Qed.

Section Changes.

Variable E : Env.

Lemma changes_ret {A} (a : A) : changes_db (ret a).
Proof. intros w. apply changes_none. Qed.

Lemma changes_raise {A} (e : exn) : changes_db (@raise A e).
Proof. intros w. apply changes_none. Qed.

Lemma changes_lift {A} (r : result A) : changes_db (lift r).
Proof. intros w. apply changes_none. Qed.

Lemma changes_utcnow : changes_db (utcnow E).
Proof. intros w. apply changes_none. Qed.

Lemma changes_get_db : changes_db get_db.
Proof. intros w. apply changes_none. Qed.

Lemma changes_rz_call (c : gateway_call) : changes_db (rz_call E c).
Proof. intros w. unfold rz_call. destruct (rz_client E c); apply changes_none. Qed.

Lemma changes_bind {A B} (m : M A) (k : A -> M B) :
  changes_db m -> (forall a, changes_db (k a)) -> changes_db (bind_M m k).
Proof.
  intros Hm Hk w. unfold bind_M. specialize (Hm w).
  destruct (m w) as [[a | e] w']; cbn [snd] in *; [| exact Hm].
  exact (db_changes_trans _ _ _ Hm (Hk a w')).
Qed.

Lemma changes_db_conn {A} (m : M A) : changes_db m -> changes_db (db_conn m).
Proof.
  intros Hm w. unfold db_conn. specialize (Hm w).
  destruct (m w) as [[a | e] w']; cbn [snd] in *; [exact Hm | apply changes_none].
Qed.

Lemma changes_try_except {A} (m : M A) (h : exn -> exn) :
  changes_db m -> changes_db (try_except m h).
Proof.
  intros Hm w. unfold try_except. specialize (Hm w).
  destruct (m w) as [[a | e] w']; exact Hm.
Qed.

Lemma changes_upsert_subscriber (email : json) (k : upsert_kwargs) :
  changes_db (upsert_subscriber E email k).
Proof.
  intros w. unfold upsert_subscriber. run.
  destruct (bind_text email) as [e |]; [| apply changes_none].
  cbn [db reads gateway_calls].
  destruct (existsb (email_is e) (subscribers (db w))) eqn:Hex.
  - destruct (any_field k); [| apply changes_none].
    destruct (bind_kwargs k) as [b |]; [| apply changes_none].
    apply db_changes_one, change_update.
  - destruct (bind_kwargs k) as [b |]; [| apply changes_none].
    destruct (insert_row e b _) as [r |] eqn:Hins; [| apply changes_none].
    apply db_changes_one. exact (change_insert e b _ r (db w) Hex Hins).
Qed.

Lemma changes_log_payment
  (email phone plan_key payment_id sub_id order_id amount event_type status payload : json) :
  changes_db
    (log_payment E email phone plan_key payment_id sub_id order_id amount
       event_type status payload).
Proof.
  intros w. unfold log_payment. run.
  repeat match goal with
         | |- context [match bind_text ?x with _ => _ end] =>
             destruct (bind_text x); [| apply changes_none]
         | |- context [match bind ?x with _ => _ end] =>
             destruct (bind x); [| apply changes_none]
         end.
  cbn [db reads gateway_calls].
  repeat match goal with
         | |- context [match ?o with Some _ => _ | None => _ end] =>
             destruct o; [| apply changes_none]
         end.
  destruct (existsb _ _) eqn:Hex; [apply changes_none |].
  apply db_changes_one. cbn [snd db set_db].
  match goal with
  | |- db_change _ (set_payment_log (_ ++ [?p]) _) => exact (change_payment p (db w) Hex)
  end.
Qed.

Lemma changes_insert_webhook_log (event entity_id : json) (payload_str : string)
  (sig_ok : bool) :
  changes_db (insert_webhook_log E event entity_id payload_str sig_ok).
Proof.
  intros w. unfold insert_webhook_log. run.
  destruct (bind_text event); [| apply changes_none].
  destruct (bind_text entity_id); [| apply changes_none].
  apply db_changes_one. cbn [snd db set_db reads gateway_calls]. apply change_webhook.
Qed.

Ltac changes :=
  repeat first
    [ apply changes_ret | apply changes_raise | apply changes_lift
    | apply changes_utcnow | apply changes_get_db | apply changes_rz_call
    | apply changes_upsert_subscriber | apply changes_log_payment
    | apply changes_insert_webhook_log
    | apply changes_db_conn | apply changes_try_except
    | apply changes_bind; [| intros ?]
    | match goal with
      | |- changes_db (if ?b then _ else _) => destruct b
      | |- changes_db (match ?p with (_, _) => _ end) => destruct p
      | |- changes_db (match ?o with Some _ => _ | None => _ end) => destruct o
      end ].

Lemma changes_handle (r : request) : changes_db (handle E r).
Proof.
  destruct r; cbn [handle];
    unfold create_subscription, payment_success, razorpay_webhook, webhook_dispatch,
      on_subscription_activated, on_subscription_charged, on_subscription_cancelled,
      on_subscription_completed, on_payment_failed, cancel_subscription,
      subscription_status, health;
    changes.
Qed.

Lemma changes_serve (rs : list request) (w : World) :
  db_changes (db w) (db (serve E rs w)).
Proof.
  revert w. induction rs as [| r rs IH]; intros w; [apply changes_none |].
  unfold serve. cbn [fold_left].
  exact (db_changes_trans _ _ _ (changes_handle r w) (IH _)).
Qed.

End Changes.

(** ** What a committed statement keeps *)

Lemma extends_refl {A} (l : list A) : extends l l.
Proof. exists []. symmetry. apply app_nil_r. Qed.

Lemma extends_trans {A} (a b c : list A) : extends a b -> extends b c -> extends a c.
Proof. intros [t ->] [u ->]. exists (t ++ u). symmetry. apply app_assoc. Qed.

Lemma map_update_identity (e : option string) (b : bound_kwargs) (now : string)
  (rows : list Subscriber) :
  map row_identity (map (fun r => if email_is e r then update_row b now r else r) rows)
  = map row_identity rows.
Proof.
  rewrite map_map. apply map_ext. intros r. destruct (email_is e r); reflexivity.
Qed.

Lemma db_change_extends (d d' : DB) :
  db_change d d' ->
  extends (map row_identity (subscribers d)) (map row_identity (subscribers d'))
  /\ extends (payment_log d) (payment_log d')
  /\ extends (webhook_log d) (webhook_log d').
Proof.
  intros H. destruct H as [e b now d | e b now r d Hex Hins | p d Hex | row d];
    cbn [subscribers payment_log webhook_log set_subscribers set_payment_log
         set_webhook_log].
  - rewrite map_update_identity. repeat split; apply extends_refl.
  - rewrite map_app. repeat split; try apply extends_refl. eexists. reflexivity.
  - repeat split; try apply extends_refl. eexists. reflexivity.
  - repeat split; try apply extends_refl. eexists. reflexivity.
Qed.

Lemma db_changes_extends (d d' : DB) :
  db_changes d d' ->
  extends (map row_identity (subscribers d)) (map row_identity (subscribers d'))
  /\ extends (payment_log d) (payment_log d')
  /\ extends (webhook_log d) (webhook_log d').
Proof.
  intros H. induction H as [d | d1 d2 d3 H12 _ (IHs & IHp & IHw)].
  - repeat split; apply extends_refl.
  - destruct (db_change_extends d1 d2 H12) as (Hs & Hp & Hw).
    repeat split; eapply extends_trans; eassumption.
Qed.

Lemma NoDup_snoc {A} (l : list A) (x : A) :
  NoDup l -> ~ In x l -> NoDup (l ++ [x]).
Proof.
  intros Hl Hx. induction Hl as [| y l Hy Hl IH]; cbn [app].
  - constructor; [intros [] | constructor].
  - constructor.
    + rewrite in_app_iff. intros [Hin | [-> | []]]; [exact (Hy Hin) |].
      apply Hx. left. reflexivity.
    + apply IH. intros Hin. apply Hx. right. exact Hin.
Qed.

Lemma not_existsb_email_not_in (x : string) (rows : list Subscriber) :
  existsb (email_is (Some x)) rows = false -> ~ In x (map s_email rows).
Proof.
  induction rows as [| r rows IH]; cbn [existsb map In email_is]; [tauto |].
  intros H. apply orb_false_iff in H as [Hr Hrows].
  intros [Heq | Hin]; [| exact (IH Hrows Hin)].
  rewrite Heq, String.eqb_refl in Hr. discriminate.
Qed.

Lemma not_existsb_payment_not_in (x : string) (l : list Payment) :
  existsb (fun q => String.eqb (p_razorpay_payment_id q) x) l = false ->
  ~ In x (map p_razorpay_payment_id l).
Proof.
  induction l as [| q l IH]; cbn [existsb map In]; [tauto |].
  intros H. apply orb_false_iff in H as [Hq Hl].
  intros [Heq | Hin]; [| exact (IH Hl Hin)].
  rewrite Heq, String.eqb_refl in Hq. discriminate.
Qed.

Lemma map_update_email (e : option string) (b : bound_kwargs) (now : string)
  (rows : list Subscriber) :
  map s_email (map (fun r => if email_is e r then update_row b now r else r) rows)
  = map s_email rows.
Proof.
  rewrite map_map. apply map_ext. intros r. destruct (email_is e r); reflexivity.
Qed.

Lemma insert_row_some (e : option string) (b : bound_kwargs) (now : string) (r : Subscriber) :
  insert_row e b now = Some r -> e = Some (s_email r).
Proof.
  unfold insert_row.
  destruct e, (b_plan_key b), (b_status b), (b_cancel_at_period_end b);
    intros H; inversion H; reflexivity.
Qed.

Lemma db_change_ok (d d' : DB) : db_change d d' -> db_ok d -> db_ok d'.
Proof.
  intros H [Hs Hp].
  destruct H as [e b now d | e b now r d Hex Hins | p d Hex | row d];
    unfold db_ok;
    cbn [subscribers payment_log webhook_log set_subscribers set_payment_log
         set_webhook_log].
  - rewrite map_update_email. split; assumption.
  - split; [| exact Hp]. rewrite map_app. cbn [map]. apply NoDup_snoc; [exact Hs |].
    rewrite (insert_row_some e b now r Hins) in Hex.
    exact (not_existsb_email_not_in _ _ Hex).
  - split; [exact Hs |]. rewrite map_app. cbn [map]. apply NoDup_snoc; [exact Hp |].
    exact (not_existsb_payment_not_in _ _ Hex).
  - split; assumption.
Qed.

Lemma db_changes_ok (d d' : DB) : db_changes d d' -> db_ok d -> db_ok d'.
Proof.
  intros H. induction H as [d | d1 d2 d3 H12 _ IH]; [tauto |].
  intros Hok. apply IH. exact (db_change_ok d1 d2 H12 Hok).
Qed.

(** X1: whatever requests are served, in whatever order, a ledger that
    obeys the two UNIQUE constraints (one row per email, one row per payment
    id) still obeys them afterwards. *)
Theorem serve_keeps_unique (E : Env) (rs : list request) (w : World) :
  db_ok (db w) -> db_ok (db (serve E rs w)).
Proof. exact (db_changes_ok _ _ (changes_serve E rs w)). Qed.

(** X2: no route deletes or rewrites a payment row: after any sequence of
    requests [payment_log] is the old table with rows added at the end. *)
Theorem serve_payment_log_append_only (E : Env) (rs : list request) (w : World) :
  exists added, payment_log (db (serve E rs w)) = payment_log (db w) ++ added.
Proof. exact (proj1 (proj2 (db_changes_extends _ _ (changes_serve E rs w)))). Qed.

(** X3: no route deletes or rewrites an audit row: after any sequence of
    requests [webhook_log] is the old table with rows added at the end. *)
Theorem serve_webhook_log_append_only (E : Env) (rs : list request) (w : World) :
  exists added, webhook_log (db (serve E rs w)) = webhook_log (db w) ++ added.
Proof. exact (proj2 (proj2 (db_changes_extends _ _ (changes_serve E rs w)))). Qed.

(** X4: no route deletes a subscriber, changes an email or a [created_at]:
    after any sequence of requests the (email, created_at) pairs are the old
    ones, in order, with new ones at the end. *)
Theorem serve_keeps_subscribers (E : Env) (rs : list request) (w : World) :
  exists added,
    map row_identity (subscribers (db (serve E rs w)))
    = map row_identity (subscribers (db w)) ++ added.
Proof. exact (proj1 (db_changes_extends _ _ (changes_serve E rs w))). Qed.

(** ** Provider calls and audit rows, request by request *)

Section PerRequest.

Variable E : Env.

Lemma quiet_ret {A} (a : A) : keeps_gateway_calls (ret a).
Proof. intros w. reflexivity. Qed.

Lemma quiet_raise {A} (e : exn) : keeps_gateway_calls (@raise A e).
Proof. intros w. reflexivity. Qed.

Lemma quiet_lift {A} (r : result A) : keeps_gateway_calls (lift r).
Proof. intros w. reflexivity. Qed.

Lemma quiet_utcnow : keeps_gateway_calls (utcnow E).
Proof. intros w. reflexivity. Qed.

Lemma quiet_get_db : keeps_gateway_calls get_db.
Proof. intros w. reflexivity. Qed.

Lemma quiet_bind {A B} (m : M A) (k : A -> M B) :
  keeps_gateway_calls m -> (forall a, keeps_gateway_calls (k a)) ->
  keeps_gateway_calls (bind_M m k).
Proof.
  intros Hm Hk w. unfold bind_M. specialize (Hm w).
  destruct (m w) as [[a | e] w']; cbn [snd] in *; [| exact Hm].
  rewrite (Hk a w'). exact Hm.
Qed.

Lemma quiet_db_conn {A} (m : M A) :
  keeps_gateway_calls m -> keeps_gateway_calls (db_conn m).
Proof.
  intros Hm w. unfold db_conn. specialize (Hm w).
  destruct (m w) as [[a | e] w']; exact Hm.
Qed.

Lemma quiet_upsert_subscriber (email : json) (k : upsert_kwargs) :
  keeps_gateway_calls (upsert_subscriber E email k).
Proof. intros w. apply upsert_subscriber_gateway_calls. Qed.

Lemma quiet_log_payment
  (email phone plan_key payment_id sub_id order_id amount event_type status payload : json) :
  keeps_gateway_calls
    (log_payment E email phone plan_key payment_id sub_id order_id amount
       event_type status payload).
Proof.
  intros w. unfold log_payment. run.
  repeat match goal with
         | |- context [match bind_text ?x with _ => _ end] =>
             destruct (bind_text x); [| reflexivity]
         | |- context [match bind ?x with _ => _ end] =>
             destruct (bind x); [| reflexivity]
         end.
  cbn [db reads gateway_calls].
  repeat match goal with
         | |- context [match ?o with Some _ => _ | None => _ end] =>
             destruct o; [| reflexivity]
         end.
  destruct (existsb _ _); reflexivity.
Qed.

Lemma quiet_insert_webhook_log (event entity_id : json) (payload_str : string)
  (sig_ok : bool) :
  keeps_gateway_calls (insert_webhook_log E event entity_id payload_str sig_ok).
Proof.
  intros w. unfold insert_webhook_log. run.
  destruct (bind_text event); [| reflexivity].
  destruct (bind_text entity_id); reflexivity.
Qed.

Ltac quiet :=
  repeat first
    [ apply quiet_ret | apply quiet_raise | apply quiet_lift
    | apply quiet_utcnow | apply quiet_get_db
    | apply quiet_upsert_subscriber | apply quiet_log_payment
    | apply quiet_insert_webhook_log
    | apply quiet_db_conn
    | apply quiet_bind; [| intros ?]
    | match goal with
      | |- keeps_gateway_calls (if ?b then _ else _) => destruct b
      | |- keeps_gateway_calls (match ?p with (_, _) => _ end) => destruct p
      | |- keeps_gateway_calls (match ?o with Some _ => _ | None => _ end) => destruct o
      end ].

Lemma quiet_payment_success (req : PaymentSuccessRequest) :
  keeps_gateway_calls (payment_success E req).
Proof. unfold payment_success. quiet. Qed.

Lemma quiet_razorpay_webhook (body : bytes) (header : option string) :
  keeps_gateway_calls (razorpay_webhook E body header).
Proof.
  unfold razorpay_webhook, webhook_dispatch, on_subscription_activated,
    on_subscription_charged, on_subscription_cancelled, on_subscription_completed,
    on_payment_failed.
  quiet.
Qed.

Lemma quiet_subscription_status (email : string) :
  keeps_gateway_calls (subscription_status email).
Proof. unfold subscription_status. quiet. Qed.

Lemma create_subscription_one_call (req : CreateSubscriptionRequest) (w : World) :
  exists calls,
    gateway_calls (snd (create_subscription E req w)) = gateway_calls w ++ calls
    /\ (List.length calls <= 1)%nat.
Proof.
  destruct (assoc (lower (cs_plan_key req)) (RAZORPAY_PLAN_IDS E)) as [id |] eqn:Hplan.
  - destruct (String.eqb id "") eqn:Hid.
    + exists []. unfold create_subscription. rewrite Hplan, Hid.
      split; [symmetry; apply app_nil_r | cbn; lia].
    + eexists. split; [exact (create_subscription_calls_gateway E req w id Hplan Hid) |].
      cbn. lia.
  - exists []. unfold create_subscription. rewrite Hplan.
    split; [symmetry; apply app_nil_r | cbn; lia].
Qed.

Lemma cancel_subscription_one_call (req : CancelRequest) (w : World) :
  exists calls,
    gateway_calls (snd (cancel_subscription E req w)) = gateway_calls w ++ calls
    /\ (List.length calls <= 1)%nat.
Proof.
  unfold cancel_subscription. unfold bind_M at 1. rewrite cancel_lookup.
  destruct (find_subscriber (cr_email req) (db w)) as [r |];
    [| exists []; split; [symmetry; apply app_nil_r | cbn; lia]].
  destruct (in_strs (s_status r) ["cancelled"; "expired"]);
    [exists []; split; [symmetry; apply app_nil_r | cbn; lia] |].
  assert (forall w0 : World,
            gateway_calls
              (snd (bind_M
                      (db_conn
                         (upsert_subscriber E (JStr (cr_email req))
                            {| name := JNull; phone := JNull;
                               plan_key := JStr "standard"; status := JStr "active";
                               razorpay_customer_id := JNull; razorpay_sub_id := JNull;
                               trial_start_at := JNull; activated_at := JNull;
                               cancelled_at := JNull; cancel_at_period_end := JInt 1 |}))
                      (fun _ =>
                         ret (JObj [("status", JStr "cancel_scheduled");
                                    ("message", JStr "Your subscription will not renew. Access continues until end of billing period.")]))
                      w0))
            = gateway_calls w0) as Hrest.
  { intros w0.
    apply (quiet_bind _ _ (quiet_db_conn _ (quiet_upsert_subscriber _ _))
             (fun _ => quiet_ret _)). }
  unfold bind_M at 1.
  destruct (s_razorpay_sub_id r) as [sid |].
  - destruct (negb (String.eqb sid "")).
    + unfold try_except, bind_M at 1, rz_call.
      destruct (rz_client E (SubscriptionCancel sid 1)); cbn [ret snd];
        eexists; (split; [| shelve]); try rewrite Hrest; cbn [gateway_calls];
        reflexivity.
      Unshelve. all: cbn; lia.
    + cbn [ret]. rewrite Hrest. exists []. split; [symmetry; apply app_nil_r | cbn; lia].
  - cbn [ret]. rewrite Hrest. exists []. split; [symmetry; apply app_nil_r | cbn; lia].
Qed.

(** X5: a request makes at most one call to the provider, and only
    create-subscription and cancel-subscription make any: confirmations,
    webhooks, status queries and health checks never call out. *)
Theorem handle_provider_calls (r : request) (w : World) :
  exists calls,
    gateway_calls (snd (handle E r w)) = gateway_calls w ++ calls
    /\ (List.length calls <= 1)%nat
    /\ match r with
       | CreateSubscription _ | CancelSubscription _ => True
       | _ => calls = []
       end.
Proof.
  destruct r as [req | req | body header | req | email |]; cbn [handle].
  - destruct (create_subscription_one_call req w) as (calls & H1 & H2).
    exists calls. repeat split; assumption.
  - exists []. rewrite (quiet_payment_success req w), app_nil_r.
    repeat split. cbn. lia.
  - exists []. rewrite (quiet_razorpay_webhook body header w), app_nil_r.
    repeat split. cbn. lia.
  - destruct (cancel_subscription_one_call req w) as (calls & H1 & H2).
    exists calls. repeat split; assumption.
  - exists []. rewrite (quiet_subscription_status email w), app_nil_r.
    repeat split. cbn. lia.
  - exists []. cbn. rewrite app_nil_r. repeat split. lia.
Qed.

End PerRequest.

Section AuditRows.

Variable E : Env.

Lemma keeps_get_db : keeps_webhook_log get_db.
Proof. intros w. reflexivity. Qed.

Lemma keeps_rz_call (c : gateway_call) : keeps_webhook_log (rz_call E c).
Proof. intros w. unfold rz_call. destruct (rz_client E c); reflexivity. Qed.

Lemma keeps_try_except {A} (m : M A) (h : exn -> exn) :
  keeps_webhook_log m -> keeps_webhook_log (try_except m h).
Proof.
  intros Hm w. unfold try_except. specialize (Hm w).
  destruct (m w) as [[a | e] w']; exact Hm.
Qed.

Ltac keeps_all :=
  repeat first
    [ apply keeps_ret | apply keeps_raise | apply keeps_lift | apply keeps_utcnow
    | apply keeps_get_db | apply keeps_rz_call
    | apply keeps_upsert_subscriber | apply keeps_log_payment
    | apply keeps_db_conn | apply keeps_try_except
    | apply keeps_bind; [| intros ?]
    | match goal with
      | |- keeps_webhook_log (if ?b then _ else _) => destruct b
      | |- keeps_webhook_log (match ?p with (_, _) => _ end) => destruct p
      | |- keeps_webhook_log (match ?o with Some _ => _ | None => _ end) => destruct o
      end ].

Lemma keeps_other_routes (r : request) :
  match r with
  | RazorpayWebhook _ _ => True
  | _ => keeps_webhook_log (handle E r)
  end.
Proof.
  destruct r; cbn [handle]; try exact I;
    unfold create_subscription, payment_success, cancel_subscription,
      subscription_status, health;
    keeps_all.
Qed.

Lemma insert_webhook_log_cases (event entity_id : json) (payload_str : string)
  (sig_ok : bool) (w : World) :
  (exists row, insert_webhook_log E event entity_id payload_str sig_ok w
               = (Ok tt, world_after_audit row w))
  \/ (exists e w', insert_webhook_log E event entity_id payload_str sig_ok w
                   = (Raise e, w')
                   /\ db w' = db w).
Proof.
  destruct w as [[subs pays hooks] n calls].
  unfold insert_webhook_log, world_after_audit. run.
  destruct (bind_text event) as [ev | e]; [| right; eexists; eexists; split; reflexivity].
  destruct (bind_text entity_id) as [id | e];
    [| right; eexists; eexists; split; reflexivity].
  left. eexists. reflexivity.
Qed.

Lemma razorpay_webhook_one_row (body : bytes) (header : option string) (w : World) :
  exists rows,
    webhook_log (db (snd (razorpay_webhook E body header w))) = webhook_log (db w) ++ rows
    /\ (List.length rows <= 1)%nat.
Proof.
  assert (exists rows : list WebhookRecord,
             webhook_log (db w) = webhook_log (db w) ++ rows
             /\ (List.length rows <= 1)%nat) as Hnone.
  { exists []. split; [symmetry; apply app_nil_r | cbn; lia]. }
  unfold razorpay_webhook. unfold bind_M at 1, lift at 1.
  destruct (verify_webhook_signature E body _) as [sig_ok |]; [| exact Hnone].
  destruct (json_loads E body) as [payload |]; [| exact Hnone].
  unfold bind_M at 1, lift at 1.
  destruct (py_get payload "event" (JStr "")) as [event |]; [| exact Hnone].
  unfold bind_M at 1, lift at 1.
  destruct (py_get payload "payload" (JObj [])) as [entity |]; [| exact Hnone].
  unfold bind_M at 1.
  destruct (insert_webhook_log_cases event (_extract_entity_id payload)
              (json_dumps E payload) sig_ok w) as [[row ->] | (e & w' & -> & Hdb)].
  - exists [row]. rewrite keeps_webhook_dispatch. split; [reflexivity | cbn; lia].
  - cbn [snd]. rewrite Hdb. exact Hnone.
Qed.

(** X6: a request adds at most one audit row, and only the webhook route
    adds any. *)
Theorem handle_audit_rows (r : request) (w : World) :
  exists rows,
    webhook_log (db (snd (handle E r w))) = webhook_log (db w) ++ rows
    /\ (List.length rows <= 1)%nat
    /\ match r with
       | RazorpayWebhook _ _ => True
       | _ => rows = []
       end.
Proof.
  pose proof (keeps_other_routes r) as Hkeep.
  destruct r as [req | req | body header | req | email |];
    try (exists []; rewrite (Hkeep w), app_nil_r; repeat split; cbn; lia).
  destruct (razorpay_webhook_one_row body header w) as (rows & H1 & H2).
  exists rows. repeat split; assumption.
Qed.

End AuditRows.

(** ** One upsert, one row *)

Lemma find_other_map_update (e : option string) (e' : string)
  (f : Subscriber -> Subscriber) (rows : list Subscriber) :
  (forall r, s_email (f r) = s_email r) ->
  e <> Some e' ->
  find (fun r => String.eqb (s_email r) e')
       (map (fun r => if email_is e r then f r else r) rows)
  = find (fun r => String.eqb (s_email r) e') rows.
Proof.
  intros Hf Hne. induction rows as [| r rows IH]; [reflexivity |].
  cbn [map find].
  destruct (email_is e r) eqn:Hr.
  - rewrite Hf. destruct (String.eqb (s_email r) e') eqn:Hr'; [| exact IH].
    exfalso. apply Hne. apply String.eqb_eq in Hr'.
    destruct e as [t |]; cbn [email_is] in Hr; [| discriminate].
    apply String.eqb_eq in Hr. congruence.
  - destruct (String.eqb (s_email r) e'); [reflexivity | exact IH].
Qed.

Lemma find_other_app (e' : string) (rows : list Subscriber) (r : Subscriber) :
  s_email r <> e' ->
  find (fun r => String.eqb (s_email r) e') (rows ++ [r])
  = find (fun r => String.eqb (s_email r) e') rows.
Proof.
  intros Hne. induction rows as [| r0 rows IH]; cbn [app find].
  - apply String.eqb_neq in Hne. rewrite Hne. reflexivity.
  - destruct (String.eqb (s_email r0) e'); [reflexivity | exact IH].
Qed.

(** X7: [upsert_subscriber] for one email leaves the row of every other
    email, the payments and the audit table as they were, whether it
    updates, inserts or raises. *)
Theorem upsert_subscriber_touches_one_row (E : Env) (email : json) (k : upsert_kwargs)
  (w : World) (other : string) :
  bind_text email <> Ok (Some other) ->
  find_subscriber other (db (snd (upsert_subscriber E email k w)))
  = find_subscriber other (db w)
  /\ payment_log (db (snd (upsert_subscriber E email k w))) = payment_log (db w)
  /\ webhook_log (db (snd (upsert_subscriber E email k w))) = webhook_log (db w).
Proof.
  intros Hne. destruct w as [[subs pays hooks] n calls].
  unfold upsert_subscriber, find_subscriber. run.
  destruct (bind_text email) as [e |]; [| repeat split].
  assert (e <> Some other) as He by congruence.
  cbn [db reads gateway_calls subscribers].
  destruct (existsb (email_is e) subs) eqn:Hex.
  - destruct (any_field k); [| repeat split].
    destruct (bind_kwargs k) as [b |]; [| repeat split].
    cbn [snd db set_db set_subscribers subscribers payment_log webhook_log].
    rewrite find_other_map_update by (reflexivity || exact He). repeat split.
  - destruct (bind_kwargs k) as [b |]; [| repeat split].
    destruct (insert_row e b _) as [r |] eqn:Hins; [| repeat split].
    cbn [snd db set_db set_subscribers subscribers payment_log webhook_log].
    rewrite find_other_app; [repeat split |].
    rewrite (insert_row_some e b _ r Hins) in He. congruence.
Qed.

(* ================================================================== *)
(** * Further properties: the branches of the webhook handler *)

(** ** Events the handler acknowledges without touching the ledger *)

Section Acknowledged.

Variable E : Env.
Variables (body : bytes) (header : option string) (payload event : json).
Variables (ev id : option string) (w : World).

Hypothesis Hloads : json_loads E body = Some payload.
Hypothesis Hevent : py_get payload "event" (JStr "") = Ok event.
Hypothesis Hev : bind_text event = Ok ev.
Hypothesis Hid : bind_text (_extract_entity_id payload) = Ok id.

Lemma razorpay_webhook_dispatches (sig_ok : bool) :
  verify_webhook_signature E body (header_or header "") = Ok sig_ok ->
  exists entity,
    py_get payload "payload" (JObj []) = Ok entity
    /\ razorpay_webhook E body header w
       = webhook_dispatch E sig_ok event entity (json_dumps E payload)
           (world_after_audit
              {| w_event := ev; w_entity_id := id;
                 w_payload := Some (json_dumps E payload);
                 w_signature_ok := if sig_ok then 1 else 0;
                 w_received_at := clock E (reads w) |} w).
Proof.
  intros Hsig. destruct (py_get_payload _ _ Hevent) as [entity Hentity].
  exists entity. split; [exact Hentity |].
  exact (razorpay_webhook_run E body header w sig_ok payload event entity ev id
           Hsig Hloads Hevent Hentity Hev Hid).
Qed.

(** X8: take a delivery whose body parses as a JSON object, with an event
    name and an entity id the store can bind, and whose signature header is
    absent or an ASCII text other than the hexdigest of the body. It is
    answered 200 with {status: signature_invalid}; the one thing it changes
    is the audit table, which gets its row with [signature_ok = 0].
    Subscribers and payments are as they were, whatever the event. (A body
    that does not parse, or a header that is not ASCII, is refused before the
    audit row.) *)
Theorem razorpay_webhook_signature_invalid :
  isascii (header_or header "") = true ->
  header_or header "" <> HMAC.hexdigest (encode (RAZORPAY_WEBHOOK_SECRET E)) body ->
  razorpay_webhook E body header w
  = (Ok (JObj [("status", JStr "signature_invalid")]),
     world_after_audit
       {| w_event := ev; w_entity_id := id;
          w_payload := Some (json_dumps E payload);
          w_signature_ok := 0;
          w_received_at := clock E (reads w) |} w).
Proof.
  intros Hascii Hdiffers.
  assert (verify_webhook_signature E body (header_or header "") = Ok false) as Hsig.
  { unfold verify_webhook_signature, HMAC.hexdigest in *.
    rewrite compare_digest_hex by exact Hascii.
    f_equal. apply String.eqb_neq. congruence. }
  destruct (razorpay_webhook_dispatches false Hsig) as (entity & _ & ->).
  reflexivity.
Qed.

(** X9: a verified delivery of an event other than the five the handler
    names is answered {status: processed} and leaves only its audit row. *)
Theorem razorpay_webhook_unknown_event :
  verify_webhook_signature E body (header_or header "") = Ok true ->
  existsb (eq_str event)
    ["subscription.activated"; "subscription.charged"; "subscription.cancelled";
     "subscription.completed"; "payment.failed"] = false ->
  razorpay_webhook E body header w
  = (Ok (JObj [("status", JStr "processed")]),
     world_after_audit
       {| w_event := ev; w_entity_id := id;
          w_payload := Some (json_dumps E payload);
          w_signature_ok := 1;
          w_received_at := clock E (reads w) |} w).
Proof.
  intros Hsig Hunknown. destruct (razorpay_webhook_dispatches true Hsig) as (entity & _ & ->).
  cbn [existsb] in Hunknown.
  repeat (apply orb_false_iff in Hunknown as [? Hunknown]).
  unfold webhook_dispatch. cbn [negb].
  repeat match goal with H : eq_str event _ = false |- _ => rewrite H; clear H end.
  reflexivity.
Qed.

End Acknowledged.

(** ** Subscription events *)

Lemma subscription_fields_notes (entity sub_id email plan_key' : json) :
  subscription_fields entity = Ok (sub_id, email, plan_key') ->
  exists x data notes,
    py_get entity "subscription" (JObj []) = Ok x
    /\ py_get x "entity" (JObj []) = Ok data
    /\ py_get data "id" (JStr "") = Ok sub_id
    /\ py_get data "notes" (JObj []) = Ok notes
    /\ py_get notes "email" (JStr "") = Ok email.
Proof.
  unfold subscription_fields, rbind. intros H.
  destruct (py_get entity "subscription" (JObj [])) as [x |]; [| discriminate].
  destruct (py_get x "entity" (JObj [])) as [data |] eqn:Hx; [| discriminate].
  destruct (py_get data "id" (JStr "")) as [i |] eqn:Hi; [| discriminate].
  destruct (py_get data "notes" (JObj [])) as [notes |] eqn:Hn; [| discriminate].
  destruct (py_get notes "email" (JStr "")) as [em |] eqn:He; [| discriminate].
  destruct (py_get notes "plan_key" (JStr "standard")) as [pk |]; [| discriminate].
  injection H as -> -> _. exists x, data, notes. repeat split; assumption.
Qed.

Section SubscriptionEvents.

Variable E : Env.


Lemma on_subscription_cancelled_reads (entity sub_id email plan_key' : json) (w : World) :
  subscription_fields entity = Ok (sub_id, email, plan_key') ->
  on_subscription_cancelled E entity w
  = (if truthy email then
       db_conn
         (bind_M (utcnow E)
            (fun t =>
               upsert_subscriber E email
                 {| name := JNull; phone := JNull;
                    plan_key := JStr "standard"; status := JStr "cancelled";
                    razorpay_customer_id := JNull; razorpay_sub_id := sub_id;
                    trial_start_at := JNull; activated_at := JNull;
                    cancelled_at := JStr t; cancel_at_period_end := JInt 0 |}))
     else ret tt) w.
Proof.
  intros Hf.
  destruct (subscription_fields_notes _ _ _ _ Hf) as (x & data & notes & H1 & H2 & H3 & H4 & H5).
  unfold on_subscription_cancelled.
  unfold bind_M at 1, lift at 1. rewrite H1.
  unfold bind_M at 1, lift at 1. rewrite H2.
  unfold bind_M at 1, lift at 1. rewrite H3.
  unfold bind_M at 1, lift at 1. rewrite H4.
  unfold bind_M at 1, lift at 1. rewrite H5.
  reflexivity.
Qed.

Lemma on_subscription_completed_reads (entity sub_id email plan_key' : json) (w : World) :
  subscription_fields entity = Ok (sub_id, email, plan_key') ->
  on_subscription_completed E entity w
  = (if truthy email then
       db_conn
         (upsert_subscriber E email
            {| name := JNull; phone := JNull;
               plan_key := JStr "standard"; status := JStr "expired";
               razorpay_customer_id := JNull; razorpay_sub_id := sub_id;
               trial_start_at := JNull; activated_at := JNull;
               cancelled_at := JNull; cancel_at_period_end := JInt 0 |})
     else ret tt) w.
Proof.
  intros Hf.
  destruct (subscription_fields_notes _ _ _ _ Hf) as (x & data & notes & H1 & H2 & H3 & H4 & H5).
  unfold on_subscription_completed.
  unfold bind_M at 1, lift at 1. rewrite H1.
  unfold bind_M at 1, lift at 1. rewrite H2.
  unfold bind_M at 1, lift at 1. rewrite H3.
  unfold bind_M at 1, lift at 1. rewrite H4.
  unfold bind_M at 1, lift at 1. rewrite H5.
  reflexivity.
Qed.

Lemma on_subscription_cancelled_run (entity : json) (sid e : string) (plan_key' : json)
  (w : World) :
  subscription_fields entity = Ok (JStr sid, JStr e, plan_key') ->
  e <> "" ->
  on_subscription_cancelled E entity w
  = (Ok tt,
     {| db := {| subscribers :=
                   upsert_rows e
                     (webhook_bound "standard" "cancelled" (Some sid) None
                        (Some (clock E (reads w))))
                     (clock E (S (reads w))) (subscribers (db w));
                 payment_log := payment_log (db w);
                 webhook_log := webhook_log (db w) |};
        reads := S (S (reads w));
        gateway_calls := gateway_calls w |}).
Proof.
  intros Hf He. rewrite (on_subscription_cancelled_reads _ _ _ _ w Hf), (truthy_str _ He).
  unfold db_conn, bind_M, utcnow.
  rewrite upsert_subscriber_run
    with (b := webhook_bound "standard" "cancelled" (Some sid) None
                 (Some (clock E (reads w))));
    [reflexivity | reflexivity | reflexivity | discriminate].
Qed.

Lemma on_subscription_completed_run (entity : json) (sid e : string) (plan_key' : json)
  (w : World) :
  subscription_fields entity = Ok (JStr sid, JStr e, plan_key') ->
  e <> "" ->
  on_subscription_completed E entity w
  = (Ok tt,
     {| db := {| subscribers :=
                   upsert_rows e (webhook_bound "standard" "expired" (Some sid) None None)
                     (clock E (reads w)) (subscribers (db w));
                 payment_log := payment_log (db w);
                 webhook_log := webhook_log (db w) |};
        reads := S (reads w);
        gateway_calls := gateway_calls w |}).
Proof.
  intros Hf He. rewrite (on_subscription_completed_reads _ _ _ _ w Hf), (truthy_str _ He).
  unfold db_conn.
  rewrite upsert_subscriber_run
    with (b := webhook_bound "standard" "expired" (Some sid) None None);
    [reflexivity | reflexivity | reflexivity | discriminate].
Qed.

Variables (body : bytes) (header : option string) (payload entity : json).
Variables (id : option string) (w : World).

Hypothesis Hsig : verify_webhook_signature E body (header_or header "") = Ok true.
Hypothesis Hloads : json_loads E body = Some payload.
Hypothesis Hentity : py_get payload "payload" (JObj []) = Ok entity.
Hypothesis Hid : bind_text (_extract_entity_id payload) = Ok id.

Lemma razorpay_webhook_named (event : string) :
  py_get payload "event" (JStr "") = Ok (JStr event) ->
  razorpay_webhook E body header w
  = webhook_dispatch E true (JStr event) entity (json_dumps E payload)
      (world_after_audit
         {| w_event := Some event; w_entity_id := id;
            w_payload := Some (json_dumps E payload);
            w_signature_ok := 1;
            w_received_at := clock E (reads w) |} w).
Proof.
  intros Hevent.
  exact (razorpay_webhook_run E body header w true payload (JStr event) entity
           (Some event) id Hsig Hloads Hevent Hentity eq_refl Hid).
Qed.


(** X11: a verified subscription.cancelled for the email [e] leaves the
    subscriber cancelled, with [cancelled_at] read from the clock at this
    delivery, the subscription id of the event, the flag
    [cancel_at_period_end] cleared and the plan key reset to standard
    (the plan key of the notes is not passed on). *)
Theorem subscription_cancelled_event (sid e : string) (plan_key' : json) :
  py_get payload "event" (JStr "") = Ok (JStr "subscription.cancelled") ->
  subscription_fields entity = Ok (JStr sid, JStr e, plan_key') ->
  e <> "" ->
  fst (razorpay_webhook E body header w) = Ok (JObj [("status", JStr "processed")])
  /\ exists r,
       find_subscriber e (db (snd (razorpay_webhook E body header w))) = Some r
       /\ s_status r = "cancelled"
       /\ s_cancelled_at r = Some (clock E (S (reads w)))
       /\ s_razorpay_sub_id r = Some sid
       /\ s_plan_key r = "standard"
       /\ s_cancel_at_period_end r = SInt 0.
Proof.
  intros Hevent Hf He. rewrite (razorpay_webhook_named _ Hevent).
  unfold webhook_dispatch. cbn [negb eq_str String.eqb Ascii.eqb Bool.eqb].
  unfold bind_M. rewrite (on_subscription_cancelled_run _ _ _ _ _ Hf He).
  cbn [fst snd ret]. split; [reflexivity |].
  unfold find_subscriber. cbn [db subscribers world_after_audit reads].
  erewrite find_upsert_rows by reflexivity.
  eexists. split; [reflexivity |].
  destruct (find _ _); repeat split; reflexivity.
Qed.

(** X12: a verified subscription.completed for the email [e] leaves the
    subscriber expired, plan key standard, flag cleared; [cancelled_at]
    stays what it was. *)
Theorem subscription_completed_event (sid e : string) (plan_key' : json) :
  py_get payload "event" (JStr "") = Ok (JStr "subscription.completed") ->
  subscription_fields entity = Ok (JStr sid, JStr e, plan_key') ->
  e <> "" ->
  fst (razorpay_webhook E body header w) = Ok (JObj [("status", JStr "processed")])
  /\ exists r,
       find_subscriber e (db (snd (razorpay_webhook E body header w))) = Some r
       /\ s_status r = "expired"
       /\ s_razorpay_sub_id r = Some sid
       /\ s_plan_key r = "standard"
       /\ s_cancel_at_period_end r = SInt 0
       /\ s_cancelled_at r
          = match find_subscriber e (db w) with
            | Some old => s_cancelled_at old
            | None => None
            end.
Proof.
  intros Hevent Hf He. rewrite (razorpay_webhook_named _ Hevent).
  unfold webhook_dispatch. cbn [negb eq_str String.eqb Ascii.eqb Bool.eqb].
  unfold bind_M. rewrite (on_subscription_completed_run _ _ _ _ _ Hf He).
  cbn [fst snd ret]. split; [reflexivity |].
  unfold find_subscriber. cbn [db subscribers world_after_audit reads].
  erewrite find_upsert_rows by reflexivity.
  eexists. split; [reflexivity |].
  destruct (find _ _); repeat split; reflexivity.
Qed.

End SubscriptionEvents.

(** ** Charges: what is committed, what is rolled back *)

Section Charges.

Variable E : Env.
Variables (body : bytes) (header : option string) (payload entity : json).
Variables (w : World).

Hypothesis Hsig : verify_webhook_signature E body (header_or header "") = Ok true.
Hypothesis Hloads : json_loads E body = Some payload.
Hypothesis Hevent : py_get payload "event" (JStr "") = Ok (JStr "subscription.charged").
Hypothesis Hentity : py_get payload "payload" (JObj []) = Ok entity.

Lemma charged_dispatch (id : option string) :
  bind_text (_extract_entity_id payload) = Ok id ->
  razorpay_webhook E body header w
  = bind_M (on_subscription_charged E entity (json_dumps E payload))
      (fun _ => ret (JObj [("status", JStr "processed")]))
      (world_after_audit
         {| w_event := Some "subscription.charged"; w_entity_id := id;
            w_payload := Some (json_dumps E payload);
            w_signature_ok := 1;
            w_received_at := clock E (reads w) |} w).
Proof.
  intros Hid.
  rewrite (razorpay_webhook_run E body header w true payload _ entity _ id
             Hsig Hloads Hevent Hentity eq_refl Hid).
  reflexivity.
Qed.


Variables (p c sid e pk : string) (amount : json).

Hypothesis Hpayment : payment_fields entity = Ok (JStr p, amount, JStr c).
Hypothesis Hsubscription : subscription_fields entity = Ok (JStr sid, JStr e, JStr pk).
Hypothesis He : e <> "".
Hypothesis Hp : p <> "".

Lemma charged_dispatch_audit :
  razorpay_webhook E body header w
  = bind_M (on_subscription_charged E entity (json_dumps E payload))
      (fun _ => ret (JObj [("status", JStr "processed")]))
      (world_after_audit (charged_audit E payload p sid w) w).
Proof.
  apply charged_dispatch.
  rewrite (extract_entity_id_charged _ _ _ _ _ _ _ _ Hentity Hpayment Hsubscription Hp).
  reflexivity.
Qed.

Lemma on_subscription_charged_steps (payload_str : string) (w0 : World) :
  on_subscription_charged E entity payload_str w0
  = bind_M
      (db_conn
         (bind_M
            (upsert_subscriber E (JStr e)
               {| name := JNull; phone := JNull; plan_key := JStr pk;
                  status := JStr "active"; razorpay_customer_id := JNull;
                  razorpay_sub_id := JStr sid; trial_start_at := JNull;
                  activated_at := JNull; cancelled_at := JNull;
                  cancel_at_period_end := JInt 0 |})
            (fun _ =>
               log_payment E (JStr e) (JStr c) (JStr pk) (JStr p) (JStr sid) JNull amount
                 (JStr "subscription.charged") (JStr "captured") (JStr payload_str))))
      (fun _ => lift (amount_in_rupees amount)) w0.
Proof.
  unfold on_subscription_charged.
  unfold bind_M at 1, lift at 1. rewrite Hpayment.
  unfold bind_M at 1, lift at 1. rewrite Hsubscription.
  rewrite (truthy_str _ He), (truthy_str _ Hp). reflexivity.
Qed.

(** The transaction of a charge once the amount binds. *)
Lemma charged_transaction (amt : sqlval) (payload_str : string) (w0 : World) :
  bind amount = Ok amt ->
  db_conn
    (bind_M
       (upsert_subscriber E (JStr e)
          {| name := JNull; phone := JNull; plan_key := JStr pk;
             status := JStr "active"; razorpay_customer_id := JNull;
             razorpay_sub_id := JStr sid; trial_start_at := JNull;
             activated_at := JNull; cancelled_at := JNull;
             cancel_at_period_end := JInt 0 |})
       (fun _ =>
          log_payment E (JStr e) (JStr c) (JStr pk) (JStr p) (JStr sid) JNull amount
            (JStr "subscription.charged") (JStr "captured") (JStr payload_str))) w0
  = (Ok tt,
     {| db := {| subscribers :=
                   upsert_rows e (webhook_bound pk "active" (Some sid) None None)
                     (clock E (reads w0)) (subscribers (db w0));
                 payment_log :=
                   insert_or_ignore
                     (charge_row e c pk p sid (integer_affinity amt) payload_str
                        (clock E (S (reads w0))))
                     (payment_log (db w0));
                 webhook_log := webhook_log (db w0) |};
        reads := S (S (reads w0));
        gateway_calls := gateway_calls w0 |}).
Proof.
  intros Hamt. unfold db_conn, bind_M.
  rewrite upsert_subscriber_run
    with (b := webhook_bound pk "active" (Some sid) None None);
    [| reflexivity | reflexivity | discriminate].
  rewrite log_payment_run
    with (e := e) (p := p) (ph := Some c) (pk := Some pk) (sid := Some sid)
         (oid := None) (amt := amt) (et := Some "subscription.charged")
         (st := Some "captured") (wp := Some payload_str);
    try reflexivity.
  exact Hamt.
Qed.

Lemma charged_rolled_back_run (err : exn) :
  bind amount = Raise err ->
  razorpay_webhook E body header w
  = (Raise err,
     {| db := db (world_after_audit (charged_audit E payload p sid w) w);
        reads := S (S (S (reads w)));
        gateway_calls := gateway_calls w |}).
Proof.
  intros Hamt. rewrite charged_dispatch_audit.
  unfold bind_M at 1. rewrite on_subscription_charged_steps.
  unfold bind_M at 1, db_conn, bind_M.
  rewrite upsert_subscriber_run
    with (b := webhook_bound pk "active" (Some sid) None None);
    [| reflexivity | reflexivity | discriminate].
  unfold log_payment. run. cbn [bind_text bind text_affinity]. rewrite Hamt.
  reflexivity.
Qed.

(** X14: when the amount of a charge cannot be bound by SQLite (a list, an
    object, an integer beyond 64 bits), the handler raises and the
    transaction is rolled back: the subscriber update made just before is
    undone, and the tables are as after the audit row. *)
Theorem charged_event_rolled_back (err : exn) :
  bind amount = Raise err ->
  fst (razorpay_webhook E body header w) = Raise err
  /\ db (snd (razorpay_webhook E body header w)) = db (world_after_audit (charged_audit E payload p sid w) w).
Proof.
  intros Hamt. rewrite (charged_rolled_back_run err Hamt). split; reflexivity.
Qed.

Lemma charged_committed_run (amt : sqlval) :
  bind amount = Ok amt ->
  razorpay_webhook E body header w
  = (match amount_in_rupees amount with
     | Ok _ => Ok (JObj [("status", JStr "processed")])
     | Raise err => Raise err
     end,
     {| db := {| subscribers :=
                   upsert_rows e (webhook_bound pk "active" (Some sid) None None)
                     (clock E (S (reads w))) (subscribers (db w));
                 payment_log :=
                   insert_or_ignore
                     (charge_row e c pk p sid (integer_affinity amt)
                        (json_dumps E payload)
                        (clock E (S (S (reads w)))))
                     (payment_log (db w));
                 webhook_log := webhook_log (db w) ++ [charged_audit E payload p sid w] |};
        reads := S (S (S (reads w)));
        gateway_calls := gateway_calls w |}).
Proof.
  intros Hamt. rewrite charged_dispatch_audit.
  unfold bind_M at 1. rewrite on_subscription_charged_steps.
  unfold bind_M at 1. rewrite (charged_transaction amt _ _ Hamt).
  unfold lift. destruct (amount_in_rupees amount); reflexivity.
Qed.

(** X15: when the amount binds but cannot be divided by 100 (text, null),
    the handler raises after the commit: the caller sees an error, yet the
    payment row is logged, its amount as the INTEGER column stores it (the
    integer, for a text that is an integer literal), and the subscriber is
    active. *)
Theorem charged_event_committed_then_fails (amt : sqlval) (err : exn) :
  bind amount = Ok amt ->
  amount_in_rupees amount = Raise err ->
  fst (razorpay_webhook E body header w) = Raise err
  /\ payment_log (db (snd (razorpay_webhook E body header w)))
     = insert_or_ignore
         (charge_row e c pk p sid (integer_affinity amt) (json_dumps E payload)
            (clock E (S (S (reads w)))))
         (payment_log (db w))
  /\ subscriber_status e (snd (razorpay_webhook E body header w)) = Some "active".
Proof.
  intros Hamt Hfmt. rewrite (charged_committed_run amt Hamt), Hfmt.
  cbn [fst snd db payment_log].
  split; [reflexivity |]. split; [reflexivity |].
  unfold subscriber_status, find_subscriber. cbn [db subscribers].
  erewrite find_upsert_rows by reflexivity.
  destruct (find _ _); reflexivity.
Qed.

(** X16: a charge writes status active, the plan key and subscription id of
    the event, and clears [cancel_at_period_end], whatever the row held (a
    cancelled or expired subscriber becomes active again); [activated_at]
    is not touched. *)
Theorem charged_event_resets_row (amt : sqlval) :
  bind amount = Ok amt ->
  exists r,
    find_subscriber e (db (snd (razorpay_webhook E body header w))) = Some r
    /\ s_status r = "active"
    /\ s_plan_key r = pk
    /\ s_razorpay_sub_id r = Some sid
    /\ s_cancel_at_period_end r = SInt 0
    /\ s_activated_at r
       = match find_subscriber e (db w) with
         | Some old => s_activated_at old
         | None => None
         end.
Proof.
  intros Hamt. rewrite (charged_committed_run amt Hamt).
  unfold find_subscriber. cbn [snd db subscribers].
  erewrite find_upsert_rows by reflexivity.
  eexists. split; [reflexivity |].
  destruct (find _ _); repeat split; reflexivity.
Qed.

(** X17: a charge whose payment id is already in [payment_log], from any
    source, adds no payment row and changes none. *)
Theorem charged_event_already_logged (amt : sqlval) :
  bind amount = Ok amt ->
  payments_with_id p (db w) <> [] ->
  payment_log (db (snd (razorpay_webhook E body header w))) = payment_log (db w).
Proof.
  intros Hamt Hlogged. rewrite (charged_committed_run amt Hamt).
  cbn [snd db payment_log]. unfold insert_or_ignore.
  cbn [p_razorpay_payment_id charge_row].
  destruct (existsb _ _) eqn:Hex; [reflexivity |].
  exfalso. apply Hlogged. unfold payments_with_id.
  exact (not_existsb_filter _ _ Hex).
Qed.

End Charges.

(** ** Failed payments *)

Section FailedPayment.

Variable E : Env.
Variables (body : bytes) (header : option string) (payload entity x data : json).
Variables (sid e p : string) (id : option string) (w : World).

Hypothesis Hsig : verify_webhook_signature E body (header_or header "") = Ok true.
Hypothesis Hloads : json_loads E body = Some payload.
Hypothesis Hevent : py_get payload "event" (JStr "") = Ok (JStr "payment.failed").
Hypothesis Hentity : py_get payload "payload" (JObj []) = Ok entity.
Hypothesis Hid : bind_text (_extract_entity_id payload) = Ok id.
Hypothesis Hpayment : py_get entity "payment" (JObj []) = Ok x.
Hypothesis Hdata : py_get x "entity" (JObj []) = Ok data.
Hypothesis Hsub : py_get data "subscription_id" (JStr "") = Ok (JStr sid).
Hypothesis Hemail : py_get data "email" (JStr "") = Ok (JStr e).
Hypothesis Hpid : py_get data "id" (JStr "") = Ok (JStr p).
Hypothesis He : e <> "".

Lemma payment_failed_run :
  razorpay_webhook E body header w
  = (Ok (JObj [("status", JStr "processed")]),
     {| db := {| subscribers :=
                   upsert_rows e failed_bound (clock E (S (reads w))) (subscribers (db w));
                 payment_log :=
                   (if String.eqb p ""
                    then insert_or_ignore
                           (failed_row e ("fail_" ++ clock E (S (S (reads w))))%string sid
                              (json_dumps E payload) (clock E (S (S (S (reads w))))))
                    else insert_or_ignore
                           (failed_row e p sid (json_dumps E payload)
                              (clock E (S (S (reads w))))))
                     (payment_log (db w));
                 webhook_log :=
                   webhook_log (db w)
                     ++ [{| w_event := Some "payment.failed"; w_entity_id := id;
                            w_payload := Some (json_dumps E payload);
                            w_signature_ok := 1;
                            w_received_at := clock E (reads w) |}] |};
        reads := (if String.eqb p "" then 4 else 3) + reads w;
        gateway_calls := gateway_calls w |}).
Proof.
  rewrite (razorpay_webhook_run E body header w true payload _ entity _ id
             Hsig Hloads Hevent Hentity eq_refl Hid).
  unfold webhook_dispatch. cbn [negb eq_str String.eqb Ascii.eqb Bool.eqb].
  unfold bind_M at 1. unfold on_payment_failed.
  unfold bind_M at 1, lift at 1. rewrite Hpayment.
  unfold bind_M at 1, lift at 1. rewrite Hdata.
  unfold bind_M at 1, lift at 1. rewrite Hsub.
  unfold bind_M at 1, lift at 1. rewrite Hemail.
  unfold bind_M at 1, lift at 1. rewrite Hpid.
  rewrite (truthy_str _ He). cbn [truthy].
  unfold db_conn. unfold bind_M at 1.
  rewrite upsert_subscriber_run
    with (b := failed_bound);
    [| reflexivity | reflexivity | discriminate].
  destruct (String.eqb p "") eqn:Hp; cbn [negb].
  - unfold bind_M at 1, bind_M at 1, utcnow, ret.
    rewrite log_payment_run
      with (e := e) (p := ("fail_" ++ clock E (S (S (reads w))))%string) (ph := None)
           (pk := Some "unknown") (sid := Some sid) (oid := None) (amt := SNull)
           (et := Some "payment.failed") (st := Some "failed")
           (wp := Some (json_dumps E payload));
      reflexivity.
  - unfold bind_M at 1, ret.
    rewrite log_payment_run
      with (e := e) (p := p) (ph := None)
           (pk := Some "unknown") (sid := Some sid) (oid := None) (amt := SNull)
           (et := Some "payment.failed") (st := Some "failed")
           (wp := Some (json_dumps E payload));
      reflexivity.
Qed.

(** X18: a verified payment.failed for the email [e] sets the subscriber's
    status to payment_failed and offers one row to [payment_log], under the
    payment id of the event or, when the event has none, under
    [fail_<timestamp>] read from the clock. *)
Theorem payment_failed_event :
  fst (razorpay_webhook E body header w) = Ok (JObj [("status", JStr "processed")])
  /\ subscriber_status e (snd (razorpay_webhook E body header w)) = Some "payment_failed"
  /\ payment_log (db (snd (razorpay_webhook E body header w)))
     = (if String.eqb p ""
        then insert_or_ignore
               (failed_row e ("fail_" ++ clock E (S (S (reads w))))%string sid
                  (json_dumps E payload) (clock E (S (S (S (reads w))))))
        else insert_or_ignore
               (failed_row e p sid (json_dumps E payload) (clock E (S (S (reads w))))))
         (payment_log (db w)).
Proof.
  rewrite payment_failed_run. cbn [fst snd db payment_log].
  split; [reflexivity |]. split; [| reflexivity].
  unfold subscriber_status, find_subscriber. cbn [db subscribers].
  erewrite find_upsert_rows by reflexivity.
  destruct (find _ _); reflexivity.
Qed.

End FailedPayment.

(* ================================================================== *)
(** * Further properties: signatures, cancellation, creation, confirmation *)

(** ** Signatures: only the hexdigest verifies *)

Lemma compare_digest_true (a b : string) : compare_digest a b = Ok true -> a = b.
Proof.
  unfold compare_digest. destruct (isascii a && isascii b); [| discriminate].
  intros H. injection H as H. apply String.eqb_eq. exact H.
Qed.

Lemma compare_digest_hex_refl (bs : list Z) :
  compare_digest (HMAC.hex bs) (HMAC.hex bs) = Ok true.
Proof.
  rewrite compare_digest_hex by apply isascii_hex. rewrite String.eqb_refl. reflexivity.
Qed.

(** X19: both verifiers return True for exactly one signature, the
    lower-case hex HMAC-SHA256 of the message under the configured secret:
    the raw body for a webhook, [payment_id|subscription_id] for a
    confirmation. *)
Theorem verify_true_iff_hexdigest (E : Env) (payment_id subscription_id : string)
  (body : bytes) (signature : string) :
  (verify_webhook_signature E body signature = Ok true
   <-> signature = HMAC.hexdigest (encode (RAZORPAY_WEBHOOK_SECRET E)) body)
  /\ (verify_razorpay_signature E payment_id subscription_id signature = Ok true
      <-> signature
          = HMAC.hexdigest (encode (RAZORPAY_KEY_SECRET E))
              (encode (payment_id ++ "|" ++ subscription_id)%string)).
Proof.
  unfold verify_webhook_signature, verify_razorpay_signature, HMAC.hexdigest.
  split; split; intros H.
  - symmetry. exact (compare_digest_true _ _ H).
  - subst signature. apply compare_digest_hex_refl.
  - symmetry. exact (compare_digest_true _ _ H).
  - subst signature. apply compare_digest_hex_refl.
Qed.

(** ** Cancellation: the cases that call nobody *)

Section CancelEdges.

Variable E : Env.

(** X20: cancelling for an email with no row is a 404, and for a
    subscriber already cancelled or expired the answer is
    {status: already_cancelled}; in both cases nothing is written and the
    provider is not called. *)
Theorem cancel_subscription_no_op (req : CancelRequest) (w : World) :
  (find_subscriber (cr_email req) (db w) = None ->
   cancel_subscription E req w
   = (Raise (HTTPException 404 "Subscriber not found"), w))
  /\ (forall r,
        find_subscriber (cr_email req) (db w) = Some r ->
        in_strs (s_status r) ["cancelled"; "expired"] = true ->
        cancel_subscription E req w
        = (Ok (JObj [("status", JStr "already_cancelled")]), w)).
Proof.
  split.
  - intros Hfind. unfold cancel_subscription. unfold bind_M at 1.
    rewrite cancel_lookup, Hfind. reflexivity.
  - intros r Hfind Hstatus. unfold cancel_subscription. unfold bind_M at 1.
    rewrite cancel_lookup, Hfind, Hstatus. reflexivity.
Qed.

Lemma cancel_without_upstream_run (req : CancelRequest) (w : World) (r : Subscriber) :
  find_subscriber (cr_email req) (db w) = Some r ->
  in_strs (s_status r) ["cancelled"; "expired"] = false ->
  s_razorpay_sub_id r = None \/ s_razorpay_sub_id r = Some "" ->
  cancel_subscription E req w
  = (Ok (JObj [("status", JStr "cancel_scheduled");
               ("message", JStr "Your subscription will not renew. Access continues until end of billing period.")]),
     {| db := {| subscribers :=
                   upsert_rows (cr_email req) cancel_bound (clock E (reads w))
                     (subscribers (db w));
                 payment_log := payment_log (db w);
                 webhook_log := webhook_log (db w) |};
        reads := S (reads w);
        gateway_calls := gateway_calls w |}).
Proof.
  intros Hfind Hstatus Hsub.
  unfold cancel_subscription. unfold bind_M at 1. rewrite cancel_lookup, Hfind, Hstatus.
  destruct Hsub as [-> | ->]; cbn [String.eqb negb];
    unfold bind_M at 1, ret at 1; unfold bind_M, db_conn;
    (rewrite upsert_subscriber_run with (b := cancel_bound);
     [reflexivity | reflexivity | reflexivity | discriminate]).
Qed.

(** X21: a subscriber with no upstream subscription id (none stored, or
    the empty string) is cancelled locally: the provider is not called, the
    flag is set and the status written is active. *)
Theorem cancel_subscription_without_upstream_id (req : CancelRequest) (w : World)
  (r : Subscriber) :
  find_subscriber (cr_email req) (db w) = Some r ->
  in_strs (s_status r) ["cancelled"; "expired"] = false ->
  s_razorpay_sub_id r = None \/ s_razorpay_sub_id r = Some "" ->
  http_status (fst (cancel_subscription E req w)) = 200
  /\ gateway_calls (snd (cancel_subscription E req w)) = gateway_calls w
  /\ exists r',
       find_subscriber (cr_email req) (db (snd (cancel_subscription E req w))) = Some r'
       /\ s_cancel_at_period_end r' = SInt 1
       /\ s_status r' = "active".
Proof.
  intros Hfind Hstatus Hsub.
  rewrite (cancel_without_upstream_run req w r Hfind Hstatus Hsub).
  cbn [fst snd http_status db gateway_calls].
  split; [reflexivity |]. split; [reflexivity |].
  unfold find_subscriber in *. cbn [subscribers].
  erewrite find_upsert_rows by reflexivity. rewrite Hfind.
  eexists. repeat split; reflexivity.
Qed.

(** X22: the row after an accepted cancellation is the old row with the
    flag set, the status active, [updated_at] read from the clock, and the
    plan key standard: a subscriber of another plan is moved to standard.
    Every other column is kept. *)
Theorem cancel_subscription_rewrites_plan_key (req : CancelRequest) (w : World)
  (r : Subscriber) (sid : string) (answer : json) :
  find_subscriber (cr_email req) (db w) = Some r ->
  in_strs (s_status r) ["cancelled"; "expired"] = false ->
  s_razorpay_sub_id r = Some sid ->
  sid <> "" ->
  rz_client E (SubscriptionCancel sid 1) = Returned answer ->
  find_subscriber (cr_email req) (db (snd (cancel_subscription E req w)))
  = Some {| s_email := s_email r; s_name := s_name r; s_phone := s_phone r;
            s_plan_key := "standard"; s_status := "active";
            s_razorpay_customer_id := s_razorpay_customer_id r;
            s_razorpay_sub_id := s_razorpay_sub_id r;
            s_created_at := s_created_at r;
            s_trial_start_at := s_trial_start_at r;
            s_activated_at := s_activated_at r;
            s_cancelled_at := s_cancelled_at r;
            s_cancel_at_period_end := SInt 1;
            s_updated_at := clock E (reads w) |}.
Proof.
  intros Hfind Hstatus Hsub Hsid Hgw.
  rewrite (cancel_subscription_run E req w r sid answer Hfind Hstatus Hsub Hsid Hgw).
  unfold find_subscriber in *. cbn [snd db subscribers].
  erewrite find_upsert_rows by reflexivity. rewrite Hfind. reflexivity.
Qed.

End CancelEdges.

(** ** Subscription creation *)

Section Creation.

Variable E : Env.
Variables (req : CreateSubscriptionRequest) (w : World) (server_plan_id : string).

Hypothesis Hplan :
  assoc (lower (cs_plan_key req)) (RAZORPAY_PLAN_IDS E) = Some server_plan_id.
Hypothesis Hconfigured : server_plan_id <> "".

Lemma create_subscription_try :
  create_subscription E req w
  = try_except
      (bind_M (rz_call E (create_call req server_plan_id))
         (fun subscription =>
            bind_M (lift (py_getitem subscription "id"))
              (fun sub_id =>
                 bind_M
                   (db_conn
                      (bind_M (utcnow E)
                         (fun t =>
                            upsert_subscriber E (JStr (cs_email req))
                              {| name := JStr (cs_name req);
                                 phone := JStr (cs_phone req);
                                 plan_key := JStr (lower (cs_plan_key req));
                                 status := JStr "trial";
                                 razorpay_customer_id := JNull;
                                 razorpay_sub_id := sub_id;
                                 trial_start_at := JStr t;
                                 activated_at := JNull;
                                 cancelled_at := JNull;
                                 cancel_at_period_end := JInt 0 |})))
                   (fun _ =>
                      ret (JObj [("subscription_id", sub_id);
                                 ("key_id", JStr (RAZORPAY_KEY_ID E))])))))
      (fun e => match e with
                | BadRequestError msg => HTTPException 400 msg
                | _ => HTTPException 500 "Internal error"
                end) w.
Proof.
  unfold create_subscription. rewrite Hplan.
  apply String.eqb_neq in Hconfigured. rewrite Hconfigured. reflexivity.
Qed.

Lemma create_subscription_run (answer sub_id : json) (sid : option string) :
  rz_client E (create_call req server_plan_id) = Returned answer ->
  py_getitem answer "id" = Ok sub_id ->
  bind_text sub_id = Ok sid ->
  create_subscription E req w
  = (Ok (JObj [("subscription_id", sub_id); ("key_id", JStr (RAZORPAY_KEY_ID E))]),
     {| db := {| subscribers :=
                   upsert_rows (cs_email req)
                     (create_bound req sid (clock E (reads w)))
                     (clock E (S (reads w))) (subscribers (db w));
                 payment_log := payment_log (db w);
                 webhook_log := webhook_log (db w) |};
        reads := S (S (reads w));
        gateway_calls := gateway_calls w ++ [create_call req server_plan_id] |}).
Proof.
  intros Hgw Hitem Hbind. rewrite create_subscription_try.
  unfold try_except, bind_M at 1, rz_call. rewrite Hgw.
  unfold bind_M at 1, lift. rewrite Hitem.
  unfold bind_M at 1, db_conn, bind_M at 1, utcnow.
  rewrite upsert_subscriber_run with (b := create_bound req sid (clock E (reads w)));
    [reflexivity | | reflexivity | discriminate].
  unfold bind_kwargs, rbind. cbn [name phone plan_key status razorpay_customer_id
    razorpay_sub_id trial_start_at activated_at cancelled_at cancel_at_period_end
    bind_text bind text_affinity].
  rewrite Hbind. reflexivity.
Qed.

(** X23: for an allow-listed, configured plan and a provider answer whose
    id SQLite can store, [create_subscription] returns that id with the
    public key id and leaves the subscriber in trial: [trial_start_at] read
    from the clock, the lower-cased plan key (one of standard, pro), name
    and phone of the request, flag cleared. An existing row of that email is
    reset the same way. *)
Theorem create_subscription_registers_trial (answer sub_id : json) (sid : option string) :
  rz_client E (create_call req server_plan_id) = Returned answer ->
  py_getitem answer "id" = Ok sub_id ->
  bind_text sub_id = Ok sid ->
  fst (create_subscription E req w)
  = Ok (JObj [("subscription_id", sub_id); ("key_id", JStr (RAZORPAY_KEY_ID E))])
  /\ exists r,
       find_subscriber (cs_email req) (db (snd (create_subscription E req w))) = Some r
       /\ s_status r = "trial"
       /\ s_trial_start_at r = Some (clock E (reads w))
       /\ s_plan_key r = lower (cs_plan_key req)
       /\ in_strs (s_plan_key r) ["standard"; "pro"] = true
       /\ s_name r = Some (cs_name req)
       /\ s_phone r = Some (cs_phone req)
       /\ s_cancel_at_period_end r = SInt 0
       /\ (sid <> None -> s_razorpay_sub_id r = sid).
Proof.
  intros Hgw Hitem Hbind.
  rewrite (create_subscription_run answer sub_id sid Hgw Hitem Hbind).
  cbn [fst snd db]. split; [reflexivity |].
  unfold find_subscriber. cbn [subscribers].
  erewrite find_upsert_rows by reflexivity.
  eexists. split; [reflexivity |].
  assert (in_strs (lower (cs_plan_key req)) ["standard"; "pro"] = true) as Hin.
  { unfold RAZORPAY_PLAN_IDS, in_strs in *. cbn [assoc existsb] in *.
    destruct (String.eqb (lower (cs_plan_key req)) "standard"); [reflexivity |].
    destruct (String.eqb (lower (cs_plan_key req)) "pro"); [reflexivity | discriminate]. }
  destruct (find _ _) as [old |];
    cbn [update_row create_bound s_status s_trial_start_at s_plan_key s_name s_phone
         s_cancel_at_period_end s_razorpay_sub_id or_keep or_keep_opt
         b_status b_trial_start_at b_plan_key b_name b_phone b_cancel_at_period_end
         b_razorpay_sub_id];
    repeat split; try reflexivity; try exact Hin;
    destruct sid; (reflexivity || (intros H; contradiction)).
Qed.

Lemma py_getitem_raises (o : json) (k : string) (e : exn) :
  py_getitem o k = Raise e -> e = KeyError \/ e = TypeError.
Proof.
  unfold py_getitem. destruct o as [| | | | | kvs];
    try (intros H; injection H as <-; now right).
  destruct (assoc k kvs); [discriminate |]. intros H; injection H as <-; now left.
Qed.

Lemma bind_text_raises (v : json) (e : exn) :
  bind_text v = Raise e -> e = OverflowError \/ e = BindError.
Proof.
  unfold bind_text, bind. destruct v; try discriminate.
  - destruct (int64 n); [discriminate |]. intros H; injection H as <-; now left.
  - intros H; injection H as <-; now right.
  - intros H; injection H as <-; now right.
Qed.

Lemma create_subscription_unbound_run (answer sub_id : json) (e : exn) :
  rz_client E (create_call req server_plan_id) = Returned answer ->
  py_getitem answer "id" = Ok sub_id ->
  bind_text sub_id = Raise e ->
  create_subscription E req w
  = (Raise (HTTPException 500 "Internal error"),
     {| db := db w; reads := S (S (reads w));
        gateway_calls := gateway_calls w ++ [create_call req server_plan_id] |}).
Proof.
  intros Hgw Hitem Hbind. rewrite create_subscription_try.
  unfold try_except, bind_M at 1, rz_call. rewrite Hgw.
  unfold bind_M at 1, lift. rewrite Hitem.
  unfold bind_M at 1, db_conn, bind_M at 1, utcnow.
  unfold upsert_subscriber. run.
  cbn [bind_text bind text_affinity db reads gateway_calls].
  unfold bind_kwargs, rbind. cbn [name phone plan_key status razorpay_customer_id
    razorpay_sub_id bind_text bind text_affinity any_field forallb is_None negb andb].
  rewrite Hbind.
  destruct (bind_text_raises _ _ Hbind) as [-> | ->];
    destruct (existsb _ _); reflexivity.
Qed.

(** X24: when creation fails the tables are untouched and exactly the one
    call was made: a BadRequestError of the provider is a 400 with the
    provider's message; any other provider failure, an answer without an
    id, or an id SQLite cannot bind, is a 500 Internal error. *)
Theorem create_subscription_failures :
  (forall msg,
      rz_client E (create_call req server_plan_id) = BadRequest msg ->
      create_subscription E req w
      = (Raise (HTTPException 400 msg),
         {| db := db w; reads := reads w; gateway_calls := gateway_calls w ++ [create_call req server_plan_id] |}))
  /\ (forall msg,
         rz_client E (create_call req server_plan_id) = Failed msg ->
         create_subscription E req w
         = (Raise (HTTPException 500 "Internal error"),
            {| db := db w; reads := reads w;
               gateway_calls := gateway_calls w ++ [create_call req server_plan_id] |}))
  /\ (forall answer e,
         rz_client E (create_call req server_plan_id) = Returned answer ->
         py_getitem answer "id" = Raise e ->
         create_subscription E req w
         = (Raise (HTTPException 500 "Internal error"),
            {| db := db w; reads := reads w;
               gateway_calls := gateway_calls w ++ [create_call req server_plan_id] |}))
  /\ (forall answer sub_id e,
         rz_client E (create_call req server_plan_id) = Returned answer ->
         py_getitem answer "id" = Ok sub_id ->
         bind_text sub_id = Raise e ->
         create_subscription E req w
         = (Raise (HTTPException 500 "Internal error"),
            {| db := db w; reads := S (S (reads w));
               gateway_calls := gateway_calls w ++ [create_call req server_plan_id] |})).
Proof.
  split; [| split; [| split]].
  - intros msg H. rewrite create_subscription_try.
    unfold try_except, bind_M at 1, rz_call. rewrite H. reflexivity.
  - intros msg H. rewrite create_subscription_try.
    unfold try_except, bind_M at 1, rz_call. rewrite H. reflexivity.
  - intros answer e H H0. rewrite create_subscription_try.
    unfold try_except, bind_M at 1, rz_call. rewrite H.
    unfold bind_M at 1, lift. rewrite H0.
    destruct (py_getitem_raises _ _ _ H0) as [-> | ->]; reflexivity.
  - intros answer sub_id e H H0 H1.
    exact (create_subscription_unbound_run answer sub_id e H H0 H1).
Qed.

End Creation.

(** ** Confirmation: the first record of a payment stays *)

Lemma filter_nonempty_existsb {A} (f : A -> bool) (l : list A) :
  filter f l <> [] -> existsb f l = true.
Proof.
  intros H. destruct (existsb f l) eqn:Hex; [reflexivity |].
  elim H. exact (not_existsb_filter _ _ Hex).
Qed.

Lemma insert_or_ignore_known (row : Payment) (l : list Payment) :
  existsb (fun q => String.eqb (p_razorpay_payment_id q) (p_razorpay_payment_id row)) l
  = true ->
  insert_or_ignore row l = l.
Proof. intros H. unfold insert_or_ignore. rewrite H. reflexivity. Qed.

Lemma insert_or_ignore_has (row : Payment) (l : list Payment) :
  existsb (fun q => String.eqb (p_razorpay_payment_id q) (p_razorpay_payment_id row))
    (insert_or_ignore row l) = true.
Proof.
  unfold insert_or_ignore.
  destruct (existsb _ l) eqn:Hex; [exact Hex |].
  rewrite existsb_app. cbn [existsb]. rewrite String.eqb_refl, orb_true_r.
  reflexivity.
Qed.

Section Confirmation.

Variable E : Env.
Variables (req : PaymentSuccessRequest) (w : World).

Hypothesis Hsig :
  verify_razorpay_signature E (ps_razorpay_payment_id req)
    (ps_razorpay_subscription_id req) (ps_razorpay_signature req) = Ok true.

(** X25: a verified confirmation whose payment id is already logged (by a
    webhook, or by an earlier confirmation) leaves [payment_log] as it is;
    so confirming twice logs once, and a confirmation adds at most the one
    row that was missing. *)
Theorem payment_success_first_record_stays :
  let w1 := snd (payment_success E req w) in
  (payments_with_id (ps_razorpay_payment_id req) (db w) <> [] ->
   payment_log (db w1) = payment_log (db w))
  /\ payment_log (db (snd (payment_success E req w1))) = payment_log (db w1)
  /\ List.length (payments_with_id (ps_razorpay_payment_id req) (db w1))
     = Nat.max 1 (List.length (payments_with_id (ps_razorpay_payment_id req) (db w))).
Proof.
  cbv zeta. rewrite (payment_success_run E req w Hsig). cbn [snd].
  rewrite (payment_success_run E req _ Hsig). cbn [snd db payment_log reads].
  split; [| split].
  - intros Hlogged. apply insert_or_ignore_known.
    apply filter_nonempty_existsb. exact Hlogged.
  - apply insert_or_ignore_known.
    exact (insert_or_ignore_has (confirm_row req (clock E (S (S (reads w))))) _).
  - unfold payments_with_id. cbn [payment_log]. unfold insert_or_ignore.
    cbn [confirm_row p_razorpay_payment_id].
    destruct (existsb _ (payment_log (db w))) eqn:Hex.
    + pose proof (existsb_filter_length _ _ Hex). lia.
    + rewrite filter_app, (not_existsb_filter _ _ Hex). cbn [filter app].
      rewrite String.eqb_refl. reflexivity.
Qed.

Hypothesis Hemail : ps_email req <> "".

(** X26: after a verified confirmation, the status query for that email
    answers without writing and reports the subscriber active, with the plan
    key, name and subscription id of the confirmation, [activated_at] read
    at the confirmation, and the flag off. *)
Theorem subscription_status_after_payment_success :
  exists answer,
    subscription_status (ps_email req) (snd (payment_success E req w))
    = (Ok answer, snd (payment_success E req w))
    /\ py_getitem answer "email" = Ok (JStr (ps_email req))
    /\ py_getitem answer "status" = Ok (JStr "active")
    /\ py_getitem answer "active" = Ok (JBool true)
    /\ py_getitem answer "plan_key" = Ok (JStr (ps_plan_key req))
    /\ py_getitem answer "name" = Ok (JStr (ps_name req))
    /\ py_getitem answer "razorpay_sub_id" = Ok (JStr (ps_razorpay_subscription_id req))
    /\ py_getitem answer "activated_at" = Ok (JStr (clock E (reads w)))
    /\ py_getitem answer "cancel_at_period_end" = Ok (JBool false)
    /\ py_getitem answer "updated_at" = Ok (JStr (clock E (S (reads w)))).
Proof.
  rewrite (payment_success_run E req w Hsig).
  cbn [snd]. unfold subscription_status.
  apply String.eqb_neq in Hemail. rewrite Hemail.
  run. cbn [db]. unfold find_subscriber. cbn [subscribers].
  erewrite find_upsert_rows by reflexivity.
  destruct (find _ (subscribers (db w))) as [old |] eqn:Hold.
  - eexists. split; [reflexivity |].
    apply find_some in Hold. destruct Hold as [_ Hold].
    apply String.eqb_eq in Hold.
    cbn. rewrite Hold. repeat split; reflexivity.
  - eexists. split; [reflexivity |]. cbn. repeat split; reflexivity.
Qed.

End Confirmation.

(* ================================================================== *)
(** * The further properties on the concrete deployment *)

(** ** Sequences of requests *)

(** Create, confirm, charge, cancel, on an empty ledger. *)
Lemma serve_keeps_unique_witness :
  db_ok
    (db (serve Demo.env
           [CreateSubscription (Demo.create_req "standard");
            PaymentSuccess (Demo.confirm_req "pro" Demo.confirm_signature);
            RazorpayWebhook Demo.charged_body (Some Demo.charged_signature);
            CancelSubscription {| cr_email := "a@x.com" |}]
           Demo.world0)).
Proof.
  apply (serve_keeps_unique Demo.env). split; constructor.
Defined.

(** The confirmed payment is logged once; the charge of the same payment id
    that follows adds no second row. *)
Example serve_confirm_then_charge :
  map p_event_type
    (payment_log
       (db (serve Demo.env
              [CreateSubscription (Demo.create_req "standard");
               PaymentSuccess (Demo.confirm_req "pro" Demo.confirm_signature);
               RazorpayWebhook Demo.charged_body (Some Demo.charged_signature)]
              Demo.world0)))
  = [Some "manual_success"].
Proof. vm_compute. reflexivity. Qed.

(** An upsert for b@x.com leaves the row of a@x.com alone. *)
Lemma upsert_subscriber_touches_one_row_witness :
  find_subscriber "a@x.com"
    (db (snd (upsert_subscriber Demo.env (JStr "b@x.com")
                {| name := JStr "B"; phone := JNull; plan_key := JStr "pro";
                   status := JStr "active"; razorpay_customer_id := JNull;
                   razorpay_sub_id := JNull; trial_start_at := JNull;
                   activated_at := JNull; cancelled_at := JNull;
                   cancel_at_period_end := JInt 0 |}
                Demo.world_trial)))
  = find_subscriber "a@x.com" (db Demo.world_trial).
Proof.
  apply (upsert_subscriber_touches_one_row Demo.env (JStr "b@x.com")
           {| name := JStr "B"; phone := JNull; plan_key := JStr "pro";
              status := JStr "active"; razorpay_customer_id := JNull;
              razorpay_sub_id := JNull; trial_start_at := JNull;
              activated_at := JNull; cancelled_at := JNull;
              cancel_at_period_end := JInt 0 |}
           Demo.world_trial "a@x.com").
  vm_compute. discriminate.
Defined.

(** ** Deliveries *)

Ltac delivered := vm_compute; first [ reflexivity | discriminate ].

(** A charge with a tampered signature: acknowledged, audited, not applied. *)
Lemma razorpay_webhook_signature_invalid_witness :
  razorpay_webhook Demo.env Demo.charged_body (Some "tampered") Demo.world_trial
  = (Ok (JObj [("status", JStr "signature_invalid")]),
     world_after_audit
       {| w_event := Some "subscription.charged"; w_entity_id := Some "sub_1";
          w_payload := Some (json_dumps Demo.env Demo.charged_payload);
          w_signature_ok := 0;
          w_received_at := clock Demo.env (reads Demo.world_trial) |}
       Demo.world_trial).
Proof.
  apply (razorpay_webhook_signature_invalid Demo.env Demo.charged_body (Some "tampered")
           Demo.charged_payload (JStr "subscription.charged")
           (Some "subscription.charged") (Some "sub_1") Demo.world_trial); delivered.
Defined.

(** subscription.paused is not an event of the handler. *)
Lemma razorpay_webhook_unknown_event_witness :
  Scenario.deliver Scenario.paused_payload Scenario.world_pro
  = (Ok (JObj [("status", JStr "processed")]),
     world_after_audit
       {| w_event := Some "subscription.paused"; w_entity_id := Some "sub_1";
          w_payload := Some (json_dumps Scenario.env Scenario.paused_payload);
          w_signature_ok := 1;
          w_received_at := clock Scenario.env (reads Scenario.world_pro) |}
       Scenario.world_pro).
Proof.
  apply (razorpay_webhook_unknown_event Scenario.env
           (Scenario.body_of Scenario.paused_payload)
           (Scenario.signed Scenario.paused_payload)
           Scenario.paused_payload (JStr "subscription.paused")
           (Some "subscription.paused") (Some "sub_1") Scenario.world_pro); delivered.
Defined.


(** The provider cancels the pro subscription of a@x.com. *)
Lemma subscription_cancelled_event_witness :
  fst (Scenario.deliver Scenario.cancelled_payload Scenario.world_pro)
  = Ok (JObj [("status", JStr "processed")])
  /\ exists r,
       find_subscriber "a@x.com"
         (db (snd (Scenario.deliver Scenario.cancelled_payload Scenario.world_pro)))
       = Some r
       /\ s_status r = "cancelled"
       /\ s_cancelled_at r = Some (clock Scenario.env (S (reads Scenario.world_pro)))
       /\ s_razorpay_sub_id r = Some "sub_1"
       /\ s_plan_key r = "standard"
       /\ s_cancel_at_period_end r = SInt 0.
Proof.
  apply (subscription_cancelled_event Scenario.env
           (Scenario.body_of Scenario.cancelled_payload)
           (Scenario.signed Scenario.cancelled_payload)
           Scenario.cancelled_payload Scenario.subscription_only (Some "sub_1")
           Scenario.world_pro)
    with (plan_key' := JStr "pro"); delivered.
Defined.

(** The subscription of a@x.com, cancelled at tick-3, runs out. *)
Lemma subscription_completed_event_witness :
  fst (Scenario.deliver Scenario.completed_payload Scenario.world_cancelled)
  = Ok (JObj [("status", JStr "processed")])
  /\ exists r,
       find_subscriber "a@x.com"
         (db (snd (Scenario.deliver Scenario.completed_payload Scenario.world_cancelled)))
       = Some r
       /\ s_status r = "expired"
       /\ s_razorpay_sub_id r = Some "sub_1"
       /\ s_plan_key r = "standard"
       /\ s_cancel_at_period_end r = SInt 0
       /\ s_cancelled_at r
          = match find_subscriber "a@x.com" (db Scenario.world_cancelled) with
            | Some old => s_cancelled_at old
            | None => None
            end.
Proof.
  apply (subscription_completed_event Scenario.env
           (Scenario.body_of Scenario.completed_payload)
           (Scenario.signed Scenario.completed_payload)
           Scenario.completed_payload Scenario.subscription_only (Some "sub_1")
           Scenario.world_cancelled)
    with (plan_key' := JStr "pro"); delivered.
Defined.


(** A charge whose amount is a list: an error, and the cancelled subscriber
    stays cancelled. *)
Lemma charged_event_rolled_back_witness :
  fst (Scenario.deliver Scenario.list_amount_payload Scenario.world_cancelled)
  = Raise BindError
  /\ db (snd (Scenario.deliver Scenario.list_amount_payload Scenario.world_cancelled))
     = db (world_after_audit
             (charged_audit Scenario.env Scenario.list_amount_payload "pay_3" "sub_1"
                Scenario.world_cancelled)
             Scenario.world_cancelled).
Proof.
  apply (charged_event_rolled_back Scenario.env
           (Scenario.body_of Scenario.list_amount_payload)
           (Scenario.signed Scenario.list_amount_payload)
           Scenario.list_amount_payload Scenario.list_amount_entity
           Scenario.world_cancelled)
    with (c := "+1") (e := "a@x.com") (pk := "pro") (amount := JArr [JInt 49900]);
    delivered.
Defined.

(** A charge whose amount is the text 49900: an error, and the payment is
    logged with the integer 49900. *)
Lemma charged_event_committed_then_fails_witness :
  fst (Scenario.deliver Scenario.text_amount_payload Scenario.world_pro)
  = Raise TypeError
  /\ payment_log (db (snd (Scenario.deliver Scenario.text_amount_payload
                             Scenario.world_pro)))
     = insert_or_ignore
         (charge_row "a@x.com" "+1" "pro" "pay_2" "sub_1" (SInt 49900)
            (json_dumps Scenario.env Scenario.text_amount_payload)
            (clock Scenario.env (S (S (reads Scenario.world_pro)))))
         (payment_log (db Scenario.world_pro))
  /\ subscriber_status "a@x.com"
       (snd (Scenario.deliver Scenario.text_amount_payload Scenario.world_pro))
     = Some "active".
Proof.
  apply (charged_event_committed_then_fails Scenario.env
           (Scenario.body_of Scenario.text_amount_payload)
           (Scenario.signed Scenario.text_amount_payload)
           Scenario.text_amount_payload Scenario.text_amount_entity
           Scenario.world_pro)
    with (amount := JStr "49900") (amt := SText "49900"); delivered.
Defined.

(** The amount came as the text 49900; the column holds the integer. *)
Example charged_text_amount_stored :
  map p_amount_paise
    (payment_log (db (snd (Scenario.deliver Scenario.text_amount_payload
                             Scenario.world_pro))))
  = [SInt 49900].
Proof. vm_compute. reflexivity. Qed.

(** A charge arrives for a subscription the provider had cancelled. *)
Lemma charged_event_resets_row_witness :
  subscriber_status "a@x.com" Scenario.world_cancelled = Some "cancelled"
  /\ exists r,
       find_subscriber "a@x.com"
         (db (snd (Scenario.deliver Scenario.text_amount_payload
                     Scenario.world_cancelled)))
       = Some r
       /\ s_status r = "active"
       /\ s_plan_key r = "pro"
       /\ s_razorpay_sub_id r = Some "sub_1"
       /\ s_cancel_at_period_end r = SInt 0
       /\ s_activated_at r
          = match find_subscriber "a@x.com" (db Scenario.world_cancelled) with
            | Some old => s_activated_at old
            | None => None
            end.
Proof.
  split; [delivered |].
  apply (charged_event_resets_row Scenario.env
           (Scenario.body_of Scenario.text_amount_payload)
           (Scenario.signed Scenario.text_amount_payload)
           Scenario.text_amount_payload Scenario.text_amount_entity
           Scenario.world_cancelled)
    with (p := "pay_2") (c := "+1") (amount := JStr "49900") (amt := SText "49900");
    delivered.
Defined.

(** Scenario C delivered again. *)
Lemma charged_event_already_logged_witness :
  payment_log
    (db (snd (razorpay_webhook Demo.env Demo.charged_body (Some Demo.charged_signature)
                Scenario.world_charged)))
  = payment_log (db Scenario.world_charged).
Proof.
  apply (charged_event_already_logged Demo.env Demo.charged_body
           (Some Demo.charged_signature) Demo.charged_payload Demo.charged_entity
           Scenario.world_charged)
    with (p := "pay_1") (c := "+1") (sid := "sub_1") (e := "a@x.com") (pk := "standard")
         (amount := JInt 19900) (amt := SInt 19900);
    delivered.
Defined.

(** A failed payment without a payment id, for an email not seen before. *)
Lemma payment_failed_event_witness :
  fst (Scenario.deliver Scenario.failed_payload Demo.world0)
  = Ok (JObj [("status", JStr "processed")])
  /\ subscriber_status "b@x.com" (snd (Scenario.deliver Scenario.failed_payload Demo.world0))
     = Some "payment_failed"
  /\ payment_log (db (snd (Scenario.deliver Scenario.failed_payload Demo.world0)))
     = (if String.eqb "" ""
        then insert_or_ignore
               (failed_row "b@x.com"
                  ("fail_" ++ clock Scenario.env (S (S (reads Demo.world0))))%string
                  "sub_2" (json_dumps Scenario.env Scenario.failed_payload)
                  (clock Scenario.env (S (S (S (reads Demo.world0))))))
        else insert_or_ignore
               (failed_row "b@x.com" "" "sub_2"
                  (json_dumps Scenario.env Scenario.failed_payload)
                  (clock Scenario.env (S (S (reads Demo.world0))))))
         (payment_log (db Demo.world0)).
Proof.
  apply (payment_failed_event Scenario.env
           (Scenario.body_of Scenario.failed_payload)
           (Scenario.signed Scenario.failed_payload)
           Scenario.failed_payload Scenario.failed_entity
           (JObj [("entity", Scenario.failed_data)]) Scenario.failed_data
           "sub_2" "b@x.com" "" (Some "") Demo.world0); delivered.
Defined.

(** The row it is logged under. *)
Example payment_failed_without_id :
  map p_razorpay_payment_id
    (payment_log (db (snd (Scenario.deliver Scenario.failed_payload Demo.world0))))
  = ["fail_tick-2"].
Proof. vm_compute. reflexivity. Qed.

(** ** Cancellation *)

(** b@x.com, known only from a failed payment, cancels: no call goes out,
    and the status written is active. *)
Lemma cancel_subscription_without_upstream_id_witness :
  http_status (fst (cancel_subscription Scenario.env {| cr_email := "b@x.com" |}
                      Scenario.world_failed)) = 200
  /\ gateway_calls (snd (cancel_subscription Scenario.env {| cr_email := "b@x.com" |}
                           Scenario.world_failed))
     = gateway_calls Scenario.world_failed
  /\ exists r',
       find_subscriber "b@x.com"
         (db (snd (cancel_subscription Scenario.env {| cr_email := "b@x.com" |}
                     Scenario.world_failed)))
       = Some r'
       /\ s_cancel_at_period_end r' = SInt 1
       /\ s_status r' = "active".
Proof.
  apply (cancel_subscription_without_upstream_id Scenario.env {| cr_email := "b@x.com" |}
           Scenario.world_failed Scenario.failed_subscriber); try delivered.
  left. reflexivity.
Defined.

(** a@x.com on the pro plan cancels and is on the standard plan. *)
Lemma cancel_subscription_rewrites_plan_key_witness :
  find_subscriber "a@x.com"
    (db (snd (cancel_subscription Scenario.env {| cr_email := "a@x.com" |}
                Scenario.world_pro)))
  = Some {| s_email := "a@x.com"; s_name := Some "A"; s_phone := Some "+1";
            s_plan_key := "standard"; s_status := "active";
            s_razorpay_customer_id := None;
            s_razorpay_sub_id := Some "sub_1";
            s_created_at := "tick-1";
            s_trial_start_at := Some "tick-0";
            s_activated_at := None;
            s_cancelled_at := None;
            s_cancel_at_period_end := SInt 1;
            s_updated_at := clock Scenario.env (reads Scenario.world_pro) |}.
Proof.
  apply (cancel_subscription_rewrites_plan_key Scenario.env {| cr_email := "a@x.com" |}
           Scenario.world_pro Scenario.pro_row "sub_1" (JObj [("id", JStr "sub_1")]));
    delivered.
Defined.

(** ** Creation *)

(** The plan key PRO is accepted and stored as pro. *)
Lemma create_subscription_registers_trial_witness :
  fst (create_subscription Demo.env (Demo.create_req "PRO") Demo.world0)
  = Ok (JObj [("subscription_id", JStr "sub_1");
              ("key_id", JStr (RAZORPAY_KEY_ID Demo.env))])
  /\ exists r,
       find_subscriber "a@x.com"
         (db (snd (create_subscription Demo.env (Demo.create_req "PRO") Demo.world0)))
       = Some r
       /\ s_status r = "trial"
       /\ s_trial_start_at r = Some (clock Demo.env (reads Demo.world0))
       /\ s_plan_key r = lower "PRO"
       /\ in_strs (s_plan_key r) ["standard"; "pro"] = true
       /\ s_name r = Some "A"
       /\ s_phone r = Some "+1"
       /\ s_cancel_at_period_end r = SInt 0
       /\ (Some "sub_1" <> None -> s_razorpay_sub_id r = Some "sub_1").
Proof.
  apply (create_subscription_registers_trial Demo.env (Demo.create_req "PRO") Demo.world0
           "plan_pro")
    with (answer := JObj [("id", JStr "sub_1")]); delivered.
Defined.

(** The provider cannot be reached: 500, the call on record, no row. *)
Lemma create_subscription_failures_witness :
  create_subscription Demo.env_down (Demo.create_req "standard") Demo.world0
  = (Raise (HTTPException 500 "Internal error"),
     {| db := db Demo.world0; reads := reads Demo.world0;
        gateway_calls :=
          gateway_calls Demo.world0
            ++ [create_call (Demo.create_req "standard") "plan_standard"] |}).
Proof.
  apply (proj1 (proj2 (create_subscription_failures Demo.env_down
                         (Demo.create_req "standard") Demo.world0 "plan_standard"
                         eq_refl ltac:(discriminate)))
           "connection timed out").
  reflexivity.
Defined.

(** ** Confirmation *)

(** Scenario C, then the confirmation of the same payment. *)
Lemma payment_success_first_record_stays_witness :
  let req := Demo.confirm_req "standard" Demo.confirm_signature in
  let w1 := snd (payment_success Demo.env req Scenario.world_charged) in
  (payments_with_id "pay_1" (db Scenario.world_charged) <> [] ->
   payment_log (db w1) = payment_log (db Scenario.world_charged))
  /\ payment_log (db (snd (payment_success Demo.env req w1))) = payment_log (db w1)
  /\ List.length (payments_with_id "pay_1" (db w1))
     = Nat.max 1 (List.length (payments_with_id "pay_1" (db Scenario.world_charged))).
Proof.
  apply (payment_success_first_record_stays Demo.env
           (Demo.confirm_req "standard" Demo.confirm_signature) Scenario.world_charged).
  delivered.
Defined.

(** Scenario A confirmed, then queried. *)
Lemma subscription_status_after_payment_success_witness :
  exists answer,
    subscription_status "a@x.com"
      (snd (payment_success Demo.env (Demo.confirm_req "pro" Demo.confirm_signature)
              Demo.world_trial))
    = (Ok answer,
       snd (payment_success Demo.env (Demo.confirm_req "pro" Demo.confirm_signature)
              Demo.world_trial))
    /\ py_getitem answer "status" = Ok (JStr "active")
    /\ py_getitem answer "active" = Ok (JBool true)
    /\ py_getitem answer "plan_key" = Ok (JStr "pro").
Proof.
  destruct (subscription_status_after_payment_success Demo.env
              (Demo.confirm_req "pro" Demo.confirm_signature) Demo.world_trial
              eq_refl ltac:(discriminate))
    as (answer & Hrun & _ & Hstatus & Hactive & Hplan & _).
  exists answer. repeat split; assumption.
Defined.
